(** * The financial ledger of the school-management backend

    A shallow embedding of [src/financial.py] (the Flask blueprint
    [financial_bp]): invoices, payments and the two reports, with the
    database as an explicit value that every handler receives and returns.

    Conventions.
    - Money is a [Decimal] in the source.  Its arithmetic and comparisons are
      exact, so an amount is an integer number of the smallest currency
      unit, in [Z].
    - A [date] is its day number (proleptic ordinal) in [Z]; the difference
      of two dates in days is the difference of the numbers.
    - Strings stay strings ([role_type], [status], [payment_method]): the
      source compares them with string literals.
    - A table is the list of its rows; [db.session.add] appends.  The store
      is the SQLite file of [src/main.py]: a scan of [invoices] returns the
      rows by rowid, which is the primary key [invoice_id], and an integer
      bound to a statement has to fit the signed 64-bit range.  The
      integers a handler reads from the request (URL, JSON body, query
      string) are checked against that range where it binds them; the id
      of the user comes from the verified token and is a key of the store.
    - A handler returns a [response] and the database after the request;
      [except Exception: rollback; 500] is the [Err 500] answer with the
      database left as it was. *)

From Stdlib Require Import ZArith List String Ascii Bool Lia.
From Stdlib Require Import Sorted Permutation.
From Stdlib Require Import DecimalString DecimalN.
Import ListNotations.
Open Scope Z_scope.

Set Implicit Arguments.

(** ** Answers of a handler *)

(** [Json code body] is [jsonify(body), code]; [Err code msg] is
    [jsonify({'error': msg}), code]. *)
Inductive response (A : Type) : Type :=
| Json (code : Z) (body : A)
| Err (code : Z) (error : string).

Arguments Json {A} code body.
Arguments Err {A} code error.

Definition status_code {A} (r : response A) : Z :=
  match r with
  | Json c _ => c
  | Err c _ => c
  end.

(** ** Request values *)

(** A non-empty text handed to a parser ([Decimal(str(..))],
    [datetime.strptime]): what it parses to, or the text [str(e)] of the
    exception the parser raises. *)
Inductive parsed (A : Type) : Type :=
| Valid (a : A)
| Invalid (error : string).

Arguments Valid {A} a.
Arguments Invalid {A} error.

(** The JSON value under an amount key: a number, or a non-empty string. *)
Inductive JsonAmount : Type :=
| JNumber (v : Z)
| JText (p : parsed Z).

(** [Decimal(str(x))]. *)
Definition decimal_of (x : JsonAmount) : parsed Z :=
  match x with
  | JNumber v => Valid v
  | JText p => p
  end.

(** Python truthiness of [data.get(field)]: an absent key, [0] and the empty
    string are false. *)
Definition truthy_int (o : option Z) : bool :=
  match o with
  | Some z => negb (z =? 0)
  | None => false
  end.

Definition truthy_str (o : option string) : bool :=
  match o with
  | Some s => negb (s =? "")%string
  | None => false
  end.

Definition truthy_amount (o : option JsonAmount) : bool :=
  match o with
  | Some (JNumber v) => negb (v =? 0)
  | Some (JText _) => true
  | None => false
  end.

Definition truthy_text {A} (o : option (parsed A)) : bool :=
  match o with
  | Some _ => true
  | None => false
  end.

(** ** Rows *)

Definition date := Z.

(** The payload [token_required] stores in [request.current_user]. *)
Record CurrentUser : Type := {
  user_id : Z;
  role_type : string
}.

Record Student : Type := {
  student_id : Z;
  student_user_id : Z
}.

Record FeeStructure : Type := {
  fee_id : Z;
  fee_name : string;
  fee_amount : Z;
  fee_type : string
}.

Record Invoice : Type := {
  invoice_id : Z;
  invoice_student_id : Z;
  invoice_fee_id : Z;
  invoice_number : string;
  amount : Z;
  discount : Z;
  total_amount : Z;
  issue_date : date;
  due_date : date;
  status : string
}.

Record Payment : Type := {
  payment_id : Z;
  payment_invoice_id : Z;
  payment_student_id : Z;
  payment_method : string;
  payment_amount : Z;
  transaction_id : option string;
  payment_status : string;
  processed_by : Z;
  gateway_response : option string
}.

Record Db : Type := {
  students : list Student;
  fee_structures : list FeeStructure;
  invoices : list Invoice;
  payments : list Payment
}.

(** The row [i] after [i.status = st]. *)
Definition set_status (st : string) (i : Invoice) : Invoice :=
  {| invoice_id := invoice_id i;
     invoice_student_id := invoice_student_id i;
     invoice_fee_id := invoice_fee_id i;
     invoice_number := invoice_number i;
     amount := amount i;
     discount := discount i;
     total_amount := total_amount i;
     issue_date := issue_date i;
     due_date := due_date i;
     status := st |}.

(** ** Queries *)

(** The row of [invoices] with primary key [id], if there is one. *)
Definition get_invoice_row (db : Db) (id : Z) : option Invoice :=
  find (fun i => invoice_id i =? id) (invoices db).

(** What the SQLite driver accepts as an integer parameter: the signed
    64-bit range.  Outside it, binding the parameter raises
    [OverflowError]. *)
Definition fits_int64 (z : Z) : bool :=
  (- 2 ^ 63 <=? z) && (z <=? 2 ^ 63 - 1).

(** [Invoice.query.get(id)]: the row, or none, or the [OverflowError] of
    the driver for an [id] it cannot bind. *)
Definition query_get_invoice (db : Db) (id : Z) : parsed (option Invoice) :=
  if fits_int64 id then Valid (get_invoice_row db id)
  else Invalid "Python int too large to convert to SQLite INTEGER".

(** [Student.query.filter_by(user_id=uid).first()]. *)
Definition student_of_user (db : Db) (uid : Z) : option Student :=
  find (fun s => student_user_id s =? uid) (students db).

(** The relationships [invoice.student] and [invoice.fee_structure]. *)
Definition invoice_student (db : Db) (i : Invoice) : option Student :=
  find (fun s => student_id s =? invoice_student_id i) (students db).

Definition invoice_fee_structure (db : Db) (i : Invoice) : option FeeStructure :=
  find (fun f => fee_id f =? invoice_fee_id i) (fee_structures db).

(** The relationship [invoice.payments]. *)
Definition invoice_payments (db : Db) (i : Invoice) : list Payment :=
  filter (fun p => payment_invoice_id p =? invoice_id i) (payments db).

(** [sum(p.amount for p in ps)], and SQL's [coalesce(sum(..), 0)]. *)
Definition sum_amounts (ps : list Payment) : Z :=
  fold_right (fun p acc => payment_amount p + acc) 0 ps.

(** [p.status == 'Completed']. *)
Definition completed (p : Payment) : bool :=
  (payment_status p =? "Completed")%string.

(** Modelled from the spec: [Invoice.calculate_balance] lives in
    [src/models/financial.py], which is not among the sources.  The spec
    gives it as total_amount minus the sum of the amounts of the payments
    on this invoice whose status is Completed, recomputed from the rows. *)
Definition calculate_balance (db : Db) (i : Invoice) : Z :=
  total_amount i - sum_amounts (filter completed (invoice_payments db i)).

(** Modelled from the spec: the column default of [Invoice.status], also in
    [src/models/financial.py]; the spec has a new invoice Pending. *)
Definition default_invoice_status : string := "Pending".

(** The next value of an autoincrement primary key. *)
Definition next_id (ids : list Z) : Z :=
  1 + fold_right Z.max 0 ids.

(** [role in ['admin', 'staff']]. *)
Definition is_admin_or_staff (role : string) : bool :=
  existsb (String.eqb role) ["admin"; "staff"]%string.

(** The permission check shared by [get_invoice] and [create_payment]:
    a student must own the invoice, anyone else must be admin or staff. *)
Definition may_access_invoice (cu : CurrentUser) (db : Db) (i : Invoice) : bool :=
  if (role_type cu =? "student")%string then
    match student_of_user db (user_id cu) with
    | None => false
    | Some s => invoice_student_id i =? student_id s
    end
  else is_admin_or_staff (role_type cu).

(** ** create_payment *)

Record PaymentData : Type := {
  p_invoice_id : option Z;
  p_payment_method : option string;
  p_amount : option JsonAmount;
  p_transaction_id : option string;
  p_status : option string;
  p_gateway_response : option string
}.


(** The text of an exception, as [str(e)] gives it to the 500 answer. *)
Definition key_error : string := "KeyError".
Definition overflow_error : string :=
  "Python int too large to convert to SQLite INTEGER".
Definition none_has_no_to_dict : string :=
  "'NoneType' object has no attribute 'to_dict'".

(** The loop over [required_fields], which reports the first falsy field,
    followed by the reads [data['invoice_id']], [data['payment_method']] and
    [data['amount']]. *)
Definition payment_required_fields (data : PaymentData)
  : (Z * string) + (Z * string * JsonAmount) :=
  if negb (truthy_int (p_invoice_id data)) then
    inl (400, "invoice_id is required"%string)
  else if negb (truthy_str (p_payment_method data)) then
    inl (400, "payment_method is required"%string)
  else if negb (truthy_amount (p_amount data)) then
    inl (400, "amount is required"%string)
  else
    match p_invoice_id data, p_payment_method data, p_amount data with
    | Some iid, Some m, Some a => inr (iid, m, a)
    | _, _, _ => inl (500, key_error)
    end.

(** [data.get('status', 'Completed')]. *)
Definition supplied_status (data : PaymentData) : string :=
  match p_status data with
  | Some s => s
  | None => "Completed"%string
  end.

(** [data.get('gateway_response')] is stored only when truthy. *)
Definition stored_gateway_response (data : PaymentData) : option string :=
  if truthy_str (p_gateway_response data) then p_gateway_response data else None.

(** The status written by the block "Update invoice status if fully paid". *)
Definition status_after_payment (new_balance : Z) (old : string) : string :=
  if new_balance <=? 0 then "Paid"%string
  else if (old =? "Pending")%string then "Partial"%string
  else old.

(** [invoice.status = st] on the row whose primary key is [id]. *)
Definition update_invoice_status (id : Z) (st : string) (l : list Invoice)
  : list Invoice :=
  map (fun i => if invoice_id i =? id then set_status st i else i) l.

(** The handler of [POST /payments].  [Decimal(str(..))] around
    [calculate_balance] changes nothing on an exact amount. *)
Definition create_payment (cu : CurrentUser) (data : PaymentData) (db : Db)
  : response Payment * Db :=
  match payment_required_fields data with
  | inl (code, msg) => (Err code msg, db)
  | inr (iid, method, a) =>
      match query_get_invoice db iid with
      | Invalid e => (Err 500 e, db)
      | Valid None => (Err 404 "Invoice not found", db)
      | Valid (Some invoice) =>
          if negb (may_access_invoice cu db invoice) then
            (Err 403 "Access denied", db)
          else
            match decimal_of a with
            | Invalid e => (Err 500 e, db)
            | Valid amt =>
                if amt <=? 0 then
                  (Err 400 "Payment amount must be positive", db)
                else
                  let outstanding_balance := calculate_balance db invoice in
                  if amt >? outstanding_balance then
                    (Err 400 "Payment amount exceeds outstanding balance", db)
                  else
                    let payment :=
                      {| payment_id := next_id (map payment_id (payments db));
                         payment_invoice_id := iid;
                         payment_student_id := invoice_student_id invoice;
                         payment_method := method;
                         payment_amount := amt;
                         transaction_id := p_transaction_id data;
                         payment_status := supplied_status data;
                         processed_by := user_id cu;
                         gateway_response := stored_gateway_response data |} in
                    let new_balance := outstanding_balance - amt in
                    let st := status_after_payment new_balance (status invoice) in
                    (Json 201 payment,
                     {| students := students db;
                        fee_structures := fee_structures db;
                        invoices :=
                          update_invoice_status (invoice_id invoice) st (invoices db);
                        payments := payments db ++ [payment] |})
            end
      end
  end.

(** The amount a request asks to pay, when it carries one that parses. *)
Definition requested_amount (data : PaymentData) : option Z :=
  match p_amount data with
  | Some a => match decimal_of a with Valid v => Some v | Invalid _ => None end
  | None => None
  end.

(** The invoice a request addresses: what [Invoice.query.get] finds for its
    [invoice_id]. *)
Definition target_invoice (data : PaymentData) (db : Db) : option Invoice :=
  match p_invoice_id data with
  | Some iid =>
      match query_get_invoice db iid with
      | Valid row => row
      | Invalid _ => None
      end
  | None => None
  end.

(** ** create_invoice *)

Record InvoiceData : Type := {
  i_student_id : option Z;
  i_fee_id : option Z;
  i_amount : option JsonAmount;
  i_due_date : option (parsed date);
  i_discount : option JsonAmount;
  i_issue_date : option (parsed date)
}.

(** The decorator [role_required(allowed_roles)]. *)
Definition role_required (allowed_roles : list string) (cu : CurrentUser) : bool :=
  existsb (String.eqb (role_type cu)) allowed_roles.

Definition invoice_required_fields (data : InvoiceData)
  : (Z * string) + (Z * Z * JsonAmount * parsed date) :=
  if negb (truthy_int (i_student_id data)) then
    inl (400, "student_id is required"%string)
  else if negb (truthy_int (i_fee_id data)) then
    inl (400, "fee_id is required"%string)
  else if negb (truthy_amount (i_amount data)) then
    inl (400, "amount is required"%string)
  else if negb (truthy_text (i_due_date data)) then
    inl (400, "due_date is required"%string)
  else
    match i_student_id data, i_fee_id data, i_amount data, i_due_date data with
    | Some sid, Some fid, Some a, Some d => inr (sid, fid, a, d)
    | _, _, _, _ => inl (500, key_error)
    end.

(** The decimal digits of a natural number, most significant first. *)
Definition digits (n : N) : string :=
  NilEmpty.string_of_uint (N.to_uint n).

Fixpoint zeros (k : nat) : string :=
  match k with
  | O => EmptyString
  | S k' => String "0" (zeros k')
  end.

(** Zero padding on the left up to [width] characters. *)
Definition zfill (width : nat) (s : string) : string :=
  (zeros (width - String.length s) ++ s)%string.

(** The format [:06d]: the sign counts in the width. *)
Definition format_06d (z : Z) : string :=
  if z <? 0 then ("-" ++ zfill 5 (digits (Z.abs_N z)))%string
  else zfill 6 (digits (Z.to_N z)).

(** [Invoice.query.count()]. *)
Definition invoice_count (db : Db) : Z :=
  Z.of_nat (List.length (invoices db)).

Definition make_invoice_number (db : Db) : string :=
  ("INV" ++ format_06d (invoice_count db + 1))%string.

(** [Decimal(str(data.get('discount', 0)))]. *)
Definition discount_of (data : InvoiceData) : parsed Z :=
  match i_discount data with
  | Some a => decimal_of a
  | None => Valid 0
  end.

(** [strptime(data['issue_date'], ..).date() if data.get('issue_date') else
    date.today()]. *)
Definition issue_date_of (today : date) (data : InvoiceData) : parsed date :=
  match i_issue_date data with
  | Some p => p
  | None => Valid today
  end.

(** The handler of [POST /invoices], under [role_required(['admin',
    'staff'])]; [today] is [date.today()].  The INSERT at [commit] binds
    [student_id] and [fee_id] as they came in the request: outside the
    range of the store it raises, and the handler rolls back and answers
    500.  SQLite does not enforce the foreign keys. *)
Definition create_invoice (cu : CurrentUser) (today : date) (data : InvoiceData)
  (db : Db) : response Invoice * Db :=
  if negb (role_required ["admin"; "staff"]%string cu) then
    (Err 403 "Insufficient permissions", db)
  else
    match invoice_required_fields data with
    | inl (code, msg) => (Err code msg, db)
    | inr (sid, fid, a, due) =>
        let invoice_number := make_invoice_number db in
        match decimal_of a with
        | Invalid e => (Err 500 e, db)
        | Valid amt =>
            match discount_of data with
            | Invalid e => (Err 500 e, db)
            | Valid disc =>
                let total := amt - disc in
                match issue_date_of today data, due with
                | Invalid e, _ => (Err 500 e, db)
                | Valid _, Invalid e => (Err 500 e, db)
                | Valid issued, Valid due_day =>
                  if negb (fits_int64 sid && fits_int64 fid) then
                    (Err 500 overflow_error, db)
                  else
                    let invoice :=
                      {| invoice_id := next_id (map invoice_id (invoices db));
                         invoice_student_id := sid;
                         invoice_fee_id := fid;
                         invoice_number := invoice_number;
                         amount := amt;
                         discount := disc;
                         total_amount := total;
                         issue_date := issued;
                         due_date := due_day;
                         status := default_invoice_status |} in
                    (Json 201 invoice,
                     {| students := students db;
                        fee_structures := fee_structures db;
                        invoices := invoices db ++ [invoice];
                        payments := payments db |})
                end
            end
        end
    end.

(** A sequence of creation requests served one after the other: the
    invoices created, in order, and the final database. *)
Fixpoint create_invoices (cu : CurrentUser) (today : date)
  (reqs : list InvoiceData) (db : Db) : list Invoice * Db :=
  match reqs with
  | [] => ([], db)
  | data :: rest =>
      match create_invoice cu today data db with
      | (Json _ inv, db') =>
          let (created, db'') := create_invoices cu today rest db' in
          (inv :: created, db'')
      | (Err _ _, db') => create_invoices cu today rest db'
      end
  end.

(** The counter a label displays: the digits after ["INV"], read back. *)
Definition label_counter (label : string) : option N :=
  match label with
  | String "I" (String "N" (String "V" ds)) =>
      option_map N.of_uint (NilEmpty.uint_of_string ds)
  | _ => None
  end.

(** The counters [start], [start + 1], ..., [k] of them. *)
Fixpoint counters_from (start : N) (k : nat) : list N :=
  match k with
  | O => []
  | S k' => start :: counters_from (start + 1) k'
  end.

(** ** Sorting *)

Section StableSort.
Variables (A : Type) (key : A -> Z).

(** [x] goes in front of the first element whose key is not larger, so
    behind every element with a strictly larger key. *)
Fixpoint insert_desc (x : A) (l : list A) : list A :=
  match l with
  | [] => [x]
  | y :: l' => if key y <=? key x then x :: y :: l'
               else y :: insert_desc x l'
  end.

(** [l.sort(key=key, reverse=True)]: descending, and stable, so elements
    with equal keys keep the order they had in [l]. *)
Definition sort_desc (l : list A) : list A :=
  fold_right insert_desc [] l.

(** The order [sort_desc] establishes. *)
Definition key_ge (a b : A) : Prop := key a >= key b.

(** Larger key first, and [R] among equal keys. *)
Definition key_then (R : A -> A -> Prop) (a b : A) : Prop :=
  key a > key b \/ (key a = key b /\ R a b).
End StableSort.

(** ** get_invoices *)

Record InvoiceArgs : Type := {
  a_student_id : option Z;
  a_status : option string;
  a_page : option Z;
  a_per_page : option Z
}.


(** What [query.paginate(page, per_page, error_out=False)] hands back. *)
Record Pagination : Type := {
  items : list Invoice;
  total : Z;
  pages : Z;
  has_next : bool;
  has_prev : bool
}.

(** One element of the [invoices] array of the answer: [invoice.to_dict()],
    with [student] for admin and staff only, and [fee_structure]. *)
Record InvoiceView : Type := {
  view_invoice : Invoice;
  view_student : option Student;
  view_fee_structure : FeeStructure
}.

Record PageInfo : Type := {
  pg_page : Z;
  pg_per_page : Z;
  pg_total : Z;
  pg_pages : Z;
  pg_has_next : bool;
  pg_has_prev : bool
}.

Record InvoiceList : Type := {
  list_invoices : list InvoiceView;
  list_pagination : PageInfo
}.

(** [request.args.get(name, default, type=int)]. *)
Definition arg_or (default : Z) (o : option Z) : Z :=
  match o with
  | Some z => z
  | None => default
  end.

(** The page size asked of [paginate]. *)
Definition effective_per_page (args : InvoiceArgs) : Z :=
  Z.min (arg_or 20 (a_per_page args)) 100.

(** The block "Apply role-based filtering": the query a caller starts from,
    or the refusal. *)
Definition role_scoped_invoices (cu : CurrentUser) (db : Db)
  : (Z * string) + list Invoice :=
  if (role_type cu =? "student")%string then
    match student_of_user db (user_id cu) with
    | None => inl (404, "Student profile not found"%string)
    | Some student =>
        inr (filter (fun i => invoice_student_id i =? student_id student)
               (invoices db))
    end
  else if (role_type cu =? "parent")%string then
    inl (403, "Access denied"%string)
  else if negb (is_admin_or_staff (role_type cu)) then
    inl (403, "Access denied"%string)
  else inr (invoices db).

(** The block "Apply filters". *)
Definition apply_invoice_filters (cu : CurrentUser) (args : InvoiceArgs)
  (query : list Invoice) : list Invoice :=
  let query :=
    if truthy_int (a_student_id args) && is_admin_or_staff (role_type cu) then
      filter (fun i => invoice_student_id i =? arg_or 0 (a_student_id args)) query
    else query in
  if truthy_str (a_status args) then
    filter (fun i => (status i =? match a_status args with
                                  | Some s => s
                                  | None => ""
                                  end)%string) query
  else query.

(** Whether the driver can bind the integer the filters compare with: a
    [student_id] outside the range of the store makes the query raise when
    it runs. *)
Definition invoice_filters_fit (cu : CurrentUser) (args : InvoiceArgs) : bool :=
  if truthy_int (a_student_id args) && is_admin_or_staff (role_type cu) then
    fits_int64 (arg_or 0 (a_student_id args))
  else true.

(** The body of the loop over [invoices.items]; [None] is the
    [AttributeError] of [None.to_dict()] on a dangling reference. *)
Definition view_of (cu : CurrentUser) (db : Db) (i : Invoice)
  : option InvoiceView :=
  let student :=
    if is_admin_or_staff (role_type cu) then
      option_map Some (invoice_student db i)
    else Some None in
  match student, invoice_fee_structure db i with
  | Some st, Some f =>
      Some {| view_invoice := i; view_student := st; view_fee_structure := f |}
  | _, _ => None
  end.

Fixpoint all_some {A B} (f : A -> option B) (l : list A) : option (list B) :=
  match l with
  | [] => Some []
  | x :: l' =>
      match f x with
      | None => None
      | Some y =>
          match all_some f l' with
          | None => None
          | Some ys => Some (y :: ys)
          end
      end
  end.

(** The handler of [GET /invoices].  [paginate] is the method of the query
    object, which belongs to Flask-SQLAlchemy and not to this repository, so
    the handler takes it as a parameter.  [order_by(issue_date.desc())] is
    [sort_desc issue_date]: rows with the same issue date stay in the order
    of the store. *)
Definition get_invoices (paginate : list Invoice -> Z -> Z -> Pagination)
  (cu : CurrentUser) (args : InvoiceArgs) (db : Db) : response InvoiceList :=
  let page := arg_or 1 (a_page args) in
  let per_page := effective_per_page args in
  match role_scoped_invoices cu db with
  | inl (code, msg) => Err code msg
  | inr query =>
      if negb (invoice_filters_fit cu args) then Err 500 overflow_error
      else
        let query := apply_invoice_filters cu args query in
        let invoices := paginate (sort_desc issue_date query) page per_page in
        match all_some (view_of cu db) (items invoices) with
        | None => Err 500 none_has_no_to_dict
        | Some views =>
            Json 200
              {| list_invoices := views;
                 list_pagination :=
                   {| pg_page := page;
                      pg_per_page := per_page;
                      pg_total := total invoices;
                      pg_pages := pages invoices;
                      pg_has_next := has_next invoices;
                      pg_has_prev := has_prev invoices |} |}
        end
  end.

(** Flask-SQLAlchemy's [paginate] with [error_out=False], as one instance of
    the parameter of [get_invoices]: a page below 1 becomes 1, a size below 1
    becomes 20, and the page is [LIMIT per_page OFFSET (page - 1) * per_page],
    for an offset the store can bind. *)
Definition paginate_query (query : list Invoice) (page per_page : Z) : Pagination :=
  let page := if page <? 1 then 1 else page in
  let per_page := if per_page <? 1 then 20 else per_page in
  let n := Z.of_nat (List.length query) in
  let pages := (n + per_page - 1) / per_page in
  {| items := firstn (Z.to_nat per_page)
                (skipn (Z.to_nat ((page - 1) * per_page)) query);
     total := n;
     pages := pages;
     has_next := page <? pages;
     has_prev := 1 <? page |}.

(** ** get_outstanding_report *)

(** The SQL expression labelled [outstanding_amount]: [total_amount] minus
    [coalesce] of the sum of the Completed payments of the invoice, 0. *)
Definition outstanding_amount_of (db : Db) (i : Invoice) : Z :=
  total_amount i -
  sum_amounts
    (filter (fun p => (payment_status p =? "Completed")%string)
       (filter (fun p => payment_invoice_id p =? invoice_id i) (payments db))).

(** [Invoice.status.in_(['Pending', 'Partial', 'Overdue'])]. *)
Definition status_is_open (i : Invoice) : bool :=
  existsb (String.eqb (status i)) ["Pending"; "Partial"; "Overdue"]%string.

(** One element of [outstanding_invoices]. *)
Record OutstandingRow : Type := {
  row_invoice : Invoice;
  row_student : Student;
  row_fee_structure : FeeStructure;
  outstanding_amount : Z;
  days_overdue : Z
}.

(** "Calculate days overdue". *)
Definition days_overdue_of (today : date) (i : Invoice) : Z :=
  if due_date i <? today then today - due_date i else 0.

(** The body of the loop for an invoice whose outstanding amount is
    positive; [None] is the [AttributeError] on a dangling reference. *)
Definition outstanding_row (today : date) (db : Db) (i : Invoice)
  : option OutstandingRow :=
  match invoice_student db i, invoice_fee_structure db i with
  | Some s, Some f =>
      Some {| row_invoice := i;
              row_student := s;
              row_fee_structure := f;
              outstanding_amount := outstanding_amount_of db i;
              days_overdue := days_overdue_of today i |}
  | _, _ => None
  end.

(** A scan of the [invoices] table: the rows by ascending primary key,
    rows of the same key in the order of the list. *)
Definition rowid_scan (l : list Invoice) : list Invoice :=
  sort_desc (fun i => - invoice_id i) l.

(** The invoices the loop appends a row for, in the order of the query. *)
Definition outstanding_invoices (db : Db) : list Invoice :=
  filter (fun i => outstanding_amount_of db i >? 0)
    (filter status_is_open (rowid_scan (invoices db))).

(** The handler of [GET /reports/outstanding], under
    [role_required(['admin', 'staff'])]; [today] is [date.today()]. *)
Definition get_outstanding_report (cu : CurrentUser) (today : date) (db : Db)
  : response (list OutstandingRow) :=
  if negb (role_required ["admin"; "staff"]%string cu) then
    Err 403 "Insufficient permissions"
  else
    match all_some (outstanding_row today db) (outstanding_invoices db) with
    | None => Err 500 none_has_no_to_dict
    | Some result => Json 200 (sort_desc days_overdue result)
    end.

(** ** get_invoice *)

(** The body of [GET /invoices/<id>]: [invoice.to_dict()] with [student],
    [fee_structure] and [payments]. *)
Record InvoiceDetail : Type := {
  detail_invoice : Invoice;
  detail_student : Student;
  detail_fee_structure : FeeStructure;
  detail_payments : list Payment
}.

(** The handler of [GET /invoices/<invoice_id>]. *)
Definition get_invoice (cu : CurrentUser) (id : Z) (db : Db)
  : response InvoiceDetail :=
  match query_get_invoice db id with
  | Invalid e => Err 500 e
  | Valid None => Err 404 "Invoice not found"
  | Valid (Some invoice) =>
      if negb (may_access_invoice cu db invoice) then Err 403 "Access denied"
      else
        match invoice_student db invoice, invoice_fee_structure db invoice with
        | Some s, Some f =>
            Json 200
              {| detail_invoice := invoice;
                 detail_student := s;
                 detail_fee_structure := f;
                 detail_payments := invoice_payments db invoice |}
        | _, _ => Err 500 none_has_no_to_dict
        end
  end.

(** ** get_payments *)

Record PaymentArgs : Type := {
  q_student_id : option Z;
  q_invoice_id : option Z;
  q_status : option string
}.

(** One element of the [payments] array: [payment.to_dict()], with
    [student] for admin and staff only, and [invoice]. *)
Record PaymentView : Type := {
  pv_payment : Payment;
  pv_student : option Student;
  pv_invoice : Invoice
}.

(** The relationships [payment.student] and [payment.invoice]. *)
Definition payment_student (db : Db) (p : Payment) : option Student :=
  find (fun s => student_id s =? payment_student_id p) (students db).

Definition payment_invoice (db : Db) (p : Payment) : option Invoice :=
  get_invoice_row db (payment_invoice_id p).

(** The block "Apply role-based filtering" of [get_payments]; here a parent
    falls under the general refusal. *)
Definition role_scoped_payments (cu : CurrentUser) (db : Db)
  : (Z * string) + list Payment :=
  if (role_type cu =? "student")%string then
    match student_of_user db (user_id cu) with
    | None => inl (404, "Student profile not found"%string)
    | Some student =>
        inr (filter (fun p => payment_student_id p =? student_id student)
               (payments db))
    end
  else if negb (is_admin_or_staff (role_type cu)) then
    inl (403, "Access denied"%string)
  else inr (payments db).

(** The block "Apply filters" of [get_payments]. *)
Definition apply_payment_filters (cu : CurrentUser) (args : PaymentArgs)
  (query : list Payment) : list Payment :=
  let query :=
    if truthy_int (q_student_id args) && is_admin_or_staff (role_type cu) then
      filter (fun p => payment_student_id p =? arg_or 0 (q_student_id args)) query
    else query in
  let query :=
    if truthy_int (q_invoice_id args) then
      filter (fun p => payment_invoice_id p =? arg_or 0 (q_invoice_id args)) query
    else query in
  if truthy_str (q_status args) then
    filter (fun p => (payment_status p =? match q_status args with
                                          | Some s => s
                                          | None => ""
                                          end)%string) query
  else query.

(** Whether the driver can bind the integers the filters compare with. *)
Definition payment_filters_fit (cu : CurrentUser) (args : PaymentArgs) : bool :=
  (if truthy_int (q_student_id args) && is_admin_or_staff (role_type cu) then
     fits_int64 (arg_or 0 (q_student_id args))
   else true) &&
  (if truthy_int (q_invoice_id args) then
     fits_int64 (arg_or 0 (q_invoice_id args))
   else true).

(** The body of the loop over [payments]. *)
Definition payment_view_of (cu : CurrentUser) (db : Db) (p : Payment)
  : option PaymentView :=
  let student :=
    if is_admin_or_staff (role_type cu) then
      option_map Some (payment_student db p)
    else Some None in
  match student, payment_invoice db p with
  | Some st, Some i =>
      Some {| pv_payment := p; pv_student := st; pv_invoice := i |}
  | _, _ => None
  end.

(** The handler of [GET /payments].  The column [payment_date] is declared
    in the models file, which is not among the sources: it is the parameter
    [payment_date], and [order_by(payment_date.desc())] keeps rows of the
    same date in the order of the store. *)
Definition get_payments (payment_date : Payment -> Z) (cu : CurrentUser)
  (args : PaymentArgs) (db : Db) : response (list PaymentView) :=
  match role_scoped_payments cu db with
  | inl (code, msg) => Err code msg
  | inr query =>
      if negb (payment_filters_fit cu args) then Err 500 overflow_error
      else
        let payments :=
          sort_desc payment_date (apply_payment_filters cu args query) in
        match all_some (payment_view_of cu db) payments with
        | None => Err 500 none_has_no_to_dict
        | Some result => Json 200 result
        end
  end.

(** ** get_student_financial ([src/student.py]) *)

(** The floating-point numbers of the summary: [float(x)] of an amount, the
    [0] that [sum] starts from, [+] and [-]. *)
Record FloatOps : Type := {
  float : Type;
  float_of : Z -> float;
  float_zero : float;
  float_add : float -> float -> float;
  float_sub : float -> float -> float
}.

(** [sum(float(x) for x in xs)]: from 0, left to right. *)
Definition float_sum (ops : FloatOps) (xs : list Z) : float ops :=
  fold_left (fun acc x => float_add ops acc (float_of ops x)) xs (float_zero ops).

Record FinancialSummary (ops : FloatOps) : Type := {
  sf_total_invoiced : float ops;
  sf_total_paid : float ops;
  sf_outstanding_balance : float ops
}.

Record StudentFinancial (ops : FloatOps) : Type := {
  sf_invoices : list Invoice;
  sf_payments : list Payment;
  sf_summary : FinancialSummary ops
}.

(** The handler of [GET /students/<student_id>/financial].  Both queries
    bind [student_id] as it came in the URL: outside the range of the store
    the first one raises, and the handler answers 500. *)
Definition get_student_financial (ops : FloatOps) (payment_date : Payment -> Z)
  (cu : CurrentUser) (sid : Z) (db : Db) : response (StudentFinancial ops) :=
  let allowed :=
    if (role_type cu =? "student")%string then
      match student_of_user db (user_id cu) with
      | None => false
      | Some student => student_id student =? sid
      end
    else is_admin_or_staff (role_type cu) in
  if negb allowed then Err 403 "Access denied"
  else if negb (fits_int64 sid) then Err 500 overflow_error
  else
    let invoices :=
      sort_desc issue_date
        (filter (fun i => invoice_student_id i =? sid) (invoices db)) in
    let payments :=
      sort_desc payment_date
        (filter (fun p => payment_student_id p =? sid) (payments db)) in
    let total_invoiced := float_sum ops (map total_amount invoices) in
    let total_paid :=
      float_sum ops (map payment_amount (filter completed payments)) in
    Json 200
      {| sf_invoices := invoices;
         sf_payments := payments;
         sf_summary :=
           {| sf_total_invoiced := total_invoiced;
              sf_total_paid := total_paid;
              sf_outstanding_balance := float_sub ops total_invoiced total_paid |} |}.

(** ** get_financial_summary *)

Record SummaryArgs : Type := {
  s_start_date : option (parsed date);
  s_end_date : option (parsed date);
  s_school_id : option Z
}.

(** "Build date filters": the conditions on [Invoice.issue_date], or the
    [ValueError] of [strptime]. *)
Definition date_filters (args : SummaryArgs) : parsed (list (Invoice -> bool)) :=
  match s_start_date args, s_end_date args with
  | Some (Invalid e), _ => Invalid e
  | _, Some (Invalid e) => Invalid e
  | Some (Valid a), Some (Valid b) =>
      Valid [(fun i => a <=? issue_date i); (fun i => issue_date i <=? b)]
  | Some (Valid a), None => Valid [fun i => a <=? issue_date i]
  | None, Some (Valid b) => Valid [fun i => issue_date i <=? b]
  | None, None => Valid []
  end.

(** [and_] of the [date_filters]. *)
Definition all_hold {A} (filters : list (A -> bool)) (x : A) : bool :=
  forallb (fun f => f x) filters.

(** [func.sum(..)]: NULL over no row. *)
Definition sql_sum (xs : list Z) : option Z :=
  match xs with
  | [] => None
  | _ => Some (fold_right Z.add 0 xs)
  end.

(** [x or 0]. *)
Definition or_zero (x : option Z) : Z :=
  match x with
  | Some z => z
  | None => 0
  end.

(** [func.count(..)], and the same with [.filter(cond)]. *)
Definition sql_count {A} (cond : A -> bool) (rows : list A) : Z :=
  Z.of_nat (List.length (filter cond rows)).

(** [Payment JOIN Invoice] on the foreign key [Payment.invoice_id]. *)
Definition join_payment_invoice (ps : list Payment) (invs : list Invoice)
  : list (Payment * Invoice) :=
  flat_map (fun p =>
              map (fun i => (p, i))
                (filter (fun i => invoice_id i =? payment_invoice_id p) invs))
    ps.

(** [FeeStructure JOIN Invoice] on the foreign key [Invoice.fee_id]. *)
Definition join_fee_invoice (fs : list FeeStructure) (invs : list Invoice)
  : list (FeeStructure * Invoice) :=
  flat_map (fun f =>
              map (fun i => (f, i))
                (filter (fun i => invoice_fee_id i =? fee_id f) invs))
    fs.

(** One more row in its group; a new group goes where its key belongs in
    the byte order of the keys. *)
Fixpoint add_to_group (k : string) (v : Z) (groups : list (string * Z))
  : list (string * Z) :=
  match groups with
  | [] => [(k, v)]
  | (k', v') :: rest =>
      match String.compare k k' with
      | Eq => (k', v' + v) :: rest
      | Lt => (k, v) :: (k', v') :: rest
      | Gt => (k', v') :: add_to_group k v rest
      end
  end.

(** [GROUP BY key] with [sum(value)]: SQLite returns the groups sorted by
    the key. *)
Definition group_by_sum (rows : list (string * Z)) : list (string * Z) :=
  fold_left (fun groups kv => add_to_group (fst kv) (snd kv) groups) rows [].

Record Summary : Type := {
  total_invoices : Z;
  total_invoiced : Z;
  paid_invoices : Z;
  pending_invoices : Z;
  overdue_invoices : Z;
  total_payments : Z;
  total_collected : Z;
  outstanding_balance : Z
}.

Record SummaryReport : Type := {
  summary : Summary;
  fee_type_breakdown : list (string * Z)
}.

(** The handler of [GET /reports/summary], under [role_required(['admin',
    'staff'])].  [school_id] is read and not used.  The amounts are the
    exact values that the handler passes to [float]. *)
Definition get_financial_summary (cu : CurrentUser) (args : SummaryArgs)
  (db : Db) : response SummaryReport :=
  if negb (role_required ["admin"; "staff"]%string cu) then
    Err 403 "Insufficient permissions"
  else
    match date_filters args with
    | Invalid e => Err 500 e
    | Valid filters =>
        let in_range := filter (all_hold filters) (invoices db) in
        let completed_payments := filter completed (payments db) in
        let counted_payments :=
          match filters with
          | [] => completed_payments
          | _ =>
              map fst
                (filter (fun pi => all_hold filters (snd pi))
                   (join_payment_invoice completed_payments (invoices db)))
          end in
        let outstanding :=
          sql_sum (map (outstanding_amount_of db)
                     (filter status_is_open (invoices db))) in
        let fee_breakdown :=
          group_by_sum
            (map (fun fi => (fee_type (fst fi), total_amount (snd fi)))
               (join_fee_invoice (fee_structures db) (invoices db))) in
        Json 200
          {| summary :=
               {| total_invoices := sql_count (fun _ => true) in_range;
                  total_invoiced := or_zero (sql_sum (map total_amount in_range));
                  paid_invoices :=
                    sql_count (fun i => (status i =? "Paid")%string) in_range;
                  pending_invoices :=
                    sql_count (fun i => (status i =? "Pending")%string) in_range;
                  overdue_invoices :=
                    sql_count (fun i => (status i =? "Overdue")%string) in_range;
                  total_payments := Z.of_nat (List.length counted_payments);
                  total_collected :=
                    or_zero (sql_sum (map payment_amount counted_payments));
                  outstanding_balance := or_zero outstanding |};
             fee_type_breakdown := fee_breakdown |}
    end.

(** ** token_required ([src/auth.py]) *)

(** [s.split(sep)] for a one-character separator. *)
Fixpoint split_on (sep : ascii) (s : string) : list string :=
  match s with
  | EmptyString => [EmptyString]
  | String c rest =>
      if Ascii.eqb c sep then EmptyString :: split_on sep rest
      else
        match split_on sep rest with
        | [] => [String c EmptyString]
        | w :: ws => String c w :: ws
        end
  end.

(** The decorator [token_required] around a handler [f].
    [authorization] is the [Authorization] header if the request has one,
    [verify_token] decodes a JWT (the library is not part of the
    repository), [reject] is how the handler's answer type carries
    [jsonify({'error': msg}), code], and the payload is what [f] finds in
    [request.current_user]. *)
Definition token_required {R : Type} (verify_token : string -> option CurrentUser)
  (reject : Z -> string -> R) (f : CurrentUser -> R)
  (authorization : option string) : R :=
  match authorization with
  | None => reject 401 "Token is missing"%string
  | Some auth_header =>
      match nth_error (split_on " " auth_header) 1 with
      | None => reject 401 "Invalid token format"%string
      | Some token =>
          if (token =? "")%string then reject 401 "Token is missing"%string
          else
            match verify_token token with
            | None => reject 401 "Token is invalid or expired"%string
            | Some payload => f payload
            end
      end
  end.

(** ** Requests served one after the other *)

(** A request that writes to the ledger; an invoice request comes with the
    day it is served. *)
Inductive LedgerRequest : Type :=
| PostInvoice (cu : CurrentUser) (today : date) (data : InvoiceData)
| PostPayment (cu : CurrentUser) (data : PaymentData).

Definition serve (r : LedgerRequest) (db : Db) : Db :=
  match r with
  | PostInvoice cu today data => snd (create_invoice cu today data db)
  | PostPayment cu data => snd (create_payment cu data db)
  end.

Definition serve_all (reqs : list LedgerRequest) (db : Db) : Db :=
  fold_left (fun db r => serve r db) reqs db.

(** A payment request that leaves the status of the payment to its default,
    or spells it out as Completed. *)
Definition records_completed (r : LedgerRequest) : bool :=
  match r with
  | PostInvoice _ _ _ => true
  | PostPayment _ data => (supplied_status data =? "Completed")%string
  end.

(** The primary keys 1, 2, ..., n. *)
Definition keys_upto (n : nat) : list Z := map Z.of_nat (seq 1 n).

(** What payments have been recorded as settled on an invoice. *)
Definition completed_total (db : Db) (i : Invoice) : Z :=
  sum_amounts (filter completed (invoice_payments db i)).

(** The stored status says what the balance says. *)
Definition status_matches_balance (db : Db) (i : Invoice) : Prop :=
  (status i = "Pending"%string /\ calculate_balance db i = total_amount i) \/
  (status i = "Partial"%string /\ 0 < calculate_balance db i < total_amount i) \/
  (status i = "Paid"%string /\ calculate_balance db i = 0).

(** The keys of both tables are 1, 2, ... in the order of the rows. *)
Definition keys_in_sequence (db : Db) : Prop :=
  map invoice_id (invoices db) = keys_upto (List.length (invoices db)) /\
  map payment_id (payments db) = keys_upto (List.length (payments db)).

(** A payment is for a positive amount, on an invoice that exists, and it
    carries the [student_id] of that invoice. *)
Definition payment_in_order (db : Db) (p : Payment) : Prop :=
  0 < payment_amount p /\
  exists i, get_invoice_row db (payment_invoice_id p) = Some i /\
            payment_student_id p = invoice_student_id i.

(** The Completed payments on an invoice never add up to more than its
    total, or than 0 for a total below 0. *)
Definition not_overpaid (db : Db) (i : Invoice) : Prop :=
  completed_total db i <= Z.max 0 (total_amount i).

(** The invoice number spells the primary key. *)
Definition number_spells_key (i : Invoice) : Prop :=
  invoice_number i = ("INV" ++ format_06d (invoice_id i))%string.

(** The statuses the handlers write. *)
Definition status_written (i : Invoice) : Prop :=
  status i = "Pending"%string \/ status i = "Partial"%string \/
  status i = "Paid"%string.

(** What holds of a ledger that started empty. *)
Definition ledger_ok (db : Db) : Prop :=
  keys_in_sequence db /\
  Forall (payment_in_order db) (payments db) /\
  Forall (not_overpaid db) (invoices db) /\
  Forall number_spells_key (invoices db) /\
  Forall status_written (invoices db).

(** The same arguments with another [student_id] ([None]: not given). *)
Definition set_q_student_id (sid : option Z) (args : PaymentArgs) : PaymentArgs :=
  {| q_student_id := sid;
     q_invoice_id := q_invoice_id args;
     q_status := q_status args |}.

(** A payment listing without any filter. *)
Definition all_payments : PaymentArgs :=
  {| q_student_id := None; q_invoice_id := None; q_status := None |}.

(** The sum of a list of amounts. *)
Definition sum_z (xs : list Z) : Z := fold_right Z.add 0 xs.

(** Whether the character [c] occurs in [s]. *)
Fixpoint has_char (c : ascii) (s : string) : bool :=
  match s with
  | EmptyString => false
  | String c' rest => Ascii.eqb c' c || has_char c rest
  end.

(** A payment request with the three required fields and nothing else. *)
Definition plain_payment (iid : Z) (method : string) (amt : Z) : PaymentData :=
  {| p_invoice_id := Some iid;
     p_payment_method := Some method;
     p_amount := Some (JNumber amt);
     p_transaction_id := None;
     p_status := None;
     p_gateway_response := None |}.

(** ** The two writing endpoints as Flask serves them *)

(** [POST /invoices]: [token_required] around [role_required] around the
    handler; a refusal of the token leaves the database alone. *)
Definition post_invoices (verify_token : string -> option CurrentUser)
  (authorization : option string) (today : date) (data : InvoiceData) (db : Db)
  : response Invoice * Db :=
  token_required verify_token (fun code msg => (Err code msg, db))
    (fun cu => create_invoice cu today data db) authorization.

(** [POST /payments]: [token_required] around the handler. *)
Definition post_payments (verify_token : string -> option CurrentUser)
  (authorization : option string) (data : PaymentData) (db : Db)
  : response Payment * Db :=
  token_required verify_token (fun code msg => (Err code msg, db))
    (fun cu => create_payment cu data db) authorization.

(** ** A small school, used for the examples *)

Module Sample.

Definition alice : Student := {| student_id := 1; student_user_id := 10 |}.
Definition bob : Student := {| student_id := 2; student_user_id := 20 |}.

Definition tuition : FeeStructure :=
  {| fee_id := 1; fee_name := "Tuition 2025"; fee_amount := 30000;
     fee_type := "Tuition" |}.

Definition admin : CurrentUser := {| user_id := 1; role_type := "admin" |}.
Definition alice_user : CurrentUser := {| user_id := 10; role_type := "student" |}.
Definition bob_user : CurrentUser := {| user_id := 20; role_type := "student" |}.
Definition parent_user : CurrentUser := {| user_id := 30; role_type := "parent" |}.

Definition today : date := 739000.

(** Two students, one fee structure, nothing billed yet. *)
Definition empty_ledger : Db :=
  {| students := [alice; bob]; fee_structures := [tuition];
     invoices := []; payments := [] |}.

(** An invoice request for [sid]: [amount], optional [discount], due in
    ten days. *)
Definition bill (sid amt : Z) (disc : option Z) : InvoiceData :=
  {| i_student_id := Some sid; i_fee_id := Some 1;
     i_amount := Some (JNumber amt);
     i_due_date := Some (Valid (today + 10));
     i_discount := option_map JNumber disc;
     i_issue_date := None |}.

(** A payment request on invoice [iid]. *)
Definition pay (iid amt : Z) (st : option string) : PaymentData :=
  {| p_invoice_id := Some iid; p_payment_method := Some "cash"%string;
     p_amount := Some (JNumber amt);
     p_transaction_id := None; p_status := st;
     p_gateway_response := None |}.

(** Alice is billed 300.00. *)
Definition billed : Db :=
  Eval vm_compute in snd (create_invoice admin today (bill 1 30000 None) empty_ledger).

Definition alice_invoice : Invoice :=
  {| invoice_id := 1; invoice_student_id := 1; invoice_fee_id := 1;
     invoice_number := "INV000001"; amount := 30000; discount := 0;
     total_amount := 30000; issue_date := today; due_date := today + 10;
     status := "Pending" |}.



(** Bob is billed too. *)
Definition both_billed : Db :=
  Eval vm_compute in snd (create_invoice admin today (bill 2 20000 None) billed).

(** Twenty-five invoices for Alice. *)
Definition crowded : Db :=
  Eval vm_compute in
    snd (create_invoices admin today (repeat (bill 1 1000 None) 25) empty_ledger).

(** A listing that asks for pages of minus five. *)
Definition pages_of_minus_five : InvoiceArgs :=
  {| a_student_id := None; a_status := None; a_page := None;
     a_per_page := Some (-5) |}.

Definition unfiltered : InvoiceArgs :=
  {| a_student_id := None; a_status := None; a_page := None; a_per_page := None |}.


(** Alice's invoice paid in full by a Completed payment. *)
Definition paid_up : Db :=
  Eval vm_compute in snd (create_payment admin (pay 1 30000 None) billed).

(** A day of requests: two invoices, three payments that are accepted and
    two that are refused. *)
Definition busy_day : list LedgerRequest :=
  [PostInvoice admin today (bill 1 30000 None);
   PostPayment alice_user (pay 1 10000 None);
   PostInvoice admin today (bill 2 20000 (Some 5000));
   PostPayment bob_user (pay 1 5000 None);
   PostPayment admin (pay 2 15000 None);
   PostPayment admin (pay 1 99999 None);
   PostPayment alice_user (pay 1 5000 None)].

Definition after_busy_day : Db :=
  Eval vm_compute in serve_all busy_day empty_ledger.

(** An invoice for a student who has no row. *)
Definition haunted : Db :=
  Eval vm_compute in
    snd (create_invoice admin today (bill 99 10000 None) empty_ledger).

Definition ghost_invoice : Invoice :=
  {| invoice_id := 1; invoice_student_id := 99; invoice_fee_id := 1;
     invoice_number := "INV000001"; amount := 10000; discount := 0;
     total_amount := 10000; issue_date := today; due_date := today + 10;
     status := "Pending" |}.

Definition whole_period : SummaryArgs :=
  {| s_start_date := None; s_end_date := None; s_school_id := None |}.

Definition this_week : SummaryArgs :=
  {| s_start_date := Some (Valid today);
     s_end_date := Some (Valid (today + 7));
     s_school_id := None |}.

(** Amounts kept exact where the handler uses floats. *)
Definition exact_ops : FloatOps :=
  {| float := Z; float_of := fun z => z; float_zero := 0;
     float_add := Z.add; float_sub := Z.sub |}.

(** A token check that knows one token. *)
Definition knows_one_token (token : string) : option CurrentUser :=
  if (token =? "good-token")%string then Some admin else None.

End Sample.

(** * Properties *)

(** ** Payment creation: the checks in front of the insert *)

Lemma truthy_int_some (o : option Z) :
  truthy_int o = true -> exists z, o = Some z /\ z <> 0.
Proof.
  destruct o as [z|]; simpl; intros H; [|discriminate].
  exists z; split; [reflexivity|].
  apply negb_true_iff, Z.eqb_neq in H; exact H.
Qed.

Lemma truthy_str_some (o : option string) :
  truthy_str o = true -> exists s, o = Some s /\ s <> ""%string.
Proof.
  destruct o as [s|]; simpl; intros H; [|discriminate].
  exists s; split; [reflexivity|].
  apply negb_true_iff, String.eqb_neq in H; exact H.
Qed.

Lemma truthy_amount_some (o : option JsonAmount) :
  truthy_amount o = true -> exists a, o = Some a.
Proof.
  destruct o as [a|]; simpl; intros H; [eauto|discriminate].
Qed.

(** The loop over the required fields only ever answers 400: the reads that
    follow it cannot miss a key. *)
Lemma payment_required_fields_inl (data : PaymentData) code msg :
  payment_required_fields data = inl (code, msg) -> code = 400.
Proof.
  unfold payment_required_fields.
  destruct (truthy_int (p_invoice_id data)) eqn:Hi; simpl; [|congruence].
  destruct (truthy_str (p_payment_method data)) eqn:Hm; simpl; [|congruence].
  destruct (truthy_amount (p_amount data)) eqn:Ha; simpl; [|congruence].
  destruct (truthy_int_some _ Hi) as (z & -> & _).
  destruct (truthy_str_some _ Hm) as (s & -> & _).
  destruct (truthy_amount_some _ Ha) as (a & ->).
  discriminate.
Qed.

Lemma payment_required_fields_inr (data : PaymentData) iid m a :
  payment_required_fields data = inr (iid, m, a) ->
  p_invoice_id data = Some iid /\ p_payment_method data = Some m /\
  p_amount data = Some a /\
  truthy_int (p_invoice_id data) = true /\
  truthy_str (p_payment_method data) = true /\
  truthy_amount (p_amount data) = true.
Proof.
  unfold payment_required_fields.
  destruct (truthy_int (p_invoice_id data)) eqn:Hi; simpl; [|discriminate].
  destruct (truthy_str (p_payment_method data)) eqn:Hm; simpl; [|discriminate].
  destruct (truthy_amount (p_amount data)) eqn:Ha; simpl; [|discriminate].
  destruct (p_invoice_id data), (p_payment_method data), (p_amount data);
    try discriminate.
  intros [= -> -> ->]; auto 10.
Qed.

Lemma payment_required_fields_present (data : PaymentData) :
  truthy_int (p_invoice_id data) = true ->
  truthy_str (p_payment_method data) = true ->
  truthy_amount (p_amount data) = true ->
  exists iid m a,
    payment_required_fields data = inr (iid, m, a) /\
    p_invoice_id data = Some iid /\ p_payment_method data = Some m /\
    p_amount data = Some a.
Proof.
  intros Hi Hm Ha. unfold payment_required_fields.
  rewrite Hi, Hm, Ha; simpl.
  destruct (truthy_int_some _ Hi) as (z & -> & _).
  destruct (truthy_str_some _ Hm) as (s & -> & _).
  destruct (truthy_amount_some _ Ha) as (a & ->).
  exists z, s, a; auto.
Qed.

(** A requested amount other than zero is a truthy [amount] field. *)
Lemma requested_amount_truthy (data : PaymentData) amt :
  requested_amount data = Some amt -> amt <> 0 ->
  truthy_amount (p_amount data) = true.
Proof.
  unfold requested_amount.
  destruct (p_amount data) as [[v|p]|]; simpl; try discriminate; auto.
  intros [= ->] H. apply negb_true_iff, Z.eqb_neq; exact H.
Qed.

(** [Invoice.query.get] answers for keys inside the range of the store, and
    then with the row of that key. *)
Lemma query_get_invoice_valid (db : Db) (id : Z) (row : option Invoice) :
  query_get_invoice db id = Valid row ->
  fits_int64 id = true /\ get_invoice_row db id = row.
Proof.
  unfold query_get_invoice.
  destruct (fits_int64 id); [|discriminate]. now intros [= <-].
Qed.

Lemma query_get_invoice_fits (db : Db) (id : Z) :
  fits_int64 id = true -> query_get_invoice db id = Valid (get_invoice_row db id).
Proof. intros H. unfold query_get_invoice. now rewrite H. Qed.

Lemma query_get_invoice_invalid (db : Db) (id : Z) (e : string) :
  query_get_invoice db id = Invalid e -> fits_int64 id = false.
Proof.
  unfold query_get_invoice. destruct (fits_int64 id); [discriminate|reflexivity].
Qed.

(** What a successful call did: every check passed, the row is the one
    built from the request, and the database is the one committed. *)
Lemma create_payment_success (cu : CurrentUser) (data : PaymentData) (db : Db)
  code pay db' :
  create_payment cu data db = (Json code pay, db') ->
  exists iid m a inv,
    payment_required_fields data = inr (iid, m, a) /\
    get_invoice_row db iid = Some inv /\
    may_access_invoice cu db inv = true /\
    decimal_of a = Valid (payment_amount pay) /\
    0 < payment_amount pay <= calculate_balance db inv /\
    code = 201 /\
    payment_invoice_id pay = iid /\
    payment_status pay = supplied_status data /\
    payments db' = payments db ++ [pay] /\
    invoices db' =
      update_invoice_status (invoice_id inv)
        (status_after_payment (calculate_balance db inv - payment_amount pay)
           (status inv))
        (invoices db) /\
    students db' = students db /\ fee_structures db' = fee_structures db.
Proof.
  unfold create_payment.
  destruct (payment_required_fields data) as [[c msg]|[[iid m] a]] eqn:Hreq;
    [discriminate|].
  destruct (query_get_invoice db iid) as [[inv|]|e] eqn:Hget; try discriminate.
  destruct (query_get_invoice_valid _ _ Hget) as [_ Hinv].
  destruct (may_access_invoice cu db inv) eqn:Hacc; simpl; [|discriminate].
  destruct (decimal_of a) as [amt|e] eqn:Hdec; [|discriminate].
  destruct (amt <=? 0) eqn:Hpos; [discriminate|].
  destruct (amt >? calculate_balance db inv) eqn:Hbal; [discriminate|].
  intros [= <- <- <-]. simpl.
  exists iid, m, a, inv.
  apply Z.leb_gt in Hpos.
  rewrite Z.gtb_ltb in Hbal. apply Z.ltb_ge in Hbal.
  repeat split; auto; lia.
Qed.

(** The invoice a request addresses is what [Invoice.query.get] answered. *)
Lemma target_invoice_some (data : PaymentData) (db : Db) (iid : Z) (inv : Invoice) :
  p_invoice_id data = Some iid ->
  target_invoice data db = Some inv ->
  query_get_invoice db iid = Valid (Some inv).
Proof.
  unfold target_invoice. intros ->.
  destruct (query_get_invoice db iid) as [row|e]; [|discriminate].
  now intros ->.
Qed.

(** The invoice of a successful call was found by [Invoice.query.get]. *)
Lemma target_invoice_of_success (cu : CurrentUser) (data : PaymentData) (db : Db)
  code pay db' iid :
  create_payment cu data db = (Json code pay, db') ->
  p_invoice_id data = Some iid ->
  fits_int64 iid = true /\ target_invoice data db = get_invoice_row db iid.
Proof.
  unfold create_payment, target_invoice.
  destruct (payment_required_fields data) as [[c msg]|[[iid0 m] a]] eqn:Hreq;
    [discriminate|].
  destruct (payment_required_fields_inr _ Hreq) as (Ei & _).
  intros H Hiid. rewrite Hiid in *. injection Ei as <-.
  destruct (query_get_invoice db iid) as [row|e] eqn:Hget; [|discriminate].
  destruct (query_get_invoice_valid _ _ Hget) as [Hfits Hrow]. auto.
Qed.

(** A call that fails leaves the database as it found it. *)
Lemma create_payment_failure_keeps_db (cu : CurrentUser) (data : PaymentData)
  (db : Db) code msg db' :
  create_payment cu data db = (Err code msg, db') -> db' = db.
Proof.
  unfold create_payment.
  destruct (payment_required_fields data) as [[c m0]|[[iid m] a]];
    [congruence|].
  destruct (query_get_invoice db iid) as [[inv|]|e]; try congruence.
  destruct (negb (may_access_invoice cu db inv)); [congruence|].
  destruct (decimal_of a) as [amt|e]; [|congruence].
  destruct (amt <=? 0); [congruence|].
  destruct (amt >? calculate_balance db inv); [congruence|discriminate].
Qed.

(** C1 (amended).  A payment request that names an existing invoice and asks
    for more than its outstanding balance always fails, with 400 or 403, and
    the database (payments, invoice status, balance) is unchanged.  The
    failure is the 400 "Payment amount exceeds outstanding balance" when the
    required fields are present, the caller may access the invoice and the
    amount is positive; the checks placed before it answer otherwise. *)
Theorem create_payment_over_balance (cu : CurrentUser) (data : PaymentData)
  (db : Db) (inv : Invoice) (amt : Z) :
  target_invoice data db = Some inv ->
  requested_amount data = Some amt ->
  amt > calculate_balance db inv ->
  exists code msg,
    create_payment cu data db = (Err code msg, db) /\
    (code = 400 \/ code = 403) /\
    (truthy_int (p_invoice_id data) = true ->
     truthy_str (p_payment_method data) = true ->
     may_access_invoice cu db inv = true ->
     0 < amt ->
     code = 400 /\ msg = "Payment amount exceeds outstanding balance"%string).
Proof.
  intros Htgt Hamt Hover.
  unfold create_payment.
  destruct (payment_required_fields data) as [[c msg]|[[iid m] a]] eqn:Hreq.
  - pose proof (payment_required_fields_inl _ Hreq) as ->.
    exists 400, msg. split; [reflexivity|]. split; [auto|].
    intros Hi Hm _ Hpos.
    assert (Ha : truthy_amount (p_amount data) = true)
      by (apply requested_amount_truthy with amt; [assumption|lia]).
    destruct (payment_required_fields_present _ Hi Hm Ha) as (? & ? & ? & E & _).
    congruence.
  - destruct (payment_required_fields_inr _ Hreq) as (Ei & Em & Ea & _).
    unfold target_invoice in Htgt. rewrite Ei in Htgt.
    destruct (query_get_invoice db iid) as [row|e]; [|discriminate].
    rewrite Htgt.
    unfold requested_amount in Hamt. rewrite Ea in Hamt.
    destruct (may_access_invoice cu db inv) eqn:Hacc; simpl.
    + destruct (decimal_of a) as [v|e]; [|discriminate].
      injection Hamt as ->.
      destruct (amt <=? 0) eqn:Hle.
      * apply Z.leb_le in Hle.
        exists 400, "Payment amount must be positive"%string.
        split; [reflexivity|]. split; [auto|]. intros; lia.
      * assert (Hgt : (amt >? calculate_balance db inv) = true)
          by (rewrite Z.gtb_ltb; apply Z.ltb_lt; lia).
        rewrite Hgt.
        exists 400, "Payment amount exceeds outstanding balance"%string.
        auto.
    + exists 403, "Access denied"%string.
      split; [reflexivity|]. split; [auto|]. intros; discriminate.
Qed.

(** C4 (amended).  A payment request whose amount is zero or negative always
    fails and the database is unchanged.  The answer is 400 unless an
    earlier check speaks first: 500 when the invoice_id is outside the
    signed 64-bit range of the store, 404 when the invoice does not exist,
    403 when the caller may not access it.  On an invoice that exists and
    that the caller may access the answer is 400. *)
Theorem create_payment_non_positive (cu : CurrentUser) (data : PaymentData)
  (db : Db) (amt : Z) :
  requested_amount data = Some amt ->
  amt <= 0 ->
  exists code msg,
    create_payment cu data db = (Err code msg, db) /\
    (code = 400 \/
     (code = 500 /\ exists iid, p_invoice_id data = Some iid /\
                                fits_int64 iid = false) \/
     (code = 404 /\ exists iid, p_invoice_id data = Some iid /\
                                fits_int64 iid = true /\
                                get_invoice_row db iid = None) \/
     (code = 403 /\ exists inv, target_invoice data db = Some inv /\
                                may_access_invoice cu db inv = false)) /\
    (forall inv, target_invoice data db = Some inv ->
                 may_access_invoice cu db inv = true -> code = 400) /\
    code =
      match payment_required_fields data with
      | inl _ => 400
      | inr (iid, _, _) =>
          if negb (fits_int64 iid) then 500
          else match get_invoice_row db iid with
               | None => 404
               | Some inv => if may_access_invoice cu db inv then 400 else 403
               end
      end.
Proof.
  intros Hamt Hle.
  unfold create_payment.
  destruct (payment_required_fields data) as [[c msg]|[[iid m] a]] eqn:Hreq.
  - pose proof (payment_required_fields_inl _ Hreq) as ->.
    exists 400, msg; auto.
  - destruct (payment_required_fields_inr _ Hreq) as (Ei & Em & Ea & _).
    unfold target_invoice. rewrite Ei.
    unfold requested_amount in Hamt. rewrite Ea in Hamt.
    destruct (query_get_invoice db iid) as [[inv|]|e] eqn:Hget.
    + destruct (query_get_invoice_valid _ _ Hget) as [Hfits Hrow].
      rewrite Hfits, Hrow.
      destruct (may_access_invoice cu db inv) eqn:Hacc; simpl.
      * destruct (decimal_of a) as [v|e]; [|discriminate].
        injection Hamt as ->.
        apply Z.leb_le in Hle. rewrite Hle.
        exists 400, "Payment amount must be positive"%string; auto.
      * exists 403, "Access denied"%string.
        split; [reflexivity|]. split; [right; right; right; eauto|].
        split; [|reflexivity].
        intros inv0 [= <-]. congruence.
    + destruct (query_get_invoice_valid _ _ Hget) as [Hfits Hrow].
      rewrite Hfits, Hrow.
      exists 404, "Invoice not found"%string.
      split; [reflexivity|]. split; [right; right; left; eauto|].
      split; [|reflexivity].
      intros inv0; discriminate.
    + apply query_get_invoice_invalid in Hget. rewrite Hget.
      exists 500, e.
      split; [reflexivity|]. split; [right; left; eauto|].
      split; [|reflexivity].
      intros inv0; discriminate.
Qed.

(** ** Payment creation: the invoice after a payment *)

Lemma get_invoice_row_id (db : Db) (id : Z) (inv : Invoice) :
  get_invoice_row db id = Some inv -> invoice_id inv = id /\ In inv (invoices db).
Proof.
  unfold get_invoice_row. intros H.
  apply find_some in H. destruct H as [Hin Heq].
  apply Z.eqb_eq in Heq. auto.
Qed.

(** Looking an invoice up after a status update finds the row that was
    there before, with the new status if it is the updated invoice. *)
Lemma find_update_invoice_status (id id' : Z) (st : string) (l : list Invoice) :
  find (fun i => invoice_id i =? id) (update_invoice_status id' st l) =
  option_map (fun i => if invoice_id i =? id' then set_status st i else i)
    (find (fun i => invoice_id i =? id) l).
Proof.
  induction l as [|x l IH]; simpl; [reflexivity|].
  destruct (invoice_id x =? id') eqn:Hx; simpl;
    destruct (invoice_id x =? id) eqn:Hid; simpl; auto; now rewrite Hx.
Qed.

Lemma sum_amounts_app (l1 l2 : list Payment) :
  sum_amounts (l1 ++ l2) = sum_amounts l1 + sum_amounts l2.
Proof.
  unfold sum_amounts. induction l1 as [|p l1 IH]; simpl; [reflexivity|].
  rewrite IH. lia.
Qed.



Lemma create_payment_target (cu : CurrentUser) (data : PaymentData) (db : Db)
  code pay db' :
  create_payment cu data db = (Json code pay, db') ->
  exists inv,
    target_invoice data db = Some inv /\
    payment_invoice_id pay = invoice_id inv /\
    get_invoice_row db' (invoice_id inv) =
      Some (set_status
              (status_after_payment
                 (calculate_balance db inv - payment_amount pay) (status inv))
              inv).
Proof.
  intros H.
  destruct (create_payment_success _ _ _ H)
    as (iid & m & a & inv & Hreq & Hinv & _ & _ & _ & _ & Hpid & _ & _ & Hinvs & _).
  destruct (payment_required_fields_inr _ Hreq) as (Ei & _).
  destruct (get_invoice_row_id _ _ Hinv) as [Hid _].
  exists inv.
  split; [rewrite (proj2 (@target_invoice_of_success _ _ _ _ _ _ _ H Ei));
          assumption|].
  split; [congruence|].
  unfold get_invoice_row in *. rewrite Hinvs, find_update_invoice_status.
  rewrite Hid, Hinv. simpl. now rewrite Hid, Z.eqb_refl.
Qed.



(** ** Invoice creation *)

Lemma invoice_required_fields_inl (data : InvoiceData) code msg :
  invoice_required_fields data = inl (code, msg) -> code = 400.
Proof.
  unfold invoice_required_fields.
  destruct (truthy_int (i_student_id data)) eqn:Hs; simpl; [|congruence].
  destruct (truthy_int (i_fee_id data)) eqn:Hf; simpl; [|congruence].
  destruct (truthy_amount (i_amount data)) eqn:Ha; simpl; [|congruence].
  destruct (truthy_text (i_due_date data)) eqn:Hd; simpl; [|congruence].
  destruct (truthy_int_some _ Hs) as (s & -> & _).
  destruct (truthy_int_some _ Hf) as (f & -> & _).
  destruct (truthy_amount_some _ Ha) as (a & ->).
  destruct (i_due_date data); [discriminate|discriminate].
Qed.

Lemma invoice_required_fields_inr (data : InvoiceData) sid fid a due :
  invoice_required_fields data = inr (sid, fid, a, due) ->
  i_student_id data = Some sid /\ i_fee_id data = Some fid /\
  i_amount data = Some a /\ i_due_date data = Some due.
Proof.
  unfold invoice_required_fields.
  destruct (truthy_int (i_student_id data)); simpl; [|discriminate].
  destruct (truthy_int (i_fee_id data)); simpl; [|discriminate].
  destruct (truthy_amount (i_amount data)); simpl; [|discriminate].
  destruct (truthy_text (i_due_date data)); simpl; [|discriminate].
  destruct (i_student_id data), (i_fee_id data), (i_amount data),
    (i_due_date data); try discriminate.
  intros [= -> -> -> ->]; auto.
Qed.

(** An invoice request that passes the required fields names a student
    other than 0: no invoice is created for [student_id] 0. *)
Lemma invoice_required_student_id (data : InvoiceData) sid fid a due :
  invoice_required_fields data = inr (sid, fid, a, due) -> sid <> 0.
Proof.
  intros H. destruct (invoice_required_fields_inr _ H) as (Es & _).
  unfold invoice_required_fields in H. rewrite Es in H. simpl in H.
  destruct (sid =? 0) eqn:E; simpl in H; [discriminate|].
  now apply Z.eqb_neq.
Qed.

(** What a successful creation did. *)
Lemma create_invoice_success (cu : CurrentUser) (today : date)
  (data : InvoiceData) (db : Db) code inv db' :
  create_invoice cu today data db = (Json code inv, db') ->
  exists sid fid a due,
    role_required ["admin"; "staff"]%string cu = true /\
    invoice_required_fields data = inr (sid, fid, a, due) /\
    decimal_of a = Valid (amount inv) /\
    discount_of data = Valid (discount inv) /\
    issue_date_of today data = Valid (issue_date inv) /\
    due = Valid (due_date inv) /\
    code = 201 /\
    inv = {| invoice_id := next_id (map invoice_id (invoices db));
             invoice_student_id := sid;
             invoice_fee_id := fid;
             invoice_number := make_invoice_number db;
             amount := amount inv;
             discount := discount inv;
             total_amount := amount inv - discount inv;
             issue_date := issue_date inv;
             due_date := due_date inv;
             status := default_invoice_status |} /\
    db' = {| students := students db;
             fee_structures := fee_structures db;
             invoices := invoices db ++ [inv];
             payments := payments db |}.
Proof.
  unfold create_invoice.
  destruct (role_required ["admin"; "staff"]%string cu); simpl; [|discriminate].
  destruct (invoice_required_fields data) as [[c m]|[[[sid fid] a] due]];
    [discriminate|].
  destruct (decimal_of a) as [amt|] eqn:Ha; [|discriminate].
  destruct (discount_of data) as [disc|] eqn:Hd; [|discriminate].
  destruct (issue_date_of today data) as [issued|] eqn:Hi; [|discriminate].
  destruct due as [due_day|]; [|discriminate].
  destruct (fits_int64 sid && fits_int64 fid); simpl; [|discriminate].
  intros [= <- <- <-]. simpl.
  exists sid, fid, a, (Valid due_day). repeat split; auto.
Qed.

(** The keys of a created invoice are inside the range of the store. *)
Lemma create_invoice_in_range (cu : CurrentUser) (today : date)
  (data : InvoiceData) (db : Db) code inv db' :
  create_invoice cu today data db = (Json code inv, db') ->
  fits_int64 (invoice_student_id inv) = true /\
  fits_int64 (invoice_fee_id inv) = true.
Proof.
  unfold create_invoice.
  destruct (role_required ["admin"; "staff"]%string cu); simpl; [|discriminate].
  destruct (invoice_required_fields data) as [[c m]|[[[sid fid] a] due]];
    [discriminate|].
  destruct (decimal_of a) as [amt|]; [|discriminate].
  destruct (discount_of data) as [disc|]; [|discriminate].
  destruct (issue_date_of today data) as [issued|]; [|discriminate].
  destruct due as [due_day|]; [|discriminate].
  destruct (fits_int64 sid && fits_int64 fid) eqn:Hfits; simpl; [|discriminate].
  intros [= <- <- <-]. simpl. now apply andb_true_iff.
Qed.

Lemma create_invoice_failure_keeps_db (cu : CurrentUser) (today : date)
  (data : InvoiceData) (db : Db) code msg db' :
  create_invoice cu today data db = (Err code msg, db') -> db' = db.
Proof.
  unfold create_invoice.
  destruct (role_required ["admin"; "staff"]%string cu); simpl; [|congruence].
  destruct (invoice_required_fields data) as [[c m]|[[[sid fid] a] due]];
    [congruence|].
  destruct (decimal_of a) as [amt|]; [|congruence].
  destruct (discount_of data) as [disc|]; [|congruence].
  destruct (issue_date_of today data) as [issued|]; [|congruence].
  destruct due as [due_day|]; [|congruence].
  destruct (fits_int64 sid && fits_int64 fid); simpl; [discriminate|congruence].
Qed.

(** A request with the required fields, values that parse and keys inside
    the range of the store is created, whatever its amounts. *)
Lemma create_invoice_accepts (cu : CurrentUser) (today : date)
  (data : InvoiceData) (db : Db) sid fid a amt disc issued due_day :
  role_required ["admin"; "staff"]%string cu = true ->
  invoice_required_fields data = inr (sid, fid, a, Valid due_day) ->
  decimal_of a = Valid amt ->
  discount_of data = Valid disc ->
  issue_date_of today data = Valid issued ->
  fits_int64 sid = true ->
  fits_int64 fid = true ->
  exists inv db',
    create_invoice cu today data db = (Json 201 inv, db') /\
    amount inv = amt /\ discount inv = disc /\
    total_amount inv = amt - disc.
Proof.
  intros Hrole Hreq Ha Hd Hi Hs Hf.
  unfold create_invoice. rewrite Hrole, Hreq, Ha, Hd, Hi, Hs, Hf. simpl.
  eexists _, _. split; [reflexivity|]. simpl. auto.
Qed.

(** Keys outside the range of the store are answered 500, whatever else
    the request holds. *)
Lemma create_invoice_out_of_range (cu : CurrentUser) (today : date)
  (data : InvoiceData) (db : Db) sid fid a due :
  invoice_required_fields data = inr (sid, fid, a, due) ->
  fits_int64 sid && fits_int64 fid = false ->
  exists msg,
    create_invoice cu today data db =
      (Err (if role_required ["admin"; "staff"]%string cu then 500 else 403) msg,
       db).
Proof.
  intros Hreq Hfits. unfold create_invoice.
  destruct (role_required ["admin"; "staff"]%string cu); simpl; [|eauto].
  rewrite Hreq.
  destruct (decimal_of a) as [amt|]; [|eauto].
  destruct (discount_of data) as [disc|]; [|eauto].
  destruct (issue_date_of today data) as [issued|]; [|eauto].
  destruct due as [due_day|]; [|eauto].
  rewrite Hfits. simpl. eauto.
Qed.

(** A fresh primary key is above every key in the table. *)
Lemma next_id_above (ids : list Z) (x : Z) : In x ids -> x < next_id ids.
Proof.
  unfold next_id. induction ids as [|y ids IH]; cbn [fold_right In]; [tauto|].
  intros [-> | H]; [lia|]. specialize (IH H). lia.
Qed.

Lemma find_fresh_row (l : list Invoice) (inv : Invoice) :
  invoice_id inv = next_id (map invoice_id l) ->
  find (fun i => invoice_id i =? invoice_id inv) (l ++ [inv]) = Some inv.
Proof.
  intros Hid.
  assert (Hl : forall x, In x l -> (invoice_id x =? invoice_id inv) = false).
  { intros x Hx. apply Z.eqb_neq.
    pose proof (@next_id_above (map invoice_id l) (invoice_id x)
                  (in_map invoice_id l x Hx)). lia. }
  clear Hid. induction l as [|y l IH]; simpl.
  - now rewrite Z.eqb_refl.
  - rewrite (Hl y (or_introl eq_refl)). apply IH.
    intros x Hx. apply Hl. now right.
Qed.

(** C3 (amended).  Invoice creation never compares the discount with the
    amount.  Every invoice it persists has total_amount = amount − discount,
    and a request from admin or staff with the required fields, values that
    parse and student_id and fee_id inside the signed 64-bit range of the
    store is persisted with that total whatever the discount, so with a
    negative total when the discount is larger than the amount.  A request
    with the required fields and a student_id or fee_id outside that range
    fails and persists nothing: 500 for admin and staff, 403 for any other
    role. *)
Theorem create_invoice_total_amount (cu : CurrentUser) (today : date)
  (data : InvoiceData) (db : Db) :
  (forall code inv db',
      create_invoice cu today data db = (Json code inv, db') ->
      get_invoice_row db' (invoice_id inv) = Some inv /\
      (exists a, i_amount data = Some a /\ decimal_of a = Valid (amount inv)) /\
      discount_of data = Valid (discount inv) /\
      total_amount inv = amount inv - discount inv) /\
  (forall sid fid a amt disc issued due_day,
      role_required ["admin"; "staff"]%string cu = true ->
      invoice_required_fields data = inr (sid, fid, a, Valid due_day) ->
      decimal_of a = Valid amt ->
      discount_of data = Valid disc ->
      issue_date_of today data = Valid issued ->
      fits_int64 sid = true ->
      fits_int64 fid = true ->
      exists inv db',
        create_invoice cu today data db = (Json 201 inv, db') /\
        get_invoice_row db' (invoice_id inv) = Some inv /\
        total_amount inv = amt - disc /\
        (disc > amt -> total_amount inv < 0)) /\
  (forall sid fid a due,
      invoice_required_fields data = inr (sid, fid, a, due) ->
      fits_int64 sid && fits_int64 fid = false ->
      exists msg,
        create_invoice cu today data db =
          (Err (if role_required ["admin"; "staff"]%string cu then 500 else 403)
             msg, db)).
Proof.
  assert (Hrow : forall code inv db',
             create_invoice cu today data db = (Json code inv, db') ->
             get_invoice_row db' (invoice_id inv) = Some inv).
  { intros code inv db' H.
    destruct (create_invoice_success _ _ _ _ H)
      as (sid & fid & a & due & _ & _ & _ & _ & _ & _ & _ & Hinv & ->).
    unfold get_invoice_row. simpl. apply find_fresh_row.
    rewrite Hinv at 1. reflexivity. }
  split.
  - intros code inv db' H. split; [eapply Hrow; eassumption|].
    destruct (create_invoice_success _ _ _ _ H)
      as (sid & fid & a & due & _ & Hreq & Ha & Hd & _ & _ & _ & Hinv & _).
    destruct (invoice_required_fields_inr _ Hreq) as (_ & _ & Ea & _).
    split; [eauto|]. split; [assumption|].
    rewrite Hinv at 1. reflexivity.
  - split.
    + intros sid fid a amt disc issued due_day Hrole Hreq Ha Hd Hi Hs Hf.
      destruct (@create_invoice_accepts cu today data db _ _ _ _ _ _ _
                  Hrole Hreq Ha Hd Hi Hs Hf)
        as (inv & db' & Hrun & _ & _ & Htot).
      exists inv, db'. split; [assumption|].
      split; [eapply Hrow; eassumption|].
      split; [assumption|]. lia.
    + intros sid fid a due Hreq Hfits.
      eapply create_invoice_out_of_range; eassumption.
Qed.

(** C8 (amended).  Every invoice that creation persists starts with the
    column default, Pending, whatever its total_amount: a total of zero or
    less does not make it Paid. *)
Theorem create_invoice_status_pending (cu : CurrentUser) (today : date)
  (data : InvoiceData) (db : Db) (code : Z) (inv : Invoice) (db' : Db) :
  create_invoice cu today data db = (Json code inv, db') ->
  get_invoice_row db' (invoice_id inv) = Some inv /\
  status inv = "Pending"%string.
Proof.
  intros H.
  destruct (create_invoice_success _ _ _ _ H)
    as (sid & fid & a & due & _ & _ & _ & _ & _ & _ & _ & Hinv & ->).
  split.
  - unfold get_invoice_row. simpl. apply find_fresh_row.
    rewrite Hinv at 1. reflexivity.
  - rewrite Hinv. reflexivity.
Qed.

(** ** Invoice numbers *)

Lemma format_06d_nonneg (z : Z) :
  0 <= z -> format_06d z = zfill 6 (digits (Z.to_N z)).
Proof.
  intros H. unfold format_06d.
  destruct (z <? 0) eqn:E; [apply Z.ltb_lt in E; lia|reflexivity].
Qed.

Lemma make_invoice_number_eq (db : Db) :
  make_invoice_number db =
  ("INV" ++ zfill 6 (digits (N.of_nat (List.length (invoices db)) + 1)))%string.
Proof.
  unfold make_invoice_number, invoice_count.
  rewrite format_06d_nonneg by lia.
  replace (Z.to_N (Z.of_nat (List.length (invoices db)) + 1))
    with (N.of_nat (List.length (invoices db)) + 1)%N by lia.
  reflexivity.
Qed.

(** Reading zero-padded digits back gives the digits with zeros in front. *)
Lemma uint_of_zeros (k : nat) (s : string) (d : Decimal.uint) :
  NilEmpty.uint_of_string s = Some d ->
  NilEmpty.uint_of_string (zeros k ++ s) = Some (Nat.iter k Decimal.D0 d).
Proof.
  intros H. induction k as [|k IH]; simpl; [exact H|].
  rewrite IH. reflexivity.
Qed.

Lemma of_uint_leading_zeros (k : nat) (d : Decimal.uint) :
  N.of_uint (Nat.iter k Decimal.D0 d) = N.of_uint d.
Proof.
  induction k as [|k IH]; simpl; [reflexivity|exact IH].
Qed.

(** The label of counter [n] reads back as [n], whatever the padding. *)
Lemma label_counter_zfill (w : nat) (n : N) :
  label_counter ("INV" ++ zfill w (digits n)) = Some n.
Proof.
  unfold zfill, digits. simpl.
  rewrite (uint_of_zeros _ _ (NilEmpty.usu (N.to_uint n))). simpl.
  rewrite of_uint_leading_zeros, DecimalN.Unsigned.of_to. reflexivity.
Qed.

Lemma counters_from_above (start : N) (k : nat) (x : N) :
  In x (counters_from start k) -> (start <= x)%N.
Proof.
  revert start. induction k as [|k IH]; simpl; intros start; [tauto|].
  intros [<- | H]; [lia|]. apply IH in H. lia.
Qed.

Lemma counters_from_increasing (start : N) (k : nat) :
  StronglySorted N.lt (counters_from start k).
Proof.
  revert start. induction k as [|k IH]; simpl; intros start; constructor.
  - apply IH.
  - apply Forall_forall. intros x Hx. apply counters_from_above in Hx. lia.
Qed.

(** C7.  The invoice number of a created invoice is ["INV"] followed by the
    number of invoices at the time of the call plus one, zero-padded to six
    digits, and it reads back as that counter.  Over requests served one
    after the other, the counters of the invoices created are consecutive
    from there, hence strictly increasing. *)
Theorem invoice_number_sequential (cu : CurrentUser) (today : date) :
  (forall data db code inv db',
      create_invoice cu today data db = (Json code inv, db') ->
      let n := (N.of_nat (List.length (invoices db)) + 1)%N in
      invoice_number inv = ("INV" ++ zfill 6 (digits n))%string /\
      label_counter (invoice_number inv) = Some n) /\
  (forall reqs db created db',
      create_invoices cu today reqs db = (created, db') ->
      let first := (N.of_nat (List.length (invoices db)) + 1)%N in
      map (fun i => label_counter (invoice_number i)) created =
        map Some (counters_from first (List.length created)) /\
      StronglySorted N.lt (counters_from first (List.length created))).
Proof.
  assert (One : forall data db code inv db',
             create_invoice cu today data db = (Json code inv, db') ->
             invoice_number inv =
               ("INV" ++ zfill 6 (digits (N.of_nat (List.length (invoices db)) + 1)))%string
             /\ List.length (invoices db') = S (List.length (invoices db))).
  { intros data db code inv db' H.
    destruct (create_invoice_success _ _ _ _ H)
      as (sid & fid & a & due & _ & _ & _ & _ & _ & _ & _ & Hinv & ->).
    split.
    - rewrite Hinv. simpl. apply make_invoice_number_eq.
    - simpl. rewrite length_app. simpl. lia. }
  split.
  - intros data db code inv db' H n.
    destruct (One _ _ _ _ _ H) as [E _].
    split; [exact E|]. rewrite E. apply label_counter_zfill.
  - intros reqs. induction reqs as [|data reqs IH]; intros db created db' H first.
    + simpl in H. injection H as <- <-. simpl. split; [reflexivity|constructor].
    + simpl in H.
      destruct (create_invoice cu today data db) as [[c inv|c msg] db1] eqn:Hrun.
      * destruct (create_invoices cu today reqs db1) as [rest db2] eqn:Hrest.
        injection H as <- <-.
        destruct (One _ _ _ _ _ Hrun) as [E Hlen].
        destruct (IH _ _ _ Hrest) as [IHmap _].
        split; [|apply counters_from_increasing].
        simpl. rewrite E, label_counter_zfill. f_equal.
        rewrite IHmap. do 2 f_equal. unfold first. lia.
      * apply create_invoice_failure_keeps_db in Hrun. subst db1.
        apply (IH _ _ _ H).
Qed.

(** ** The stable descending sort *)

Section StableSortFacts.
Variables (A : Type) (key : A -> Z).

Lemma insert_desc_perm (x : A) (l : list A) :
  Permutation (insert_desc key x l) (x :: l).
Proof.
  induction l as [|y l IH]; simpl; [reflexivity|].
  destruct (key y <=? key x); [reflexivity|].
  rewrite IH. apply perm_swap.
Qed.

Lemma sort_desc_perm (l : list A) : Permutation (sort_desc key l) l.
Proof.
  induction l as [|x l IH]; simpl; [reflexivity|].
  rewrite insert_desc_perm. now constructor.
Qed.

Lemma insert_desc_sorted (x : A) (l : list A) :
  StronglySorted (key_ge key) l -> StronglySorted (key_ge key) (insert_desc key x l).
Proof.
  induction l as [|y l IH]; simpl; intros Hs.
  - repeat constructor.
  - inversion Hs as [|? ? Hl Hy]; subst.
    destruct (key y <=? key x) eqn:E.
    + apply Z.leb_le in E. constructor; [assumption|].
      constructor; [unfold key_ge; lia|].
      eapply Forall_impl; [|exact Hy]. unfold key_ge. intros; lia.
    + apply Z.leb_gt in E. constructor; [auto|].
      apply Forall_forall. intros z Hz.
      apply (Permutation_in _ (insert_desc_perm x l)) in Hz.
      destruct Hz as [<- | Hz]; [unfold key_ge; lia|].
      rewrite Forall_forall in Hy. auto.
Qed.

Lemma sort_desc_sorted (l : list A) : StronglySorted (key_ge key) (sort_desc key l).
Proof.
  induction l as [|x l IH]; simpl; [constructor|].
  now apply insert_desc_sorted.
Qed.

(** Stability: the elements of any one key come out in the order they
    went in. *)
Lemma insert_desc_stable (d : Z) (x : A) (l : list A) :
  filter (fun a => key a =? d) (insert_desc key x l) =
  filter (fun a => key a =? d) (x :: l).
Proof.
  induction l as [|y l IH]; [reflexivity|].
  cbn [insert_desc].
  destruct (key y <=? key x) eqn:E; [reflexivity|].
  apply Z.leb_gt in E.
  cbn [filter] in *. rewrite IH.
  destruct (key x =? d) eqn:Ex; [|reflexivity].
  destruct (key y =? d) eqn:Ey; [|reflexivity].
  apply Z.eqb_eq in Ex, Ey. lia.
Qed.

Lemma sort_desc_stable (d : Z) (l : list A) :
  filter (fun a => key a =? d) (sort_desc key l) =
  filter (fun a => key a =? d) l.
Proof.
  induction l as [|x l IH]; [reflexivity|].
  cbn [sort_desc fold_right]. fold (sort_desc key l).
  rewrite insert_desc_stable. cbn [filter]. now rewrite IH.
Qed.

(** A stable sort keeps, among equal keys, an order the input already had:
    sorting a list that is in order of [R] puts it in order of the key and
    then of [R]. *)
Lemma insert_desc_then (R : A -> A -> Prop) (x : A) (l : list A) :
  Forall (R x) l ->
  StronglySorted (key_then key R) l ->
  StronglySorted (key_then key R) (insert_desc key x l).
Proof.
  induction l as [|y l IH]; simpl; intros Hx Hs.
  - repeat constructor.
  - inversion Hs as [|? ? Hl Hy]; subst.
    inversion Hx as [|? ? Hxy Hxl]; subst.
    destruct (key y <=? key x) eqn:E.
    + apply Z.leb_le in E. constructor; [assumption|].
      constructor.
      * unfold key_then. destruct (Z.eq_dec (key x) (key y)); [right|left]; auto; lia.
      * rewrite Forall_forall in *. intros z Hz.
        specialize (Hy z Hz). specialize (Hxl z Hz). unfold key_then in *.
        destruct (Z.eq_dec (key x) (key z)); [right; auto|left; lia].
    + apply Z.leb_gt in E. constructor; [auto|].
      apply Forall_forall. intros z Hz.
      apply (Permutation_in _ (insert_desc_perm x l)) in Hz.
      destruct Hz as [<- | Hz]; [left; lia|].
      rewrite Forall_forall in Hy. auto.
Qed.

Lemma sort_desc_then (R : A -> A -> Prop) (l : list A) :
  StronglySorted R l -> StronglySorted (key_then key R) (sort_desc key l).
Proof.
  induction 1 as [|x l Hl IH Hx]; simpl; [constructor|].
  apply insert_desc_then; [|exact IH].
  rewrite Forall_forall in *. intros z Hz. apply Hx.
  now apply (Permutation_in _ (sort_desc_perm l)).
Qed.
End StableSortFacts.

Lemma StronglySorted_filter {A} (R : A -> A -> Prop) (p : A -> bool) (l : list A) :
  StronglySorted R l -> StronglySorted R (filter p l).
Proof.
  induction 1 as [|x l Hl IH Hx]; simpl; [constructor|].
  destruct (p x); [|assumption]. constructor; [assumption|].
  rewrite Forall_forall in *. intros z Hz. apply Hx.
  apply filter_In in Hz. tauto.
Qed.

Lemma StronglySorted_map_back {A B} (g : B -> A) (R : A -> A -> Prop) (ys : list B) :
  StronglySorted R (map g ys) -> StronglySorted (fun a b => R (g a) (g b)) ys.
Proof.
  induction ys as [|y ys IH]; simpl; intros H; [constructor|].
  inversion H as [|? ? Hl Hy]; subst. constructor; [auto|].
  rewrite Forall_forall in *. intros z Hz. apply Hy. now apply in_map.
Qed.

(** ** The scan of the invoice table *)

Lemma rowid_scan_perm (l : list Invoice) : Permutation (rowid_scan l) l.
Proof. apply sort_desc_perm. Qed.

Lemma rowid_scan_In (l : list Invoice) (i : Invoice) :
  In i (rowid_scan l) <-> In i l.
Proof.
  split; apply Permutation_in;
    [apply rowid_scan_perm|apply Permutation_sym, rowid_scan_perm].
Qed.

Lemma rowid_scan_sorted (l : list Invoice) :
  StronglySorted (fun a b => invoice_id a <= invoice_id b) (rowid_scan l).
Proof.
  unfold rowid_scan.
  eapply StronglySorted_map_back with (g := fun i => i) (R := fun a b => invoice_id a <= invoice_id b).
  rewrite map_id.
  pose proof (sort_desc_sorted (fun i => - invoice_id i) l) as H.
  induction H as [|x l' Hl IH Hx]; constructor; [assumption|].
  eapply Forall_impl; [|exact Hx]. unfold key_ge. intros; lia.
Qed.

(** A table whose rows are in order of their keys, as every table the
    handlers write is, is scanned in the order of the list. *)
Lemma insert_desc_front {A} (key : A -> Z) (x : A) (l : list A) :
  Forall (fun y => key y <= key x) l -> insert_desc key x l = x :: l.
Proof.
  destruct l as [|y l]; simpl; [reflexivity|].
  intros H. inversion H as [|? ? Hy _]; subst.
  apply Z.leb_le in Hy. now rewrite Hy.
Qed.

Lemma rowid_scan_sorted_id (l : list Invoice) :
  StronglySorted (fun a b => invoice_id a <= invoice_id b) l -> rowid_scan l = l.
Proof.
  unfold rowid_scan.
  induction 1 as [|x l Hl IH Hx]; simpl; [reflexivity|].
  fold (sort_desc (fun i => - invoice_id i) l). rewrite IH.
  apply insert_desc_front.
  eapply Forall_impl; [|exact Hx]. simpl. intros; lia.
Qed.

(** ** Rows built in a loop *)

Lemma all_some_forall2 {A B} (f : A -> option B) (l : list A) (ys : list B) :
  all_some f l = Some ys -> Forall2 (fun x y => f x = Some y) l ys.
Proof.
  revert ys. induction l as [|x l IH]; simpl; intros ys.
  - intros [= <-]. constructor.
  - destruct (f x) as [y|] eqn:Hx; [|discriminate].
    destruct (all_some f l) as [ys'|]; [|discriminate].
    intros [= <-]. constructor; auto.
Qed.

Lemma all_some_total {A B} (f : A -> option B) (l : list A) :
  (forall x, In x l -> f x <> None) -> exists ys, all_some f l = Some ys.
Proof.
  induction l as [|x l IH]; simpl; intros H; [eauto|].
  destruct (f x) as [y|] eqn:Hx; [|now destruct (H x (or_introl eq_refl))].
  destruct IH as [ys ->]; [auto|]. eauto.
Qed.

Lemma forall2_map_back {A B} (R : A -> B -> Prop) (g : B -> A)
  (l : list A) (ys : list B) :
  Forall2 R l ys -> (forall x y, R x y -> g y = x) -> map g ys = l.
Proof.
  intros H Hg. induction H as [|x y l ys Hxy _ IH]; simpl; [reflexivity|].
  now rewrite (Hg _ _ Hxy), IH.
Qed.

Lemma forall2_right {A B} (R : A -> B -> Prop) (P : B -> Prop)
  (l : list A) (ys : list B) :
  Forall2 R l ys -> (forall x y, R x y -> P y) -> Forall P ys.
Proof.
  intros H HP. induction H; constructor; eauto.
Qed.

Lemma filter_map_agree {A B} (g : B -> A) (p : A -> bool) (q : B -> bool)
  (ys : list B) :
  Forall (fun y => q y = p (g y)) ys ->
  map g (filter q ys) = filter p (map g ys).
Proof.
  induction 1 as [|y ys Hy _ IH]; simpl; [reflexivity|].
  rewrite Hy. destruct (p (g y)); simpl; now rewrite IH.
Qed.

Lemma filter_filter {A} (p q : A -> bool) (l : list A) :
  filter p (filter q l) = filter (fun x => q x && p x) l.
Proof.
  induction l as [|x l IH]; simpl; [reflexivity|].
  destruct (q x); simpl; [destruct (p x)|]; now rewrite IH.
Qed.

(** ** The outstanding report *)

(** The SQL expression of the report is the balance of the invoice. *)
Lemma outstanding_amount_is_balance (db : Db) (i : Invoice) :
  outstanding_amount_of db i = calculate_balance db i.
Proof. reflexivity. Qed.

Lemma days_overdue_max (today : date) (i : Invoice) :
  days_overdue_of today i = Z.max 0 (today - due_date i).
Proof.
  unfold days_overdue_of.
  destruct (due_date i <? today) eqn:E;
    [apply Z.ltb_lt in E|apply Z.ltb_ge in E]; lia.
Qed.

Lemma status_is_open_iff (i : Invoice) :
  status_is_open i = true <->
  status i = "Pending"%string \/ status i = "Partial"%string \/
  status i = "Overdue"%string.
Proof.
  unfold status_is_open. simpl.
  rewrite !orb_true_iff, !String.eqb_eq. intuition discriminate.
Qed.

Lemma outstanding_row_fields (today : date) (db : Db) (i : Invoice)
  (r : OutstandingRow) :
  outstanding_row today db i = Some r ->
  row_invoice r = i /\
  invoice_student db i = Some (row_student r) /\
  invoice_fee_structure db i = Some (row_fee_structure r) /\
  outstanding_amount r = calculate_balance db i /\
  days_overdue r = Z.max 0 (today - due_date i).
Proof.
  unfold outstanding_row.
  destruct (invoice_student db i) as [s|]; [|discriminate].
  destruct (invoice_fee_structure db i) as [f|]; [|discriminate].
  intros [= <-]. simpl. rewrite days_overdue_max. auto.
Qed.

(** The invoices the report is about: open status and a positive balance,
    by ascending key. *)
Lemma outstanding_invoices_eq (db : Db) :
  outstanding_invoices db =
  filter (fun i => status_is_open i && (calculate_balance db i >? 0))
    (rowid_scan (invoices db)).
Proof. unfold outstanding_invoices. now rewrite filter_filter. Qed.

Lemma filter_perm {A} (p : A -> bool) (l l' : list A) :
  Permutation l l' -> Permutation (filter p l) (filter p l').
Proof.
  induction 1 as [|x l l' _ IH|x y l|l l' l'' _ IH1 _ IH2]; simpl.
  - constructor.
  - destruct (p x); [now constructor|assumption].
  - destruct (p x), (p y); try reflexivity. apply perm_swap.
  - now transitivity (filter p l').
Qed.

Lemma outstanding_invoices_perm (db : Db) :
  Permutation (outstanding_invoices db)
    (filter (fun i => status_is_open i && (calculate_balance db i >? 0))
       (invoices db)).
Proof.
  rewrite outstanding_invoices_eq. apply filter_perm, rowid_scan_perm.
Qed.

Lemma outstanding_invoices_In (db : Db) (i : Invoice) :
  In i (outstanding_invoices db) <->
  In i (invoices db) /\ status_is_open i = true /\ calculate_balance db i > 0.
Proof.
  rewrite outstanding_invoices_eq, filter_In, rowid_scan_In, andb_true_iff.
  rewrite Z.gtb_ltb, Z.ltb_lt. intuition lia.
Qed.

Lemma outstanding_invoices_sorted (db : Db) :
  StronglySorted (fun a b => invoice_id a <= invoice_id b)
    (outstanding_invoices db).
Proof.
  unfold outstanding_invoices.
  apply StronglySorted_filter, StronglySorted_filter, rowid_scan_sorted.
Qed.

Lemma all_some_misses {A B} (f : A -> option B) (l : list A) (x : A) :
  In x l -> f x = None -> all_some f l = None.
Proof.
  induction l as [|y l IH]; simpl; [tauto|].
  intros [-> | Hin] Hx.
  - now rewrite Hx.
  - destruct (f y); [|reflexivity]. now rewrite (IH Hin Hx).
Qed.

(** C5 (amended).  For admin or staff, when the student and the fee
    structure of every outstanding invoice exist, the report answers 200
    with one row for exactly each invoice whose status is Pending, Partial or
    Overdue and whose balance is positive.  Each row carries the balance and
    days_overdue = max(0, today − due_date).  The rows are in descending
    order of days_overdue, and rows with the same days_overdue are in
    ascending order of invoice_id.  When the student or the fee structure
    of one outstanding invoice has no row, the report answers 500 and
    returns no invoice at all. *)
Theorem outstanding_report_rows (cu : CurrentUser) (today : date) (db : Db) :
  role_required ["admin"; "staff"]%string cu = true ->
  ((forall i, In i (outstanding_invoices db) ->
              invoice_student db i <> None /\ invoice_fee_structure db i <> None) ->
   exists rows,
     get_outstanding_report cu today db = Json 200 rows /\
     Permutation (map row_invoice rows)
       (filter (fun i => status_is_open i && (calculate_balance db i >? 0))
          (invoices db)) /\
     (forall i, In i (map row_invoice rows) <->
                In i (invoices db) /\
                (status i = "Pending"%string \/ status i = "Partial"%string \/
                 status i = "Overdue"%string) /\
                calculate_balance db i > 0) /\
     Forall (fun r => days_overdue r = Z.max 0 (today - due_date (row_invoice r)) /\
                      outstanding_amount r = calculate_balance db (row_invoice r))
       rows /\
     StronglySorted
       (fun r1 r2 =>
          days_overdue r1 > days_overdue r2 \/
          (days_overdue r1 = days_overdue r2 /\
           invoice_id (row_invoice r1) <= invoice_id (row_invoice r2)))
       rows) /\
  (forall i,
      In i (invoices db) ->
      status i = "Pending"%string \/ status i = "Partial"%string \/
      status i = "Overdue"%string ->
      calculate_balance db i > 0 ->
      invoice_student db i = None \/ invoice_fee_structure db i = None ->
      get_outstanding_report cu today db = Err 500 none_has_no_to_dict).
Proof.
  intros Hrole. split.
  { intros Hrefs.
  unfold get_outstanding_report. rewrite Hrole. simpl.
  destruct (@all_some_total _ _ (outstanding_row today db) (outstanding_invoices db))
    as [ys Hys].
  { intros i Hi. destruct (Hrefs i Hi) as [Hs Hf]. unfold outstanding_row.
    destruct (invoice_student db i); [|congruence].
    destruct (invoice_fee_structure db i); [discriminate|congruence]. }
  rewrite Hys. apply all_some_forall2 in Hys.
  assert (Hmap : map row_invoice ys = outstanding_invoices db).
  { eapply forall2_map_back; [exact Hys|].
    intros i r H. now apply outstanding_row_fields in H. }
  assert (Hfields : Forall (fun r =>
            days_overdue r = Z.max 0 (today - due_date (row_invoice r)) /\
            outstanding_amount r = calculate_balance db (row_invoice r)) ys).
  { eapply forall2_right; [exact Hys|].
    intros i r H. apply outstanding_row_fields in H.
    destruct H as (-> & _ & _ & Ho & Hd). auto. }
  pose proof (sort_desc_perm days_overdue ys) as Hperm.
  exists (sort_desc days_overdue ys).
  split; [reflexivity|].
  assert (Hp : Permutation (map row_invoice (sort_desc days_overdue ys))
                 (filter (fun i => status_is_open i && (calculate_balance db i >? 0))
                    (invoices db))).
  { rewrite <- outstanding_invoices_perm, <- Hmap. now apply Permutation_map. }
  split; [exact Hp|]. split; [|split].
  - intros i. split.
    + intros Hi. apply (Permutation_in _ Hp) in Hi.
      apply filter_In in Hi. destruct Hi as [Hin Hb].
      apply andb_true_iff in Hb. destruct Hb as [Ho Hb].
      apply status_is_open_iff in Ho.
      rewrite Z.gtb_ltb in Hb. apply Z.ltb_lt in Hb.
      split; [assumption|]. split; [assumption|lia].
    + intros (Hin & Ho & Hb).
      apply (Permutation_in _ (Permutation_sym Hp)).
      apply filter_In. split; [assumption|].
      apply andb_true_iff. split; [now apply status_is_open_iff|].
      rewrite Z.gtb_ltb. apply Z.ltb_lt. lia.
  - rewrite Forall_forall in *. intros r Hr. apply Hfields.
    now apply (Permutation_in _ Hperm).
  - apply (@sort_desc_then _ days_overdue
             (fun r1 r2 => invoice_id (row_invoice r1) <= invoice_id (row_invoice r2))).
    apply StronglySorted_map_back with (R := fun a b => invoice_id a <= invoice_id b).
    rewrite Hmap. apply outstanding_invoices_sorted. }
  intros i Hin Hopen Hbal Hdangling.
  unfold get_outstanding_report. rewrite Hrole. simpl.
  rewrite (@all_some_misses _ _ (outstanding_row today db) (outstanding_invoices db) i);
    [reflexivity| |].
  - apply outstanding_invoices_In. split; [assumption|].
    split; [now apply status_is_open_iff|assumption].
  - unfold outstanding_row. destruct Hdangling as [-> | ->]; [reflexivity|].
    destruct (invoice_student db i); reflexivity.
Qed.

(** ** The invoice list *)

Lemma is_admin_or_staff_iff (role : string) :
  is_admin_or_staff role = true <-> role = "admin"%string \/ role = "staff"%string.
Proof.
  unfold is_admin_or_staff. simpl.
  rewrite !orb_true_iff, !String.eqb_eq. intuition discriminate.
Qed.

Lemma view_of_invoice (cu : CurrentUser) (db : Db) (i : Invoice) (v : InvoiceView) :
  view_of cu db i = Some v -> view_invoice v = i.
Proof.
  unfold view_of.
  destruct (if is_admin_or_staff (role_type cu)
            then option_map Some (invoice_student db i) else Some None);
    [|discriminate].
  destruct (invoice_fee_structure db i); [|discriminate].
  now intros [= <-].
Qed.




Section Listing.
Variable paginate : list Invoice -> Z -> Z -> Pagination.

(** What a 200 answer is made of. *)
Lemma get_invoices_success (cu : CurrentUser) (args : InvoiceArgs) (db : Db)
  code body :
  get_invoices paginate cu args db = Json code body ->
  exists query,
    role_scoped_invoices cu db = inr query /\
    code = 200 /\
    map view_invoice (list_invoices body) =
      items (paginate (sort_desc issue_date (apply_invoice_filters cu args query))
               (arg_or 1 (a_page args)) (effective_per_page args)) /\
    pg_page (list_pagination body) = arg_or 1 (a_page args) /\
    pg_per_page (list_pagination body) = effective_per_page args.
Proof.
  unfold get_invoices.
  destruct (role_scoped_invoices cu db) as [[c m]|query]; [discriminate|].
  destruct (negb (invoice_filters_fit cu args)); [discriminate|].
  destruct (all_some _ _) as [views|] eqn:Hv; [|discriminate].
  intros [= <- <-]. simpl. exists query.
  repeat split; try reflexivity.
  apply all_some_forall2 in Hv.
  eapply forall2_map_back; [exact Hv|].
  intros i v H. now apply view_of_invoice in H.
Qed.


Section Containment.
Hypothesis paginate_items :
  forall query page per_page i,
    In i (items (paginate query page per_page)) -> In i query.


End Containment.

Section PageSize.
Hypothesis paginate_size :
  forall query page per_page,
    Z.of_nat (List.length (items (paginate query page per_page))) <=
    (if per_page <? 1 then 20 else per_page).

(** C10 (amended).  The page size handed to the paginator and reported in
    the answer is the requested [per_page], 20 when none is given, capped at
    100.  From 1 up that is the most invoices a page holds; below 1 the
    paginator falls back to 20, so a page holds up to 20 invoices although
    the answer reports a size of zero or less.  No answer holds more than
    100 invoices. *)
Theorem get_invoices_page_size (cu : CurrentUser) (args : InvoiceArgs)
  (db : Db) (code : Z) (body : InvoiceList) :
  get_invoices paginate cu args db = Json code body ->
  pg_per_page (list_pagination body) =
    Z.min (match a_per_page args with Some n => n | None => 20 end) 100 /\
  (1 <= pg_per_page (list_pagination body) ->
   Z.of_nat (List.length (list_invoices body)) <=
   pg_per_page (list_pagination body)) /\
  (pg_per_page (list_pagination body) < 1 ->
   Z.of_nat (List.length (list_invoices body)) <= 20) /\
  Z.of_nat (List.length (list_invoices body)) <=
    (if pg_per_page (list_pagination body) <? 1 then 20
     else pg_per_page (list_pagination body)) /\
  (List.length (list_invoices body) <= 100)%nat.
Proof.
  intros H.
  destruct (get_invoices_success _ _ _ H) as (query & _ & _ & Hitems & _ & Hpp).
  assert (Hlen : List.length (list_invoices body) =
                 List.length (items (paginate
                   (sort_desc issue_date (apply_invoice_filters cu args query))
                   (arg_or 1 (a_page args)) (effective_per_page args))))
    by (rewrite <- Hitems; symmetry; apply length_map).
  pose proof (paginate_size
                (sort_desc issue_date (apply_invoice_filters cu args query))
                (arg_or 1 (a_page args)) (effective_per_page args)) as Hsize.
  rewrite <- Hlen in Hsize. rewrite Hpp.
  unfold effective_per_page, arg_or in *.
  destruct (a_per_page args) as [n|].
  - split; [reflexivity|].
    destruct (Z.min n 100 <? 1) eqn:E;
      [apply Z.ltb_lt in E|apply Z.ltb_ge in E]; repeat split; lia.
  - split; [reflexivity|]. simpl in Hsize. simpl. repeat split; lia.
Qed.
End PageSize.
End Listing.


Lemma paginate_query_size (query : list Invoice) (page per_page : Z) :
  Z.of_nat (List.length (items (paginate_query query page per_page))) <=
  (if per_page <? 1 then 20 else per_page).
Proof.
  unfold paginate_query. simpl.
  set (pp := if per_page <? 1 then 20 else per_page).
  pose proof (firstn_le_length (Z.to_nat pp)
                (skipn (Z.to_nat (((if page <? 1 then 1 else page) - 1) * pp)) query)).
  assert (0 <= pp) by (subst pp; destruct (per_page <? 1) eqn:E;
                       [lia|apply Z.ltb_ge in E; lia]).
  lia.
Qed.

(** ** Reading one invoice *)

Lemma may_access_invoice_who (cu : CurrentUser) (db : Db) (i : Invoice) :
  may_access_invoice cu db i = true ->
  is_admin_or_staff (role_type cu) = true \/
  (role_type cu = "student"%string /\
   exists s, student_of_user db (user_id cu) = Some s /\
             invoice_student_id i = student_id s).
Proof.
  unfold may_access_invoice.
  destruct (String.eqb_spec (role_type cu) "student") as [E|E]; [|auto].
  destruct (student_of_user db (user_id cu)) as [s|]; [|discriminate].
  intros H. apply Z.eqb_eq in H. right. eauto.
Qed.

(** The permission check reads the students and the [student_id] of the
    invoice, nothing else. *)
Lemma may_access_invoice_ext (cu : CurrentUser) (db db' : Db) (i i' : Invoice) :
  students db' = students db ->
  invoice_student_id i' = invoice_student_id i ->
  may_access_invoice cu db' i' = may_access_invoice cu db i.
Proof.
  intros Hs Hi. unfold may_access_invoice, student_of_user.
  now rewrite Hs, Hi.
Qed.

(** X1.  [get_invoice] answers 200 only to admin, staff or the student who
    owns the invoice; the invoice of the answer is the row with the
    requested id, and its payments are exactly the payments recorded on that
    id. *)
Theorem get_invoice_answer (cu : CurrentUser) (id : Z) (db : Db) (code : Z)
  (body : InvoiceDetail) :
  get_invoice cu id db = Json code body ->
  code = 200 /\
  get_invoice_row db id = Some (detail_invoice body) /\
  invoice_id (detail_invoice body) = id /\
  (is_admin_or_staff (role_type cu) = true \/
   (role_type cu = "student"%string /\
    exists s, student_of_user db (user_id cu) = Some s /\
              invoice_student_id (detail_invoice body) = student_id s)) /\
  (forall p, In p (detail_payments body) <->
             In p (payments db) /\ payment_invoice_id p = id).
Proof.
  unfold get_invoice.
  destruct (query_get_invoice db id) as [[inv|]|e] eqn:Hget; try discriminate.
  destruct (query_get_invoice_valid _ _ Hget) as [_ Hrow].
  destruct (may_access_invoice cu db inv) eqn:Hacc; simpl; [|discriminate].
  destruct (invoice_student db inv) as [s|]; [|discriminate].
  destruct (invoice_fee_structure db inv) as [f|]; [|discriminate].
  intros [= <- <-]. simpl.
  destruct (get_invoice_row_id _ _ Hrow) as [Hid _].
  split; [reflexivity|]. split; [assumption|]. split; [assumption|].
  split; [now apply may_access_invoice_who|].
  intros p. unfold invoice_payments. rewrite filter_In, Hid, Z.eqb_eq. tauto.
Qed.

Lemma invoice_payments_after (db db' : Db) (inv inv' : Invoice) (pay : Payment) :
  payments db' = payments db ++ [pay] ->
  payment_invoice_id pay = invoice_id inv ->
  invoice_id inv' = invoice_id inv ->
  invoice_payments db' inv' = invoice_payments db inv ++ [pay].
Proof.
  intros Hp Hpay Hid. unfold invoice_payments.
  rewrite Hp, Hid, filter_app. simpl. now rewrite Hpay, Z.eqb_refl.
Qed.

(** X2.  Reading after paying.  When a caller who could read an invoice
    pays on it, reading it again shows the same student and fee structure,
    the status the payment wrote, and the payments as before with the new
    one at the end. *)
Theorem get_invoice_after_payment (cu : CurrentUser) (data : PaymentData)
  (db : Db) (code : Z) (pay : Payment) (db' : Db) (before : InvoiceDetail) :
  create_payment cu data db = (Json code pay, db') ->
  get_invoice cu (payment_invoice_id pay) db = Json 200 before ->
  get_invoice cu (payment_invoice_id pay) db' =
    Json 200
      {| detail_invoice :=
           set_status
             (status_after_payment
                (calculate_balance db (detail_invoice before) - payment_amount pay)
                (status (detail_invoice before)))
             (detail_invoice before);
         detail_student := detail_student before;
         detail_fee_structure := detail_fee_structure before;
         detail_payments := detail_payments before ++ [pay] |}.
Proof.
  intros Hpay Hread.
  destruct (create_payment_target _ _ _ Hpay) as (inv & Htgt & Hpid & Hrow').
  destruct (create_payment_success _ _ _ Hpay)
    as (iid & m & a & inv0 & Hreq & Hinv & Hacc & _ & _ & _ & Hiid & _ & Hpays
        & _ & Hst & Hfs).
  destruct (payment_required_fields_inr _ Hreq) as (Ei & _).
  destruct (@target_invoice_of_success _ _ _ _ _ _ _ Hpay Ei) as [Hfits Htgt'].
  assert (inv0 = inv) as -> by (rewrite Htgt' in Htgt; congruence).
  subst iid.
  unfold get_invoice in *.
  rewrite (query_get_invoice_fits db _ Hfits) in Hread.
  rewrite (query_get_invoice_fits db' _ Hfits).
  rewrite Hinv in Hread. rewrite Hpid, Hrow'.
  rewrite Hacc in Hread. simpl in Hread.
  rewrite may_access_invoice_ext with (db := db) (i := inv);
    [|assumption|reflexivity].
  rewrite Hacc. simpl.
  unfold invoice_student, invoice_fee_structure in *. simpl.
  rewrite Hst, Hfs.
  destruct (find _ (students db)) as [s|]; [|discriminate].
  destruct (find _ (fee_structures db)) as [f|]; [|discriminate].
  injection Hread as <-. simpl.
  erewrite invoice_payments_after; [reflexivity|eassumption|assumption|reflexivity].
Qed.

(** X3.  Invoice creation does not look the student or the fee structure up.
    When a created invoice names a student or a fee structure that has no
    row, the creation is answered 201 all the same, and afterwards reading
    that invoice, by its key inside the range of the store, is answered 500
    for everyone allowed to read it, so for every admin and staff, and 403
    for everyone else. *)
Theorem dangling_invoice_cannot_be_read (cu : CurrentUser) (today : date)
  (data : InvoiceData) (db : Db) (code : Z) (inv : Invoice) (db' : Db)
  (reader : CurrentUser) :
  create_invoice cu today data db = (Json code inv, db') ->
  invoice_student db inv = None \/ invoice_fee_structure db inv = None ->
  fits_int64 (invoice_id inv) = true ->
  code = 201 /\
  (may_access_invoice reader db' inv = true ->
   get_invoice reader (invoice_id inv) db' = Err 500 none_has_no_to_dict) /\
  (may_access_invoice reader db' inv = false ->
   get_invoice reader (invoice_id inv) db' = Err 403 "Access denied") /\
  (is_admin_or_staff (role_type reader) = true ->
   get_invoice reader (invoice_id inv) db' = Err 500 none_has_no_to_dict).
Proof.
  intros H Hdangling Hfits.
  destruct (create_invoice_success _ _ _ _ H)
    as (sid & fid & a & due & _ & _ & _ & _ & _ & _ & Hcode & Hinv & Hdb).
  split; [assumption|].
  assert (Hrow : get_invoice_row db' (invoice_id inv) = Some inv).
  { subst db'. unfold get_invoice_row. simpl. apply find_fresh_row.
    rewrite Hinv at 1. reflexivity. }
  assert (Hs : invoice_student db' inv = invoice_student db inv)
    by (subst db'; reflexivity).
  assert (Hf : invoice_fee_structure db' inv = invoice_fee_structure db inv)
    by (subst db'; reflexivity).
  assert (Hallowed : may_access_invoice reader db' inv = true ->
            get_invoice reader (invoice_id inv) db' = Err 500 none_has_no_to_dict).
  { intros Hacc. unfold get_invoice.
    rewrite (query_get_invoice_fits _ _ Hfits), Hrow, Hacc. simpl.
    rewrite Hs, Hf.
    destruct Hdangling as [-> | ->]; [reflexivity|].
    destruct (invoice_student db inv); reflexivity. }
  split; [exact Hallowed|]. split.
  - intros Hacc. unfold get_invoice.
    rewrite (query_get_invoice_fits _ _ Hfits), Hrow, Hacc. reflexivity.
  - intros Hrole. apply Hallowed. unfold may_access_invoice.
    destruct (String.eqb_spec (role_type reader) "student") as [E|E];
      [|assumption].
    rewrite E in Hrole. discriminate.
Qed.

(** X4.  One outstanding invoice whose student or fee structure has no row
    makes the whole outstanding report fail with 500: no other invoice is
    reported either. *)
Theorem outstanding_report_fails_on_dangling (cu : CurrentUser) (today : date)
  (db : Db) (i : Invoice) :
  role_required ["admin"; "staff"]%string cu = true ->
  In i (invoices db) ->
  status_is_open i = true ->
  outstanding_amount_of db i > 0 ->
  invoice_student db i = None \/ invoice_fee_structure db i = None ->
  get_outstanding_report cu today db = Err 500 none_has_no_to_dict.
Proof.
  intros Hrole Hin Hopen Hbal Hdangling.
  change (outstanding_amount_of db i) with (calculate_balance db i) in Hbal.
  unfold get_outstanding_report. rewrite Hrole. simpl.
  rewrite (@all_some_misses _ _ (outstanding_row today db) (outstanding_invoices db) i);
    [reflexivity| |].
  - apply outstanding_invoices_In. auto.
  - unfold outstanding_row. destruct Hdangling as [-> | ->]; [reflexivity|].
    destruct (invoice_student db i); reflexivity.
Qed.

(** ** What the ledger keeps over any sequence of requests *)

Lemma create_payment_row (cu : CurrentUser) (data : PaymentData) (db : Db)
  code pay db' :
  create_payment cu data db = (Json code pay, db') ->
  exists inv,
    get_invoice_row db (payment_invoice_id pay) = Some inv /\
    payment_id pay = next_id (map payment_id (payments db)) /\
    payment_student_id pay = invoice_student_id inv /\
    processed_by pay = user_id cu /\
    0 < payment_amount pay <= calculate_balance db inv /\
    payments db' = payments db ++ [pay] /\
    invoices db' =
      update_invoice_status (invoice_id inv)
        (status_after_payment (calculate_balance db inv - payment_amount pay)
           (status inv))
        (invoices db).
Proof.
  unfold create_payment.
  destruct (payment_required_fields data) as [[c msg]|[[iid m] a]];
    [discriminate|].
  destruct (query_get_invoice db iid) as [[inv|]|e] eqn:Hget; try discriminate.
  destruct (query_get_invoice_valid _ _ Hget) as [_ Hinv].
  destruct (negb (may_access_invoice cu db inv)); [discriminate|].
  destruct (decimal_of a) as [amt|]; [|discriminate].
  destruct (amt <=? 0) eqn:Hpos; [discriminate|].
  destruct (amt >? calculate_balance db inv) eqn:Hbal; [discriminate|].
  intros [= <- <- <-]. simpl. exists inv.
  apply Z.leb_gt in Hpos. rewrite Z.gtb_ltb in Hbal. apply Z.ltb_ge in Hbal.
  repeat split; auto; lia.
Qed.

(** Induction over the requests of a run: a property that every successful
    creation keeps holds at the end. *)
Lemma serve_all_keeps (P : Db -> Prop) (Q : LedgerRequest -> Prop) :
  (forall db cu today data code inv db',
      Q (PostInvoice cu today data) -> P db ->
      create_invoice cu today data db = (Json code inv, db') -> P db') ->
  (forall db cu data code pay db',
      Q (PostPayment cu data) -> P db ->
      create_payment cu data db = (Json code pay, db') -> P db') ->
  forall reqs db, Forall Q reqs -> P db -> P (serve_all reqs db).
Proof.
  intros Hinv Hpay reqs.
  induction reqs as [|r reqs IH]; intros db HQ HP; [exact HP|].
  inversion HQ as [|? ? Hr Hrest]; subst.
  unfold serve_all in *. simpl. apply IH; [assumption|].
  destruct r as [cu today data|cu data]; simpl.
  - destruct (create_invoice cu today data db) as [[c inv|c msg] db1] eqn:E; simpl.
    + eapply Hinv; eassumption.
    + now rewrite (create_invoice_failure_keeps_db _ _ _ _ E).
  - destruct (create_payment cu data db) as [[c pay|c msg] db1] eqn:E; simpl.
    + eapply Hpay; eassumption.
    + now rewrite (create_payment_failure_keeps_db _ _ _ E).
Qed.

(** *** Keys *)

Lemma keys_upto_snoc (n : nat) :
  keys_upto (S n) = keys_upto n ++ [Z.of_nat (S n)].
Proof. unfold keys_upto. now rewrite seq_S, map_app. Qed.

Lemma keys_upto_bound (n : nat) (x : Z) :
  In x (keys_upto n) -> 1 <= x <= Z.of_nat n.
Proof.
  unfold keys_upto. rewrite in_map_iff. intros (k & <- & Hk).
  apply in_seq in Hk. lia.
Qed.

Lemma next_id_keys_upto (n : nat) : next_id (keys_upto n) = Z.of_nat (S n).
Proof.
  unfold next_id.
  assert (H : fold_right Z.max 0 (keys_upto n) = Z.of_nat n).
  { induction n as [|n IH]; [reflexivity|].
    rewrite keys_upto_snoc, fold_right_app. cbn [fold_right].
    assert (G : forall l a, 0 <= a -> (forall x, In x l -> x <= a) ->
                            fold_right Z.max a l = a).
    { induction l as [|y l IHl]; intros a Ha Hl; cbn [fold_right]; [reflexivity|].
      rewrite IHl; [|assumption|intros; apply Hl; now right].
      pose proof (Hl y (or_introl eq_refl)). lia. }
    apply G; [lia|]. intros x Hx. apply keys_upto_bound in Hx. lia. }
  rewrite H. lia.
Qed.

Lemma keys_upto_nodup (n : nat) : NoDup (keys_upto n).
Proof.
  unfold keys_upto. apply Finite.Injective_map_NoDup; [|apply seq_NoDup].
  intros a b H. lia.
Qed.

Lemma update_invoice_status_ids (id : Z) (st : string) (l : list Invoice) :
  map invoice_id (update_invoice_status id st l) = map invoice_id l.
Proof.
  unfold update_invoice_status. rewrite map_map. apply map_ext.
  intros i. now destruct (invoice_id i =? id).
Qed.

Lemma update_invoice_status_length (id : Z) (st : string) (l : list Invoice) :
  List.length (update_invoice_status id st l) = List.length l.
Proof. apply length_map. Qed.

Lemma keys_in_sequence_invoice (cu : CurrentUser) (today : date)
  (data : InvoiceData) (db : Db) code inv db' :
  keys_in_sequence db ->
  create_invoice cu today data db = (Json code inv, db') ->
  keys_in_sequence db' /\
  invoice_id inv = Z.of_nat (S (List.length (invoices db))).
Proof.
  intros [Hi Hp] H.
  destruct (create_invoice_success _ _ _ _ H)
    as (sid & fid & a & due & _ & _ & _ & _ & _ & _ & _ & Hinv & ->).
  assert (Hid : invoice_id inv = Z.of_nat (S (List.length (invoices db)))).
  { rewrite Hinv. cbn [invoice_id]. rewrite Hi. apply next_id_keys_upto. }
  split; [|assumption]. split; simpl; [|assumption].
  rewrite map_app, length_app, Hi. simpl.
  rewrite Nat.add_1_r, keys_upto_snoc, Hid. reflexivity.
Qed.

Lemma keys_in_sequence_payment (cu : CurrentUser) (data : PaymentData) (db : Db)
  code pay db' :
  keys_in_sequence db ->
  create_payment cu data db = (Json code pay, db') ->
  keys_in_sequence db'.
Proof.
  intros [Hi Hp] H.
  destruct (create_payment_row _ _ _ H) as (inv & _ & Hid & _ & _ & _ & Hps & Hinvs).
  split.
  - rewrite Hinvs, update_invoice_status_ids, update_invoice_status_length.
    assumption.
  - rewrite Hps, map_app, length_app, Hp. simpl.
    rewrite Nat.add_1_r, keys_upto_snoc, Hid, Hp, next_id_keys_upto. reflexivity.
Qed.

(** *** Payments and the invoices they are on *)

Lemma find_app_some {A} (f : A -> bool) (l l' : list A) (x : A) :
  find f l = Some x -> find f (l ++ l') = Some x.
Proof.
  induction l as [|y l IH]; simpl; [discriminate|].
  destruct (f y); [trivial|exact IH].
Qed.

Lemma payment_in_order_after_invoice (db : Db) (inv : Invoice) (p : Payment) :
  payment_in_order db p ->
  payment_in_order
    {| students := students db; fee_structures := fee_structures db;
       invoices := invoices db ++ [inv]; payments := payments db |} p.
Proof.
  intros [Hpos (i & Hrow & Hst)]. split; [assumption|].
  exists i. split; [|assumption].
  unfold get_invoice_row in *. simpl. now apply find_app_some.
Qed.

Lemma payment_in_order_after_update (db db' : Db) (id : Z) (st : string)
  (p : Payment) :
  invoices db' = update_invoice_status id st (invoices db) ->
  payment_in_order db p -> payment_in_order db' p.
Proof.
  intros Hinvs [Hpos (i & Hrow & Hst)]. split; [assumption|].
  unfold get_invoice_row in *.
  rewrite Hinvs, find_update_invoice_status, Hrow. simpl.
  eexists. split; [reflexivity|].
  now destruct (invoice_id i =? id).
Qed.

Lemma payments_in_order_invoice (cu : CurrentUser) (today : date)
  (data : InvoiceData) (db : Db) code inv db' :
  Forall (payment_in_order db) (payments db) ->
  create_invoice cu today data db = (Json code inv, db') ->
  Forall (payment_in_order db') (payments db').
Proof.
  intros Hall H.
  destruct (create_invoice_success _ _ _ _ H)
    as (sid & fid & a & due & _ & _ & _ & _ & _ & _ & _ & _ & ->).
  simpl. eapply Forall_impl; [|exact Hall].
  intros p. apply payment_in_order_after_invoice.
Qed.

Lemma payments_in_order_payment (cu : CurrentUser) (data : PaymentData) (db : Db)
  code pay db' :
  Forall (payment_in_order db) (payments db) ->
  create_payment cu data db = (Json code pay, db') ->
  Forall (payment_in_order db') (payments db').
Proof.
  intros Hall H.
  destruct (create_payment_row _ _ _ H)
    as (inv & Hrow & _ & Hst & _ & Hamt & Hps & Hinvs).
  rewrite Hps. apply Forall_app. split.
  - eapply Forall_impl; [|exact Hall].
    intros p. now apply payment_in_order_after_update with (id := invoice_id inv)
      (st := status_after_payment (calculate_balance db inv - payment_amount pay)
               (status inv)).
  - constructor; [|constructor].
    split; [lia|].
    unfold get_invoice_row in *.
    rewrite Hinvs, find_update_invoice_status, Hrow. simpl.
    eexists. split; [reflexivity|].
    now destruct (invoice_id inv =? invoice_id inv).
Qed.

(** *** Balances *)

Lemma nodup_map_injective {A B} (f : A -> B) (l : list A) (a b : A) :
  NoDup (map f l) -> In a l -> In b l -> f a = f b -> a = b.
Proof.
  induction l as [|x l IH]; simpl; [tauto|].
  intros Hnd Ha Hb Hab. inversion Hnd as [|? ? Hx Hl]; subst.
  destruct Ha as [-> | Ha], Hb as [-> | Hb]; auto.
  - exfalso. apply Hx. rewrite Hab. now apply in_map.
  - exfalso. apply Hx. rewrite <- Hab. now apply in_map.
Qed.

Lemma keys_in_sequence_nodup (db : Db) :
  keys_in_sequence db -> NoDup (map invoice_id (invoices db)).
Proof. intros [-> _]. apply keys_upto_nodup. Qed.

(** One more payment row changes the Completed total of the invoice it is
    on, if it is Completed, and of no other invoice. *)
Lemma completed_total_after (db db' : Db) (j j' : Invoice) (pay : Payment) :
  payments db' = payments db ++ [pay] ->
  invoice_id j' = invoice_id j ->
  completed_total db' j' =
  completed_total db j +
  (if (payment_invoice_id pay =? invoice_id j) && completed pay
   then payment_amount pay else 0).
Proof.
  intros Hp Hid. unfold completed_total, invoice_payments.
  rewrite Hp, Hid, filter_app, filter_app, sum_amounts_app. simpl.
  destruct (payment_invoice_id pay =? invoice_id j); simpl; [|lia].
  destruct (completed pay); simpl; lia.
Qed.

Lemma balance_is_total_less_completed (db : Db) (i : Invoice) :
  calculate_balance db i = total_amount i - completed_total db i.
Proof. reflexivity. Qed.

(** No payment is on a key that no invoice has. *)
Lemma no_payment_on_fresh_key (db : Db) (id : Z) :
  Forall (payment_in_order db) (payments db) ->
  ~ In id (map invoice_id (invoices db)) ->
  filter (fun p => payment_invoice_id p =? id) (payments db) = [].
Proof.
  intros Hall Hfresh.
  induction (payments db) as [|p ps IH]; [reflexivity|].
  inversion Hall as [|? ? [_ (i & Hrow & _)] Hrest]; subst.
  simpl. destruct (payment_invoice_id p =? id) eqn:E; [|auto].
  apply Z.eqb_eq in E. exfalso. apply Hfresh.
  destruct (get_invoice_row_id _ _ Hrow) as [Hid Hin].
  rewrite <- E, <- Hid. now apply in_map.
Qed.

Lemma in_update_invoice_status (id : Z) (st : string) (l : list Invoice)
  (j' : Invoice) :
  In j' (update_invoice_status id st l) ->
  exists j, In j l /\
            j' = (if invoice_id j =? id then set_status st j else j).
Proof.
  unfold update_invoice_status. rewrite in_map_iff.
  intros (j & <- & Hj). eauto.
Qed.

(** *** The whole invariant *)

Lemma ledger_ok_invoice (cu : CurrentUser) (today : date) (data : InvoiceData)
  (db : Db) code inv db' :
  ledger_ok db ->
  create_invoice cu today data db = (Json code inv, db') ->
  ledger_ok db' /\ calculate_balance db' inv = total_amount inv /\
  (forall j, In j (invoices db) ->
             calculate_balance db' j = calculate_balance db j).
Proof.
  intros (Hkeys & Hpay & Hover & Hnum & Hst) H.
  destruct (@keys_in_sequence_invoice _ _ _ _ _ _ _ Hkeys H) as [Hkeys' Hid].
  pose proof (@payments_in_order_invoice _ _ _ _ _ _ _ Hpay H) as Hpay'.
  destruct (create_invoice_success _ _ _ _ H)
    as (sid & fid & a & due & _ & _ & _ & _ & _ & _ & _ & Hinv & Hdb).
  assert (Hnone : completed_total db' inv = 0).
  { unfold completed_total, invoice_payments. subst db'. simpl.
    rewrite no_payment_on_fresh_key; [reflexivity|assumption|].
    destruct Hkeys as [-> _]. intros Hin. apply keys_upto_bound in Hin. lia. }
  split; [|split].
  - split; [assumption|]. split; [assumption|].
    subst db'. simpl. split; [|split].
    + apply Forall_app. split.
      * eapply Forall_impl; [|exact Hover]. intros j Hj. exact Hj.
      * constructor; [|constructor]. unfold not_overpaid.
        simpl in Hnone. rewrite Hnone. lia.
    + apply Forall_app. split; [assumption|].
      constructor; [|constructor]. unfold number_spells_key.
      rewrite Hid. rewrite Hinv at 1. cbn [invoice_number].
      unfold make_invoice_number, invoice_count. do 2 f_equal. lia.
    + apply Forall_app. split; [assumption|].
      constructor; [|constructor]. left. rewrite Hinv. reflexivity.
  - rewrite balance_is_total_less_completed, Hnone. lia.
  - intros j _. subst db'. reflexivity.
Qed.

Lemma ledger_ok_payment (cu : CurrentUser) (data : PaymentData) (db : Db)
  code pay db' :
  ledger_ok db ->
  create_payment cu data db = (Json code pay, db') ->
  ledger_ok db'.
Proof.
  intros (Hkeys & Hpay & Hover & Hnum & Hst) H.
  pose proof (@keys_in_sequence_payment _ _ _ _ _ _ Hkeys H) as Hkeys'.
  pose proof (@payments_in_order_payment _ _ _ _ _ _ Hpay H) as Hpay'.
  destruct (create_payment_row _ _ _ H)
    as (inv & Hrow & _ & _ & _ & Hamt & Hps & Hinvs).
  destruct (get_invoice_row_id _ _ Hrow) as [Hid Hin].
  split; [assumption|]. split; [assumption|].
  rewrite Hinvs. rewrite Forall_forall in Hover, Hnum, Hst.
  split; [|split]; apply Forall_forall; intros j' Hj';
    apply in_update_invoice_status in Hj'; destruct Hj' as (j & Hj & ->).
  - unfold not_overpaid.
    assert (Ht : total_amount (if invoice_id j =? invoice_id inv
                               then set_status
                                      (status_after_payment
                                         (calculate_balance db inv - payment_amount pay)
                                         (status inv)) j
                               else j) = total_amount j)
      by (destruct (invoice_id j =? invoice_id inv); reflexivity).
    rewrite Ht.
    rewrite (@completed_total_after db db' j _ pay Hps)
      by (destruct (invoice_id j =? invoice_id inv); reflexivity).
    specialize (Hover j Hj). unfold not_overpaid in Hover.
    destruct (payment_invoice_id pay =? invoice_id j) eqn:E; simpl; [|lia].
    destruct (completed pay); [|lia].
    apply Z.eqb_eq in E.
    assert (j = inv) as ->
      by (apply (nodup_map_injective invoice_id (invoices db));
          [now apply keys_in_sequence_nodup|assumption|assumption|congruence]).
    rewrite balance_is_total_less_completed in Hamt. lia.
  - specialize (Hnum j Hj). unfold number_spells_key in *.
    destruct (invoice_id j =? invoice_id inv); assumption.
  - specialize (Hst j Hj). unfold status_written in *.
    destruct (invoice_id j =? invoice_id inv) eqn:E; [|assumption].
    simpl. unfold status_after_payment.
    destruct (_ <=? 0); [auto|].
    destruct (status inv =? "Pending")%string eqn:Es; [auto|].
    apply Z.eqb_eq in E.
    assert (j = inv) as ->
      by (apply (nodup_map_injective invoice_id (invoices db));
          [now apply keys_in_sequence_nodup|assumption|assumption|congruence]).
    assumption.
Qed.

Lemma ledger_ok_empty (db : Db) :
  invoices db = [] -> payments db = [] -> ledger_ok db.
Proof.
  intros Hi Hp. unfold ledger_ok, keys_in_sequence.
  rewrite Hi, Hp. simpl. repeat split; constructor.
Qed.

Lemma ledger_ok_run (reqs : list LedgerRequest) (db : Db) :
  invoices db = [] -> payments db = [] -> ledger_ok (serve_all reqs db).
Proof.
  intros Hi Hp.
  apply serve_all_keeps with (Q := fun _ => True).
  - intros db0 cu today data code inv db' _ Hok H.
    now destruct (@ledger_ok_invoice _ _ _ _ _ _ _ Hok H).
  - intros db0 cu data code pay db' _ Hok H.
    now apply (@ledger_ok_payment _ _ _ _ _ _ Hok H).
  - apply Forall_forall. trivial.
  - now apply ledger_ok_empty.
Qed.

(** *** The properties of a ledger that started empty *)

Lemma nodup_map_transfer {A B C} (f : A -> B) (g : A -> C) (l : list A) :
  NoDup (map f l) ->
  (forall a b, In a l -> In b l -> g a = g b -> f a = f b) ->
  NoDup (map g l).
Proof.
  induction l as [|x l IH]; simpl; intros Hnd Hfg; [constructor|].
  inversion Hnd as [|? ? Hx Hl]; subst. constructor.
  - rewrite in_map_iff. intros (y & Hy & Hin). apply Hx.
    rewrite <- (Hfg y x); [now apply in_map|now right|now left|assumption].
  - apply IH; [assumption|]. intros a b Ha Hb. apply Hfg; now right.
Qed.

(** A number that spells a key reads back as that key. *)
Lemma number_spells_key_counter (i : Invoice) :
  0 <= invoice_id i -> number_spells_key i ->
  label_counter (invoice_number i) = Some (Z.to_N (invoice_id i)).
Proof.
  intros Hpos Hnum. rewrite Hnum, format_06d_nonneg by assumption.
  apply label_counter_zfill.
Qed.

(** X5.  Starting from a ledger without invoices and payments, after any
    sequence of invoice and payment requests the invoices have the keys 1,
    2, ... in the order of their creation, and so have the payments; every
    invoice number spells the key of its invoice; no two invoices share a
    number. *)
Theorem run_keys_and_numbers (reqs : list LedgerRequest) (db : Db) :
  invoices db = [] -> payments db = [] ->
  let db' := serve_all reqs db in
  map invoice_id (invoices db') = keys_upto (List.length (invoices db')) /\
  map payment_id (payments db') = keys_upto (List.length (payments db')) /\
  Forall (fun i => invoice_number i = ("INV" ++ format_06d (invoice_id i))%string)
    (invoices db') /\
  NoDup (map invoice_number (invoices db')).
Proof.
  intros Hi Hp db'.
  destruct (ledger_ok_run reqs db Hi Hp) as ([Hki Hkp] & _ & _ & Hnum & _).
  fold db' in Hki, Hkp, Hnum.
  split; [assumption|]. split; [assumption|]. split; [exact Hnum|].
  apply nodup_map_transfer with (f := invoice_id).
  - rewrite Hki. apply keys_upto_nodup.
  - intros a b Ha Hb Hab. rewrite Forall_forall in Hnum.
    assert (Hpos : forall x, In x (invoices db') -> 1 <= invoice_id x).
    { intros x Hx. apply (in_map invoice_id) in Hx. rewrite Hki in Hx.
      apply keys_upto_bound in Hx. lia. }
    pose proof (Hpos a Ha). pose proof (Hpos b Hb).
    pose proof (@number_spells_key_counter a ltac:(lia) (Hnum a Ha)) as Ca.
    pose proof (@number_spells_key_counter b ltac:(lia) (Hnum b Hb)) as Cb.
    rewrite Hab, Cb in Ca. injection Ca as Ca. lia.
Qed.

(** X6.  Starting from a ledger without invoices and payments, after any
    sequence of requests every payment is for a positive amount, is on an
    invoice that exists, and carries the student_id of that invoice. *)
Theorem run_payments_in_order (reqs : list LedgerRequest) (db : Db) :
  invoices db = [] -> payments db = [] ->
  let db' := serve_all reqs db in
  Forall (fun p =>
            0 < payment_amount p /\
            exists i, get_invoice_row db' (payment_invoice_id p) = Some i /\
                      payment_student_id p = invoice_student_id i)
    (payments db').
Proof.
  intros Hi Hp db'.
  destruct (ledger_ok_run reqs db Hi Hp) as (_ & Hpay & _).
  exact Hpay.
Qed.

(** X7.  Starting from a ledger without invoices and payments, no sequence
    of requests overpays an invoice: the Completed payments on an invoice
    add up to at most its total (to nothing when the total is below zero),
    so the balance of an invoice with a total of zero or more never goes
    below zero. *)
Theorem run_never_overpaid (reqs : list LedgerRequest) (db : Db) :
  invoices db = [] -> payments db = [] ->
  let db' := serve_all reqs db in
  Forall (fun i =>
            sum_amounts (filter completed (invoice_payments db' i))
              <= Z.max 0 (total_amount i) /\
            (0 <= total_amount i -> 0 <= calculate_balance db' i))
    (invoices db').
Proof.
  intros Hi Hp db'. subst db'.
  destruct (ledger_ok_run reqs db Hi Hp) as (_ & _ & Hover & _).
  eapply Forall_impl; [|exact Hover].
  intros i H. unfold not_overpaid, completed_total in H.
  split; [exact H|]. intros Ht.
  unfold calculate_balance. lia.
Qed.

Lemma sql_count_none {A} (cond : A -> bool) (rows : list A) :
  (forall x, In x rows -> cond x = false) -> sql_count cond rows = 0.
Proof.
  intros H. unfold sql_count.
  replace (filter cond rows) with (@nil A); [reflexivity|].
  symmetry. induction rows as [|x rows IH]; simpl; [reflexivity|].
  rewrite (H x (or_introl eq_refl)). apply IH. intros y Hy. apply H. now right.
Qed.

(** X8.  The ledger never writes Overdue.  Starting from a ledger without
    invoices and payments, after any sequence of requests every invoice is
    Pending, Partial or Paid, whatever its due date; so the summary report
    always counts zero overdue invoices. *)
Theorem run_never_overdue (reqs : list LedgerRequest) (db : Db) :
  invoices db = [] -> payments db = [] ->
  let db' := serve_all reqs db in
  Forall (fun i => status i = "Pending"%string \/ status i = "Partial"%string \/
                   status i = "Paid"%string)
    (invoices db') /\
  (forall cu args code body,
      get_financial_summary cu args db' = Json code body ->
      overdue_invoices (summary body) = 0).
Proof.
  intros Hi Hp db'.
  destruct (ledger_ok_run reqs db Hi Hp) as (_ & _ & _ & _ & Hst).
  fold db' in Hst. split; [exact Hst|].
  intros cu args code body. unfold get_financial_summary.
  destruct (negb (role_required _ cu)); [discriminate|].
  destruct (date_filters args) as [filters|]; [|discriminate].
  intros [= <- <-]. simpl.
  apply sql_count_none. intros i Hin.
  apply filter_In in Hin. destruct Hin as [Hin _].
  rewrite Forall_forall in Hst.
  destruct (Hst i Hin) as [-> | [-> | ->]]; reflexivity.
Qed.

(** X9.  No request deletes an invoice or changes anything of it but the
    status, and the status only moves forward: through any sequence of
    requests, from any ledger, a Paid invoice stays Paid and a Partial one
    stays Partial or becomes Paid. *)
Theorem run_status_moves_forward (reqs : list LedgerRequest) (db : Db)
  (id : Z) (i : Invoice) :
  get_invoice_row db id = Some i ->
  exists i',
    get_invoice_row (serve_all reqs db) id = Some i' /\
    i' = set_status (status i') i /\
    (status i = "Paid"%string -> status i' = "Paid"%string) /\
    (status i = "Partial"%string ->
     status i' = "Partial"%string \/ status i' = "Paid"%string).
Proof.
  intros Hrow.
  apply serve_all_keeps
    with (Q := fun _ => True)
         (P := fun d => exists i',
                   get_invoice_row d id = Some i' /\
                   i' = set_status (status i') i /\
                   (status i = "Paid"%string -> status i' = "Paid"%string) /\
                   (status i = "Partial"%string ->
                    status i' = "Partial"%string \/ status i' = "Paid"%string)).
  - intros d cu today data code inv d' _ (i' & Hi' & Hsame & Hpaid & Hpart) H.
    destruct (create_invoice_success _ _ _ _ H)
      as (sid & fid & a & due & _ & _ & _ & _ & _ & _ & _ & _ & ->).
    exists i'. split; [|auto].
    unfold get_invoice_row in *. simpl. now apply find_app_some.
  - intros d cu data code pay d' _ (i' & Hi' & Hsame & Hpaid & Hpart) H.
    destruct (create_payment_row _ _ _ H) as (inv & Hinv & _ & _ & _ & _ & _ & Hinvs).
    unfold get_invoice_row in *.
    rewrite Hinvs, find_update_invoice_status, Hi'. simpl.
    destruct (invoice_id i' =? invoice_id inv) eqn:E.
    + apply Z.eqb_eq in E.
      assert (inv = i') as ->.
      { pose proof (find_some _ _ Hi') as [_ Ei'].
        pose proof (find_some _ _ Hinv) as [_ Einv].
        apply Z.eqb_eq in Ei', Einv.
        assert (Hsame_key : payment_invoice_id pay = id) by lia.
        rewrite Hsame_key in Hinv. congruence. }
      assert (Hset : forall st, set_status st i' = set_status st i)
        by (intros st; rewrite Hsame; reflexivity).
      eexists. split; [reflexivity|].
      split; [simpl; apply Hset|].
      simpl. unfold status_after_payment.
      destruct (_ <=? 0); [auto|].
      split.
      * intros Hp. rewrite (Hpaid Hp). reflexivity.
      * intros Hp. destruct (Hpart Hp) as [-> | ->]; simpl; auto.
    + exists i'. auto.
  - apply Forall_forall. trivial.
  - exists i. split; [assumption|]. split; [now destruct i|]. auto.
Qed.

(** *** Status and balance *)

Lemma calculate_balance_row_after (db db' : Db) (j j' : Invoice) (pay : Payment) :
  payments db' = payments db ++ [pay] ->
  invoice_id j' = invoice_id j ->
  total_amount j' = total_amount j ->
  calculate_balance db' j' =
  calculate_balance db j -
  (if (payment_invoice_id pay =? invoice_id j) && completed pay
   then payment_amount pay else 0).
Proof.
  intros Hp Hid Ht.
  rewrite !balance_is_total_less_completed, Ht.
  rewrite (@completed_total_after db db' j j' pay Hp Hid). lia.
Qed.

Lemma status_matches_after_payment (cu : CurrentUser) (data : PaymentData)
  (db : Db) code pay db' :
  supplied_status data = "Completed"%string ->
  ledger_ok db ->
  Forall (status_matches_balance db) (invoices db) ->
  create_payment cu data db = (Json code pay, db') ->
  Forall (status_matches_balance db') (invoices db').
Proof.
  intros Hcompleted Hok Hall H.
  destruct (create_payment_success _ _ _ H)
    as (iid0 & m0 & a0 & inv0 & _ & _ & _ & _ & _ & _ & _ & Hstatus & _).
  assert (Hc : completed pay = true)
    by (unfold completed; rewrite Hstatus, Hcompleted; reflexivity).
  destruct (create_payment_row _ _ _ H)
    as (inv & Hrow & _ & _ & _ & Hamt & Hps & Hinvs).
  destruct (get_invoice_row_id _ _ Hrow) as [Hid Hin].
  destruct Hok as (Hkeys & _).
  rewrite Forall_forall in Hall. rewrite Hinvs.
  apply Forall_forall. intros j' Hj'.
  apply in_update_invoice_status in Hj'. destruct Hj' as (j & Hj & ->).
  destruct (invoice_id j =? invoice_id inv) eqn:E.
  - apply Z.eqb_eq in E.
    assert (j = inv) as ->
      by (apply (nodup_map_injective invoice_id (invoices db));
          [now apply keys_in_sequence_nodup|assumption|assumption|assumption]).
    clear E Hj.
    assert (Hbal : forall st,
               calculate_balance db' (set_status st inv) =
               calculate_balance db inv - payment_amount pay).
    { intros st.
      rewrite (@calculate_balance_row_after db db' inv (set_status st inv) pay Hps
                 eq_refl eq_refl).
      rewrite <- Hid, Z.eqb_refl, Hc. reflexivity. }
    unfold status_matches_balance. rewrite Hbal. simpl.
    unfold status_after_payment.
    destruct (Hall inv Hin) as [[Hs Hb] | [[Hs Hb] | [Hs Hb]]].
    + rewrite Hs. simpl.
      destruct (calculate_balance db inv - payment_amount pay <=? 0) eqn:Hnb;
        [apply Z.leb_le in Hnb|apply Z.leb_gt in Hnb].
      * right; right. split; [reflexivity|lia].
      * right; left. split; [reflexivity|lia].
    + rewrite Hs. simpl.
      destruct (calculate_balance db inv - payment_amount pay <=? 0) eqn:Hnb;
        [apply Z.leb_le in Hnb|apply Z.leb_gt in Hnb].
      * right; right. split; [reflexivity|lia].
      * right; left. split; [reflexivity|lia].
    + lia.
  - assert (Hother : calculate_balance db' j = calculate_balance db j).
    { rewrite (@calculate_balance_row_after db db' j j pay Hps eq_refl eq_refl).
      rewrite <- Hid, Z.eqb_sym, E. simpl. lia. }
    unfold status_matches_balance. rewrite Hother. apply (Hall j Hj).
Qed.

Lemma status_matches_after_invoice (cu : CurrentUser) (today : date)
  (data : InvoiceData) (db : Db) code inv db' :
  ledger_ok db ->
  Forall (status_matches_balance db) (invoices db) ->
  create_invoice cu today data db = (Json code inv, db') ->
  Forall (status_matches_balance db') (invoices db').
Proof.
  intros Hok Hall H.
  destruct (@ledger_ok_invoice _ _ _ _ _ _ _ Hok H) as (_ & Hnew & Hold).
  destruct (create_invoice_success _ _ _ _ H)
    as (sid & fid & a & due & _ & _ & _ & _ & _ & _ & _ & Hinv & Hdb).
  assert (Hinvs : invoices db' = invoices db ++ [inv]) by (subst db'; reflexivity).
  rewrite Hinvs. apply Forall_app. split.
  - rewrite Forall_forall in *. intros j Hj.
    unfold status_matches_balance. rewrite (Hold j Hj). apply (Hall j Hj).
  - constructor; [|constructor]. left. split; [|assumption].
    rewrite Hinv. reflexivity.
Qed.

(** X10.  When every payment request leaves the status of the payment to
    its default or gives it as Completed, the stored status of an invoice
    always says what its balance says.  Starting from a ledger without
    invoices and payments, after any sequence of such requests every invoice
    is Pending with nothing paid, or Partial with a balance strictly between
    zero and its total, or Paid with a balance of exactly zero. *)
Theorem run_status_matches_balance (reqs : list LedgerRequest) (db : Db) :
  invoices db = [] -> payments db = [] ->
  Forall (fun r => records_completed r = true) reqs ->
  let db' := serve_all reqs db in
  Forall (fun i =>
            (status i = "Pending"%string /\
             calculate_balance db' i = total_amount i) \/
            (status i = "Partial"%string /\
             0 < calculate_balance db' i < total_amount i) \/
            (status i = "Paid"%string /\ calculate_balance db' i = 0))
    (invoices db').
Proof.
  intros Hi Hp Hreqs db'. subst db'.
  assert (Hboth : ledger_ok (serve_all reqs db) /\
                  Forall (status_matches_balance (serve_all reqs db))
                    (invoices (serve_all reqs db))).
  { apply serve_all_keeps
      with (Q := fun r => records_completed r = true)
           (P := fun d => ledger_ok d /\
                          Forall (status_matches_balance d) (invoices d)).
    - intros d cu today data code inv d' _ [Hok Hall] H. split.
      + now destruct (@ledger_ok_invoice _ _ _ _ _ _ _ Hok H).
      + now apply (@status_matches_after_invoice _ _ _ _ _ _ _ Hok Hall H).
    - intros d cu data code pay d' HQ [Hok Hall] H. split.
      + now apply (@ledger_ok_payment _ _ _ _ _ _ Hok H).
      + simpl in HQ. apply String.eqb_eq in HQ.
        now apply (@status_matches_after_payment _ _ _ _ _ _ HQ Hok Hall H).
    - assumption.
    - split; [now apply ledger_ok_empty|]. rewrite Hi. constructor. }
  exact (proj2 Hboth).
Qed.

(** X11.  An invoice with nothing left to pay takes no payment: when the
    balance of the invoice a request names is zero or less, the request
    fails whatever amount it asks for, and the database is unchanged. *)
Theorem settled_invoice_takes_no_payment (cu : CurrentUser) (data : PaymentData)
  (db : Db) (inv : Invoice) :
  target_invoice data db = Some inv ->
  calculate_balance db inv <= 0 ->
  exists code msg,
    create_payment cu data db = (Err code msg, db) /\
    (code = 400 \/ code = 403 \/ code = 500).
Proof.
  intros Htgt Hbal.
  unfold create_payment.
  destruct (payment_required_fields data) as [[c msg]|[[iid m] a]] eqn:Hreq.
  - pose proof (payment_required_fields_inl _ Hreq) as ->. eauto.
  - destruct (payment_required_fields_inr _ Hreq) as (Ei & _).
    rewrite (target_invoice_some _ _ Ei Htgt).
    destruct (may_access_invoice cu db inv); simpl; [|eauto 6].
    destruct (decimal_of a) as [amt|]; [|eauto 6].
    destruct (amt <=? 0) eqn:Hle; [eauto|].
    apply Z.leb_gt in Hle.
    assert (Hgt : (amt >? calculate_balance db inv) = true)
      by (rewrite Z.gtb_ltb; apply Z.ltb_lt; lia).
    rewrite Hgt. eauto.
Qed.

(** ** The payment list *)

Lemma payment_view_of_payment (cu : CurrentUser) (db : Db) (p : Payment)
  (v : PaymentView) :
  payment_view_of cu db p = Some v -> pv_payment v = p.
Proof.
  unfold payment_view_of.
  destruct (if is_admin_or_staff (role_type cu)
            then option_map Some (payment_student db p) else Some None);
    [|discriminate].
  destruct (payment_invoice db p); [|discriminate].
  now intros [= <-].
Qed.

Lemma apply_payment_filters_in (cu : CurrentUser) (args : PaymentArgs)
  (query : list Payment) (p : Payment) :
  In p (apply_payment_filters cu args query) ->
  In p query /\
  (truthy_int (q_student_id args) = true ->
   is_admin_or_staff (role_type cu) = true ->
   q_student_id args = Some (payment_student_id p)) /\
  (truthy_int (q_invoice_id args) = true ->
   q_invoice_id args = Some (payment_invoice_id p)).
Proof.
  unfold apply_payment_filters.
  set (q1 := if truthy_int (q_student_id args) && is_admin_or_staff (role_type cu)
             then _ else query).
  set (q2 := if truthy_int (q_invoice_id args) then _ else q1).
  intros Hin.
  assert (H2 : In p q2)
    by (destruct (truthy_str (q_status args));
        [apply filter_In in Hin; tauto|assumption]).
  clear Hin.
  assert (H1 : In p q1 /\
               (truthy_int (q_invoice_id args) = true ->
                q_invoice_id args = Some (payment_invoice_id p))).
  { subst q2. destruct (truthy_int (q_invoice_id args)) eqn:Ht.
    - apply filter_In in H2. destruct H2 as [Hin Heq].
      split; [assumption|]. intros _.
      destruct (truthy_int_some _ Ht) as (z & E & _). rewrite E in *.
      simpl in Heq. apply Z.eqb_eq in Heq. now subst.
    - split; [assumption|discriminate]. }
  destruct H1 as [H1 Hinv]. clear H2. subst q1.
  destruct (truthy_int (q_student_id args)) eqn:Ht;
    destruct (is_admin_or_staff (role_type cu)) eqn:Hr; simpl in H1;
    try (split; [assumption|split; [intros; discriminate|assumption]]).
  apply filter_In in H1. destruct H1 as [Hin Heq].
  split; [assumption|]. split; [|assumption]. intros _ _.
  destruct (truthy_int_some _ Ht) as (z & E & _). rewrite E in *. simpl in Heq.
  apply Z.eqb_eq in Heq. now subst.
Qed.

Lemma apply_payment_filters_ignores_student_id (cu : CurrentUser)
  (args : PaymentArgs) (sid : option Z) (query : list Payment) :
  is_admin_or_staff (role_type cu) = false ->
  apply_payment_filters cu (set_q_student_id sid args) query =
  apply_payment_filters cu args query.
Proof.
  intros Hr. unfold apply_payment_filters. simpl.
  rewrite Hr, !andb_false_r. reflexivity.
Qed.

Lemma payment_filters_fit_ignores_student_id (cu : CurrentUser)
  (args : PaymentArgs) (sid : option Z) :
  is_admin_or_staff (role_type cu) = false ->
  payment_filters_fit cu (set_q_student_id sid args) = payment_filters_fit cu args.
Proof.
  intros Hr. unfold payment_filters_fit. simpl.
  rewrite Hr, !andb_false_r. reflexivity.
Qed.

Lemma get_payments_rows (payment_date : Payment -> Z) (cu : CurrentUser)
  (args : PaymentArgs) (db : Db) code body (v : PaymentView) :
  get_payments payment_date cu args db = Json code body ->
  In v body ->
  exists query,
    role_scoped_payments cu db = inr query /\
    In (pv_payment v) (apply_payment_filters cu args query).
Proof.
  unfold get_payments.
  destruct (role_scoped_payments cu db) as [[c m]|query]; [discriminate|].
  destruct (negb (payment_filters_fit cu args)); [discriminate|].
  destruct (all_some _ _) as [views|] eqn:Hv; [|discriminate].
  intros [= <- <-] Hin. exists query. split; [reflexivity|].
  apply all_some_forall2 in Hv.
  assert (Hmap : map pv_payment views =
                 sort_desc payment_date (apply_payment_filters cu args query)).
  { eapply forall2_map_back; [exact Hv|].
    intros p w H. now apply payment_view_of_payment in H. }
  apply (in_map pv_payment) in Hin. rewrite Hmap in Hin.
  now apply (Permutation_in _ (sort_desc_perm payment_date _)) in Hin.
Qed.

(** X12.  Listing payments, whatever the order by payment date.  A caller
    with role student only ever receives payments that carry the student_id
    of the profile of that user, and the answer is the same whatever the
    [student_id] argument.  Every role other than student, admin and staff,
    parent among them, is answered 403.  For admin and staff a [student_id]
    argument other than zero restricts the list to that student; for every
    caller an [invoice_id] argument other than zero restricts it to that
    invoice. *)
Theorem get_payments_role_scope (payment_date : Payment -> Z) (cu : CurrentUser)
  (args : PaymentArgs) (db : Db) :
  (role_type cu = "student"%string ->
   (forall code body,
       get_payments payment_date cu args db = Json code body ->
       exists s,
         student_of_user db (user_id cu) = Some s /\
         Forall (fun v => payment_student_id (pv_payment v) = student_id s) body) /\
   (forall sid,
       get_payments payment_date cu (set_q_student_id sid args) db =
       get_payments payment_date cu args db)) /\
  (role_type cu <> "student"%string ->
   role_type cu <> "admin"%string ->
   role_type cu <> "staff"%string ->
   get_payments payment_date cu args db = Err 403 "Access denied") /\
  (role_type cu = "admin"%string \/ role_type cu = "staff"%string ->
   forall sid code body,
     sid <> 0 ->
     get_payments payment_date cu (set_q_student_id (Some sid) args) db =
       Json code body ->
     Forall (fun v => payment_student_id (pv_payment v) = sid) body) /\
  (forall iid code body,
      iid <> 0 ->
      q_invoice_id args = Some iid ->
      get_payments payment_date cu args db = Json code body ->
      Forall (fun v => payment_invoice_id (pv_payment v) = iid) body).
Proof.
  split; [|split; [|split]].
  - intros Hrole. split.
    + intros code body H.
      assert (Hq : exists s, student_of_user db (user_id cu) = Some s /\
                role_scoped_payments cu db =
                inr (filter (fun p => payment_student_id p =? student_id s)
                       (payments db))).
      { unfold get_payments, role_scoped_payments in *.
        rewrite Hrole in *. simpl in *.
        destruct (student_of_user db (user_id cu)) as [s|]; [eauto|discriminate]. }
      destruct Hq as (s & Hs & Hq). exists s. split; [assumption|].
      apply Forall_forall. intros v Hv.
      edestruct get_payments_rows as (query & Hq' & Hin); [exact H|exact Hv|].
      rewrite Hq in Hq'. injection Hq' as <-.
      apply apply_payment_filters_in in Hin. destruct Hin as [Hin _].
      apply filter_In in Hin. destruct Hin as [_ Heq].
      now apply Z.eqb_eq in Heq.
    + intros sid. unfold get_payments.
      destruct (role_scoped_payments cu db) as [[c m]|query]; [reflexivity|].
      rewrite payment_filters_fit_ignores_student_id,
        apply_payment_filters_ignores_student_id;
        [reflexivity|rewrite Hrole; reflexivity|rewrite Hrole; reflexivity].
  - intros Hs Ha Hst. unfold get_payments, role_scoped_payments.
    apply String.eqb_neq in Hs. rewrite Hs.
    assert (Hr : is_admin_or_staff (role_type cu) = false).
    { destruct (is_admin_or_staff (role_type cu)) eqn:E; [|reflexivity].
      apply is_admin_or_staff_iff in E. tauto. }
    rewrite Hr. reflexivity.
  - intros Hrole sid code body Hsid H.
    assert (Hr : is_admin_or_staff (role_type cu) = true)
      by now apply is_admin_or_staff_iff.
    apply Forall_forall. intros v Hv.
    edestruct get_payments_rows as (query & _ & Hin); [exact H|exact Hv|].
    apply apply_payment_filters_in in Hin. destruct Hin as (_ & Hfilter & _).
    simpl in Hfilter.
    assert (Ht : negb (sid =? 0) = true)
      by (apply negb_true_iff, Z.eqb_neq; exact Hsid).
    specialize (Hfilter Ht Hr). now injection Hfilter as <-.
  - intros iid code body Hiid Harg H.
    apply Forall_forall. intros v Hv.
    edestruct get_payments_rows as (query & _ & Hin); [exact H|exact Hv|].
    apply apply_payment_filters_in in Hin. destruct Hin as (_ & _ & Hfilter).
    rewrite Harg in Hfilter. simpl in Hfilter.
    assert (Ht : negb (iid =? 0) = true)
      by (apply negb_true_iff, Z.eqb_neq; exact Hiid).
    specialize (Hfilter Ht). now injection Hfilter as <-.
Qed.

(** X13.  A payment is visible to the student it is for.  In a ledger whose
    payments are all on existing invoices, once a payment is recorded on an
    invoice, by whomever, the student who owns that invoice finds it in the
    unfiltered payment list. *)
Theorem payment_is_listed_for_its_student (payment_date : Payment -> Z)
  (cu : CurrentUser) (data : PaymentData) (db : Db) (code : Z) (pay : Payment)
  (db' : Db) (viewer : CurrentUser) (s : Student) :
  Forall (payment_in_order db) (payments db) ->
  create_payment cu data db = (Json code pay, db') ->
  role_type viewer = "student"%string ->
  student_of_user db (user_id viewer) = Some s ->
  payment_student_id pay = student_id s ->
  exists body,
    get_payments payment_date viewer all_payments db' = Json 200 body /\
    In pay (map pv_payment body).
Proof.
  intros Hall H Hrole Hs Hpay.
  pose proof (@payments_in_order_payment _ _ _ _ _ _ Hall H) as Hall'.
  destruct (create_payment_row _ _ _ H) as (inv & _ & _ & _ & _ & _ & Hps & _).
  destruct (create_payment_success _ _ _ H)
    as (iid0 & m0 & a0 & inv0 & _ & _ & _ & _ & _ & _ & _ & _ & _ & _ & Hst & _).
  unfold get_payments, role_scoped_payments.
  rewrite Hrole. simpl. unfold student_of_user. rewrite Hst.
  unfold student_of_user in Hs. rewrite Hs.
  set (mine := filter (fun p => payment_student_id p =? student_id s) (payments db')).
  change (apply_payment_filters viewer all_payments mine) with mine.
  destruct (@all_some_total _ _ (payment_view_of viewer db')
              (sort_desc payment_date mine)) as [views Hviews].
  { intros p Hp.
    apply (Permutation_in _ (sort_desc_perm payment_date mine)) in Hp.
    apply filter_In in Hp. destruct Hp as [Hp _].
    rewrite Forall_forall in Hall'.
    destruct (Hall' p Hp) as [_ (i & Hrow & _)].
    unfold payment_view_of, payment_invoice.
    rewrite Hrole, Hrow. simpl. discriminate. }
  rewrite Hviews. exists views. split; [reflexivity|].
  apply all_some_forall2 in Hviews.
  assert (Hmap : map pv_payment views = sort_desc payment_date mine).
  { eapply forall2_map_back; [exact Hviews|].
    intros p w Hw. now apply payment_view_of_payment in Hw. }
  rewrite Hmap.
  apply (Permutation_in _ (Permutation_sym (sort_desc_perm payment_date mine))).
  apply filter_In. split.
  - rewrite Hps. apply in_or_app. right. now left.
  - apply Z.eqb_eq. assumption.
Qed.

(** X14.  Whoever can read an invoice can pay on it.  When [get_invoice]
    answers 200 to a caller, a payment request of that caller on the same
    invoice, with a payment method and an amount above zero and within the
    balance, is accepted without any other check: the payment is recorded
    as Completed, for the student of the invoice, as processed by the
    caller. *)
Theorem reader_can_pay (cu : CurrentUser) (id : Z) (db : Db)
  (detail : InvoiceDetail) (method : string) (amt : Z) :
  get_invoice cu id db = Json 200 detail ->
  id <> 0 ->
  method <> ""%string ->
  0 < amt <= calculate_balance db (detail_invoice detail) ->
  exists pay db',
    create_payment cu (plain_payment id method amt) db = (Json 201 pay, db') /\
    payment_amount pay = amt /\
    payment_status pay = "Completed"%string /\
    payment_student_id pay = invoice_student_id (detail_invoice detail) /\
    processed_by pay = user_id cu /\
    (amt = calculate_balance db (detail_invoice detail) ->
     option_map status (get_invoice_row db' id) = Some "Paid"%string).
Proof.
  intros Hread Hid Hm Hamt.
  unfold get_invoice in Hread.
  destruct (query_get_invoice db id) as [[inv|]|e] eqn:Hget; try discriminate.
  destruct (query_get_invoice_valid _ _ Hget) as [_ Hrow].
  destruct (may_access_invoice cu db inv) eqn:Hacc; simpl in Hread; [|discriminate].
  destruct (invoice_student db inv); [|discriminate].
  destruct (invoice_fee_structure db inv); [|discriminate].
  injection Hread as <-. simpl in *.
  assert (Hreq : payment_required_fields (plain_payment id method amt) =
                 inr (id, method, JNumber amt)).
  { unfold payment_required_fields. simpl.
    apply Z.eqb_neq in Hid. rewrite Hid. simpl.
    apply String.eqb_neq in Hm. rewrite Hm. simpl.
    assert (E : (amt =? 0) = false) by (apply Z.eqb_neq; lia).
    rewrite E. reflexivity. }
  unfold create_payment. rewrite Hreq, Hget, Hacc. simpl.
  assert (E1 : (amt <=? 0) = false) by (apply Z.leb_gt; lia).
  assert (E2 : (amt >? calculate_balance db inv) = false)
    by (rewrite Z.gtb_ltb; apply Z.ltb_ge; lia).
  rewrite E1, E2. eexists _, _. split; [reflexivity|]. simpl.
  repeat split.
  intros ->. unfold get_invoice_row in *. simpl.
  rewrite find_update_invoice_status.
  destruct (get_invoice_row_id _ _ Hrow) as [Hinvid _].
  unfold get_invoice_row in Hrow. rewrite Hinvid, Hrow. simpl.
  rewrite Hinvid, Z.eqb_refl. simpl.
  unfold status_after_payment. rewrite Z.sub_diag. reflexivity.
Qed.

(** ** The summary report *)

Lemma or_zero_sql_sum (xs : list Z) : or_zero (sql_sum xs) = sum_z xs.
Proof. destruct xs; reflexivity. Qed.

Lemma sum_z_app (xs ys : list Z) : sum_z (xs ++ ys) = sum_z xs + sum_z ys.
Proof.
  unfold sum_z. induction xs as [|x xs IH]; simpl; [reflexivity|].
  rewrite IH. lia.
Qed.

Lemma sum_z_perm (xs ys : list Z) : Permutation xs ys -> sum_z xs = sum_z ys.
Proof.
  unfold sum_z. induction 1; simpl; lia.
Qed.

(** A sum splits along any condition. *)
Lemma sum_z_split {A} (f : A -> Z) (p : A -> bool) (l : list A) :
  sum_z (map f l) =
  sum_z (map f (filter p l)) + sum_z (map f (filter (fun x => negb (p x)) l)).
Proof.
  unfold sum_z. induction l as [|x l IH]; simpl; [reflexivity|].
  destruct (p x); simpl; lia.
Qed.

(** Four conditions of which every row meets exactly one split the count
    of the rows. *)
Lemma count_partition {A} (p1 p2 p3 p4 : A -> bool) (rows : list A) :
  (forall x, Z.b2z (p1 x) + Z.b2z (p2 x) + Z.b2z (p3 x) + Z.b2z (p4 x) = 1) ->
  Z.of_nat (List.length rows) =
  sql_count p1 rows + sql_count p2 rows + sql_count p3 rows + sql_count p4 rows.
Proof.
  intros Hone. unfold sql_count.
  induction rows as [|x rows IH]; [reflexivity|].
  cbn [filter]. specialize (Hone x).
  destruct (p1 x), (p2 x), (p3 x), (p4 x); cbn [Z.b2z] in Hone; try lia;
    cbn [List.length]; lia.
Qed.

Lemma sum_z_nonpositive {A} (f : A -> Z) (l : list A) :
  (forall x, In x l -> f x <= 0) -> sum_z (map f l) <= 0.
Proof.
  unfold sum_z. induction l as [|x l IH]; simpl; intros H; [lia|].
  pose proof (H x (or_introl eq_refl)).
  assert (fold_right Z.add 0 (map f l) <= 0) by (apply IH; intros; apply H; now right).
  lia.
Qed.

(** The rows with one of three statuses and the rows with none of them
    make up the table. *)
Lemma count_by_status (a b c : string) (rows : list Invoice) :
  a <> b -> a <> c -> b <> c ->
  Z.of_nat (List.length rows) =
  sql_count (fun i => (status i =? a)%string) rows +
  sql_count (fun i => (status i =? b)%string) rows +
  sql_count (fun i => (status i =? c)%string) rows +
  sql_count (fun i => negb (existsb (String.eqb (status i)) [a; b; c])) rows.
Proof.
  intros Hab Hac Hbc. apply count_partition.
  intros x. cbn [existsb]. rewrite orb_false_r.
  destruct (String.eqb_spec (status x) a) as [Ea|Ea];
    destruct (String.eqb_spec (status x) b) as [Eb|Eb];
    destruct (String.eqb_spec (status x) c) as [Ec|Ec];
    try congruence; reflexivity.
Qed.

(** X15.  The status counts of the summary.  Of the invoices in the date
    range, [total_invoices] counts all, and the three status counters count
    the Paid, the Pending and the Overdue ones; an invoice with any other
    status, Partial in particular, is in [total_invoices] and in none of the
    three, so the counters add up to the total exactly when there is no
    such invoice. *)
Theorem summary_status_counts (cu : CurrentUser) (args : SummaryArgs) (db : Db)
  (code : Z) (body : SummaryReport) :
  get_financial_summary cu args db = Json code body ->
  exists filters,
    date_filters args = Valid filters /\
    let in_range := filter (all_hold filters) (invoices db) in
    let s := summary body in
    total_invoices s = Z.of_nat (List.length in_range) /\
    total_invoices s =
      paid_invoices s + pending_invoices s + overdue_invoices s +
      Z.of_nat (List.length
                  (filter (fun i => negb (existsb (String.eqb (status i))
                                           ["Paid"; "Pending"; "Overdue"]%string))
                     in_range)) /\
    (forall i, In i in_range -> status i = "Partial"%string ->
               paid_invoices s + pending_invoices s + overdue_invoices s
               < total_invoices s).
Proof.
  unfold get_financial_summary.
  destruct (negb (role_required _ cu)); [discriminate|].
  destruct (date_filters args) as [filters|]; [|discriminate].
  intros [= <- <-]. exists filters. split; [reflexivity|]. simpl.
  set (in_range := filter (all_hold filters) (invoices db)).
  pose proof (@count_by_status "Paid" "Pending" "Overdue" in_range
                ltac:(discriminate) ltac:(discriminate) ltac:(discriminate)) as Hcount.
  assert (Hall : sql_count (fun _ : Invoice => true) in_range =
                 Z.of_nat (List.length in_range)).
  { unfold sql_count. f_equal. f_equal. clear Hcount.
    induction in_range as [|x l IH]; simpl; [reflexivity|]. now rewrite IH. }
  rewrite Hall.
  split; [reflexivity|]. split; [exact Hcount|].
  intros i Hin Hst.
  assert (Hother : In i (filter (fun i => negb (existsb (String.eqb (status i))
                                   ["Paid"; "Pending"; "Overdue"]%string))
                           in_range))
    by (apply filter_In; split; [assumption|rewrite Hst; reflexivity]).
  assert (Hpos : 0 < sql_count
                       (fun i => negb (existsb (String.eqb (status i))
                                         ["Paid"; "Pending"; "Overdue"]%string))
                       in_range).
  { unfold sql_count.
    destruct (filter _ in_range) as [|y l]; [destruct Hother|].
    cbn [List.length]. lia. }
  unfold sql_count in *. lia.
Qed.

Lemma outstanding_rows_amounts (today : date) (db : Db)
  (l : list Invoice) (ys : list OutstandingRow) :
  all_some (outstanding_row today db) l = Some ys ->
  map outstanding_amount ys = map (calculate_balance db) l.
Proof.
  revert ys. induction l as [|x l IH]; simpl; intros ys.
  - now intros [= <-].
  - destruct (outstanding_row today db x) as [r|] eqn:Hx; [|discriminate].
    destruct (all_some _ l) as [rs|]; [|discriminate].
    intros [= <-]. simpl. rewrite (IH rs eq_refl).
    apply outstanding_row_fields in Hx. destruct Hx as (_ & _ & _ & -> & _).
    reflexivity.
Qed.

(** X16.  The two reports on what is outstanding.  [outstanding_balance] of
    the summary is the sum of the outstanding amounts (total less Completed
    payments) of all invoices that are Pending, Partial or Overdue, whatever
    date range the summary is asked for; the outstanding report lists only
    those of them with an amount above zero.  So the summary figure is the
    sum of the amounts of the report plus the amounts, zero or negative, of
    the open invoices the report leaves out, and it never exceeds the sum of
    the report. *)
Theorem summary_and_outstanding_report (cu : CurrentUser) (args : SummaryArgs)
  (today : date) (db : Db) (code code' : Z) (body : SummaryReport)
  (rows : list OutstandingRow) :
  get_financial_summary cu args db = Json code body ->
  get_outstanding_report cu today db = Json code' rows ->
  outstanding_balance (summary body) =
    sum_z (map (outstanding_amount_of db) (filter status_is_open (invoices db))) /\
  outstanding_balance (summary body) =
    sum_z (map outstanding_amount rows) +
    sum_z (map (outstanding_amount_of db)
             (filter (fun i => negb (outstanding_amount_of db i >? 0))
                (filter status_is_open (invoices db)))) /\
  outstanding_balance (summary body) <= sum_z (map outstanding_amount rows).
Proof.
  change (outstanding_amount_of db) with (calculate_balance db).
  unfold get_financial_summary, get_outstanding_report.
  destruct (negb (role_required _ cu)); [discriminate|].
  destruct (date_filters args) as [filters|]; [|discriminate].
  intros [= <- <-]. simpl.
  destruct (all_some _ _) as [ys|] eqn:Hys; [|discriminate].
  intros [= <- <-].
  rewrite or_zero_sql_sum.
  assert (Hout : map (outstanding_amount_of db) (filter status_is_open (invoices db))
                 = map (calculate_balance db) (filter status_is_open (invoices db)))
    by reflexivity.
  rewrite Hout.
  assert (Hrows : sum_z (map outstanding_amount (sort_desc days_overdue ys)) =
                  sum_z (map (calculate_balance db) (outstanding_invoices db))).
  { rewrite <- (outstanding_rows_amounts _ _ _ Hys).
    apply sum_z_perm, Permutation_map, sort_desc_perm. }
  assert (Hscan : sum_z (map (calculate_balance db) (outstanding_invoices db)) =
                  sum_z (map (calculate_balance db)
                           (filter (fun i => calculate_balance db i >? 0)
                              (filter status_is_open (invoices db))))).
  { apply sum_z_perm, Permutation_map. unfold outstanding_invoices.
    apply filter_perm, filter_perm, rowid_scan_perm. }
  rewrite Hrows, Hscan.
  pose proof (sum_z_split (calculate_balance db)
                (fun i => calculate_balance db i >? 0)
                (filter status_is_open (invoices db))) as Hsplit.
  change (fun i => outstanding_amount_of db i >? 0)
    with (fun i => calculate_balance db i >? 0).
  split; [reflexivity|]. split; [exact Hsplit|].
  rewrite Hsplit.
  assert (Hneg : sum_z (map (calculate_balance db)
                          (filter (fun i => negb (calculate_balance db i >? 0))
                             (filter status_is_open (invoices db)))) <= 0).
  { apply sum_z_nonpositive. intros x Hx.
    apply filter_In in Hx. destruct Hx as [_ Hx].
    apply negb_true_iff in Hx. rewrite Z.gtb_ltb in Hx.
    apply Z.ltb_ge in Hx. exact Hx. }
  lia.
Qed.

(** ** The token check *)

Lemma split_on_word (sep : ascii) (w : string) :
  has_char sep w = false -> split_on sep w = [w].
Proof.
  induction w as [|c w IH]; simpl; [reflexivity|].
  intros H. apply orb_false_iff in H. destruct H as [Hc Hw].
  rewrite Hc, (IH Hw). reflexivity.
Qed.

Lemma split_on_first_word (sep : ascii) (w s : string) :
  has_char sep w = false ->
  split_on sep (w ++ String sep s) = w :: split_on sep s.
Proof.
  induction w as [|c w IH]; simpl.
  - intros _. now rewrite Ascii.eqb_refl.
  - intros H. apply orb_false_iff in H. destruct H as [Hc Hw].
    rewrite Hc, (IH Hw). reflexivity.
Qed.

Section TokenRequired.
Variables (R : Type) (verify_token : string -> option CurrentUser)
  (reject : Z -> string -> R) (f : CurrentUser -> R).

(** X17.  [token_required] does not look at the scheme of the
    [Authorization] header.  Whatever stands before the first space,
    [Bearer] or anything else without a space, even nothing, the second
    space-separated field is the token and what follows it is ignored: the
    handler runs on the payload when the token verifies, and the answer is
    401 when it does not. *)
Theorem token_required_any_scheme (scheme token : string) (rest : option string) :
  has_char " " scheme = false ->
  has_char " " token = false ->
  token <> ""%string ->
  token_required verify_token reject f
    (Some (scheme ++ " " ++ token ++
           match rest with
           | Some r => " " ++ r
           | None => ""
           end)%string) =
  match verify_token token with
  | Some payload => f payload
  | None => reject 401 "Token is invalid or expired"%string
  end.
Proof.
  intros Hs Ht Hne. unfold token_required.
  change (scheme ++ " " ++ token ++ match rest with
                                    | Some r => " " ++ r
                                    | None => ""
                                    end)%string
    with (scheme ++ String " " (token ++ match rest with
                                         | Some r => String " " r
                                         | None => ""
                                         end))%string.
  rewrite (@split_on_first_word _ _ _ Hs).
  assert (Hsecond : exists more,
             split_on " " (token ++ match rest with
                                    | Some r => String " " r
                                    | None => ""
                                    end) = token :: more).
  { destruct rest as [r|].
    - rewrite (@split_on_first_word _ _ _ Ht). eauto.
    - assert (E : (token ++ "")%string = token)
        by (clear; induction token as [|c t IH]; simpl; [reflexivity|now rewrite IH]).
      rewrite E, (@split_on_word _ _ Ht). eauto. }
  destruct Hsecond as [more ->]. simpl.
  apply String.eqb_neq in Hne. rewrite Hne. reflexivity.
Qed.

(** X18.  When [token_required] answers 401 before it verifies anything:
    "Token is missing" without the header, and also when the second field
    of the header is empty, as after a trailing space or with two spaces
    before the token; "Invalid token format" when the header has no space
    at all.  The handler does not run in any of these cases. *)
Theorem token_required_rejections :
  token_required verify_token reject f None = reject 401 "Token is missing"%string /\
  (forall header,
      has_char " " header = false ->
      token_required verify_token reject f (Some header) =
      reject 401 "Invalid token format"%string) /\
  (forall scheme,
      has_char " " scheme = false ->
      token_required verify_token reject f (Some (scheme ++ " ")%string) =
      reject 401 "Token is missing"%string) /\
  (forall scheme rest,
      has_char " " scheme = false ->
      token_required verify_token reject f
        (Some (scheme ++ " " ++ " " ++ rest)%string) =
      reject 401 "Token is missing"%string).
Proof.
  split; [reflexivity|]. split; [|split].
  - intros header H. unfold token_required.
    rewrite (@split_on_word _ _ H). reflexivity.
  - intros scheme H. unfold token_required.
    change (scheme ++ " ")%string with (scheme ++ String " " "")%string.
    rewrite (@split_on_first_word _ _ _ H). reflexivity.
  - intros scheme rest H. unfold token_required.
    change (scheme ++ " " ++ " " ++ rest)%string
      with (scheme ++ String " " (String " " rest))%string.
    rewrite (@split_on_first_word _ _ _ H). reflexivity.
Qed.
End TokenRequired.

(** ** The financial page of a student *)

(** X19.  [get_student_financial] answers 403, 500 or 200.  A caller who
    is admin or staff, or a student asking for the id of the profile of that
    user, passes the permission check, without the student being looked up;
    everyone else gets 403.  A caller who passes gets 500 when the student
    id is outside the signed 64-bit range of the store, and 200 otherwise.
    The invoices of a 200 answer are exactly the invoices of that student
    id, latest issue date first, and the payments exactly the payments that
    carry that student id. *)
Theorem get_student_financial_answer (ops : FloatOps) (payment_date : Payment -> Z)
  (cu : CurrentUser) (sid : Z) (db : Db) :
  (get_student_financial ops payment_date cu sid db = Err 403 "Access denied" \/
   get_student_financial ops payment_date cu sid db = Err 500 overflow_error \/
   exists body, get_student_financial ops payment_date cu sid db = Json 200 body) /\
  (forall msg,
      get_student_financial ops payment_date cu sid db = Err 500 msg <->
      msg = overflow_error /\ fits_int64 sid = false /\
      (role_type cu = "admin"%string \/ role_type cu = "staff"%string \/
       (role_type cu = "student"%string /\
        exists s, student_of_user db (user_id cu) = Some s /\ student_id s = sid))) /\
  (get_student_financial ops payment_date cu sid db = Err 403 "Access denied" <->
   ~ (role_type cu = "admin"%string \/ role_type cu = "staff"%string \/
      (role_type cu = "student"%string /\
       exists s, student_of_user db (user_id cu) = Some s /\ student_id s = sid))) /\
  (is_admin_or_staff (role_type cu) = true ->
   if fits_int64 sid
   then exists body, get_student_financial ops payment_date cu sid db = Json 200 body
   else get_student_financial ops payment_date cu sid db = Err 500 overflow_error) /\
  (forall code body,
      get_student_financial ops payment_date cu sid db = Json code body ->
      code = 200 /\ fits_int64 sid = true /\
      (role_type cu = "admin"%string \/ role_type cu = "staff"%string \/
       (role_type cu = "student"%string /\
        exists s, student_of_user db (user_id cu) = Some s /\ student_id s = sid)) /\
      Permutation (sf_invoices body)
        (filter (fun i => invoice_student_id i =? sid) (invoices db)) /\
      StronglySorted (fun a b => issue_date a >= issue_date b) (sf_invoices body) /\
      Permutation (sf_payments body)
        (filter (fun p => payment_student_id p =? sid) (payments db)) /\
      (forall i, In i (sf_invoices body) -> invoice_student_id i = sid) /\
      (forall p, In p (sf_payments body) -> payment_student_id p = sid)).
Proof.
  unfold get_student_financial.
  set (allowed := if (role_type cu =? "student")%string then _ else _).
  assert (Hwho : allowed = true <->
            (role_type cu = "admin"%string \/ role_type cu = "staff"%string \/
             (role_type cu = "student"%string /\
              exists s, student_of_user db (user_id cu) = Some s /\
                        student_id s = sid))).
  { subst allowed.
    destruct (String.eqb_spec (role_type cu) "student") as [E|E].
    - destruct (student_of_user db (user_id cu)) as [s|].
      + rewrite Z.eqb_eq. split.
        * intros Hs. right; right. eauto.
        * intros [Ha|[Ha|[_ (s' & [= <-] & Hs)]]];
            [rewrite E in Ha; discriminate|rewrite E in Ha; discriminate|assumption].
      + split; [discriminate|].
        intros [Ha|[Ha|[_ (s' & Hs & _)]]];
          [rewrite E in Ha; discriminate|rewrite E in Ha; discriminate|discriminate].
    - rewrite is_admin_or_staff_iff. tauto. }
  assert (Hstaff : is_admin_or_staff (role_type cu) = true -> allowed = true).
  { intros Hr. apply Hwho. apply is_admin_or_staff_iff in Hr. tauto. }
  destruct allowed eqn:Hallowed; simpl.
  - destruct (fits_int64 sid) eqn:Hfits; simpl.
    + split; [right; right; eauto|].
      split; [intros msg; split; [discriminate|intros (_ & Hf & _); discriminate]|].
      split; [split; [discriminate|intros Hn; destruct Hn; now apply Hwho]|].
      split; [eauto|].
      intros code body [= <- <-]. simpl.
      split; [reflexivity|]. split; [reflexivity|].
      split; [now apply Hwho|].
      split; [apply sort_desc_perm|].
      split; [apply (sort_desc_sorted issue_date)|].
      split; [apply sort_desc_perm|]. split.
      * intros i Hi. apply (Permutation_in _ (sort_desc_perm issue_date _)) in Hi.
        apply filter_In in Hi. destruct Hi as [_ Hi]. now apply Z.eqb_eq in Hi.
      * intros p Hp. apply (Permutation_in _ (sort_desc_perm payment_date _)) in Hp.
        apply filter_In in Hp. destruct Hp as [_ Hp]. now apply Z.eqb_eq in Hp.
    + split; [right; left; reflexivity|].
      split; [|split; [split; [discriminate|intros Hn; destruct Hn; now apply Hwho]|
                       split; [reflexivity|discriminate]]].
      intros msg. split.
      * intros [= <-]. split; [reflexivity|]. split; [reflexivity|]. now apply Hwho.
      * intros (-> & _). reflexivity.
  - split; [now left|].
    split; [|split; [|split; [|discriminate]]].
    + intros msg. split; [discriminate|].
      intros (_ & _ & Hw). apply Hwho in Hw. discriminate.
    + split; [|reflexivity]. intros _ Hw. apply Hwho in Hw. discriminate.
    + intros Hr. specialize (Hstaff Hr). discriminate.
Qed.

(** ** Required fields by truthiness *)

(** X20.  The required fields of an invoice request are tested for
    truthiness, so a zero counts as missing.  No created invoice has
    student_id 0 or fee_id 0, and a created invoice has amount 0 only when
    the amount came as text; there is no check on the sign of the amount. *)
Theorem create_invoice_zero_fields (cu : CurrentUser) (today : date)
  (data : InvoiceData) (db : Db) (code : Z) (inv : Invoice) (db' : Db) :
  create_invoice cu today data db = (Json code inv, db') ->
  invoice_student_id inv <> 0 /\
  invoice_fee_id inv <> 0 /\
  (amount inv = 0 -> exists p, i_amount data = Some (JText p)) /\
  (forall v, i_amount data = Some (JNumber v) -> amount inv = v /\ v <> 0).
Proof.
  intros H.
  destruct (create_invoice_success _ _ _ _ H)
    as (sid & fid & a & due & _ & Hreq & Ha & _ & _ & _ & _ & Hinv & _).
  destruct (invoice_required_fields_inr _ Hreq) as (Es & Ef & Ea & _).
  unfold invoice_required_fields in Hreq. rewrite Es, Ef, Ea in Hreq.
  simpl in Hreq.
  destruct (sid =? 0) eqn:Hs; simpl in Hreq; [discriminate|].
  destruct (fid =? 0) eqn:Hf; simpl in Hreq; [discriminate|].
  apply Z.eqb_neq in Hs, Hf.
  assert (Hsid : invoice_student_id inv = sid) by (rewrite Hinv; reflexivity).
  assert (Hfid : invoice_fee_id inv = fid) by (rewrite Hinv; reflexivity).
  rewrite Hsid, Hfid. split; [assumption|]. split; [assumption|].
  destruct a as [v|p]; simpl in Ha, Hreq.
  - injection Ha as Ha.
    destruct (v =? 0) eqn:Hv; simpl in Hreq; [discriminate|].
    apply Z.eqb_neq in Hv. split.
    + intros Hz. congruence.
    + intros w Hw. rewrite Ea in Hw. injection Hw as <-. auto.
  - split; [eauto|]. intros w Hw. rewrite Ea in Hw. discriminate.
Qed.

(** ** The books balance *)

Lemma sum_z_cons (x : Z) (xs : list Z) : sum_z (x :: xs) = x + sum_z xs.
Proof. reflexivity. Qed.

Lemma sum_z_zero_off_key (ids : list Z) (x v : Z) :
  ~ In x ids -> sum_z (map (fun k => if x =? k then v else 0) ids) = 0.
Proof.
  induction ids as [|k ids IH]; cbn [map In]; intros H; [reflexivity|].
  rewrite sum_z_cons.
  destruct (Z.eqb_spec x k) as [->|_]; [exfalso; apply H; now left|].
  rewrite IH; [reflexivity|]. intros Hin. apply H. now right.
Qed.

(** Among keys without repetition, exactly one is a given key. *)
Lemma sum_z_one_key (ids : list Z) (x v : Z) :
  NoDup ids -> In x ids ->
  sum_z (map (fun k => if x =? k then v else 0) ids) = v.
Proof.
  induction ids as [|k ids IH]; cbn [map In]; intros Hnd Hin; [tauto|].
  inversion Hnd as [|? ? Hk Hrest]; subst. rewrite sum_z_cons.
  destruct (Z.eqb_spec x k) as [->|Hne].
  - rewrite sum_z_zero_off_key by assumption. lia.
  - destruct Hin as [->|Hin]; [contradiction|].
    rewrite IH by assumption. lia.
Qed.

Lemma sum_z_map_add {A} (f g : A -> Z) (l : list A) :
  sum_z (map (fun x => f x + g x) l) = sum_z (map f l) + sum_z (map g l).
Proof.
  induction l as [|x l IH]; cbn [map]; [reflexivity|].
  rewrite !sum_z_cons, IH. lia.
Qed.

Lemma sum_amounts_sum_z (ps : list Payment) :
  sum_amounts ps = sum_z (map payment_amount ps).
Proof.
  induction ps as [|p ps IH]; cbn [map]; [reflexivity|].
  rewrite sum_z_cons, <- IH. reflexivity.
Qed.

(** When every payment is on exactly one invoice, the Completed totals of
    the invoices add up to the total of the Completed payments. *)
Lemma completed_totals_add_up (invs : list Invoice) (ps : list Payment) :
  NoDup (map invoice_id invs) ->
  Forall (fun p => In (payment_invoice_id p) (map invoice_id invs)) ps ->
  sum_z (map (fun i =>
                sum_amounts
                  (filter completed
                     (filter (fun p => payment_invoice_id p =? invoice_id i) ps)))
           invs) =
  sum_amounts (filter completed ps).
Proof.
  intros Hnd Hall. induction ps as [|p ps IH].
  - cbn [filter]. clear Hnd Hall.
    induction invs as [|i invs IHi]; [reflexivity|].
    cbn [map]. rewrite sum_z_cons, IHi. reflexivity.
  - inversion Hall as [|? ? Hp Hrest]; subst.
    transitivity
      (sum_z (map (fun i =>
                     (if payment_invoice_id p =? invoice_id i
                      then (if completed p then payment_amount p else 0) else 0) +
                     sum_amounts
                       (filter completed
                          (filter (fun q => payment_invoice_id q =? invoice_id i) ps)))
                invs)).
    + f_equal. apply map_ext. intros i. cbn [filter].
      destruct (payment_invoice_id p =? invoice_id i); [|lia].
      cbn [filter]. destruct (completed p); simpl; lia.
    + rewrite sum_z_map_add, (IH Hrest).
      rewrite <- (map_map invoice_id
                    (fun k => if payment_invoice_id p =? k
                              then (if completed p then payment_amount p else 0)
                              else 0)).
      rewrite sum_z_one_key by assumption.
      cbn [filter]. destruct (completed p); simpl; lia.
Qed.

Lemma filter_all_hold_nil {A} (l : list A) : filter (all_hold []) l = l.
Proof.
  induction l as [|x l IH]; simpl; [reflexivity|]. now rewrite IH.
Qed.

(** X21.  The books balance.  Starting from a ledger without invoices and
    payments, after any sequence of requests the summary without a date
    range reports a [total_invoiced] and a [total_collected] whose
    difference is the sum of the balances of all invoices. *)
Theorem run_books_balance (reqs : list LedgerRequest) (db : Db)
  (cu : CurrentUser) (args : SummaryArgs) (code : Z) (body : SummaryReport) :
  invoices db = [] -> payments db = [] ->
  s_start_date args = None -> s_end_date args = None ->
  get_financial_summary cu args (serve_all reqs db) = Json code body ->
  total_invoiced (summary body) - total_collected (summary body) =
  sum_z (map (calculate_balance (serve_all reqs db))
           (invoices (serve_all reqs db))).
Proof.
  intros Hi Hp Hs He.
  destruct (ledger_ok_run reqs db Hi Hp) as (Hkeys & Hpay & _).
  set (db' := serve_all reqs db) in *.
  unfold get_financial_summary.
  destruct (negb (role_required _ cu)); [discriminate|].
  unfold date_filters. rewrite Hs, He.
  intros [= <- <-]. simpl.
  rewrite !or_zero_sql_sum, filter_all_hold_nil, <- sum_amounts_sum_z.
  assert (Hsum : sum_z (map (fun i => completed_total db' i) (invoices db')) =
                 sum_amounts (filter completed (payments db'))).
  { apply completed_totals_add_up; [now apply keys_in_sequence_nodup|].
    eapply Forall_impl; [|exact Hpay].
    intros p [_ (i & Hrow & _)].
    destruct (get_invoice_row_id _ _ Hrow) as [Hid Hin].
    rewrite <- Hid. now apply in_map. }
  rewrite <- Hsum.
  assert (Hsplit : forall l,
             sum_z (map (calculate_balance db') l) =
             sum_z (map total_amount l) - sum_z (map (fun i => completed_total db' i) l)).
  { induction l as [|x l IH]; cbn [map]; [reflexivity|].
    rewrite !sum_z_cons, IH, balance_is_total_less_completed. lia. }
  rewrite Hsplit. reflexivity.
Qed.

(** X22.  An invoice paid for in full leaves the outstanding report, and it
    does so whatever the status of the payment.  After a successful payment
    of the whole balance, recorded as Completed, Pending or Failed alike,
    the invoice is Paid and no row of the outstanding report is about it. *)
Theorem paid_in_full_leaves_report (cu : CurrentUser) (data : PaymentData)
  (db : Db) (code : Z) (pay : Payment) (db' : Db) (reader : CurrentUser)
  (today : date) (code' : Z) (rows : list OutstandingRow) :
  create_payment cu data db = (Json code pay, db') ->
  (forall inv, get_invoice_row db (payment_invoice_id pay) = Some inv ->
               payment_amount pay = calculate_balance db inv) ->
  get_outstanding_report reader today db' = Json code' rows ->
  option_map status (get_invoice_row db' (payment_invoice_id pay)) =
    Some "Paid"%string /\
  Forall (fun r => invoice_id (row_invoice r) <> payment_invoice_id pay) rows.
Proof.
  intros H Hfull Hreport.
  destruct (create_payment_row _ _ _ H)
    as (inv & Hrow & _ & _ & _ & _ & _ & Hinvs).
  destruct (get_invoice_row_id _ _ Hrow) as [Hid _].
  rewrite (Hfull inv Hrow), Z.sub_diag in Hinvs.
  change (status_after_payment 0 (status inv)) with "Paid"%string in Hinvs.
  split.
  - unfold get_invoice_row in *.
    rewrite Hinvs, find_update_invoice_status, Hrow. simpl.
    now rewrite Hid, Z.eqb_refl.
  - unfold get_outstanding_report in Hreport.
    destruct (negb (role_required _ reader)); [discriminate|].
    destruct (all_some _ _) as [ys|] eqn:Hys; [|discriminate].
    injection Hreport as _ <-.
    apply all_some_forall2 in Hys.
    assert (Hmap : map row_invoice ys = outstanding_invoices db').
    { eapply forall2_map_back; [exact Hys|].
      intros i r Hr. now apply outstanding_row_fields in Hr. }
    apply Forall_forall. intros r Hr Heq.
    apply (Permutation_in _ (sort_desc_perm days_overdue ys)) in Hr.
    apply (in_map row_invoice) in Hr. rewrite Hmap in Hr.
    unfold outstanding_invoices in Hr.
    apply filter_In in Hr. destruct Hr as [Hr _].
    apply filter_In in Hr. destruct Hr as [Hin Hopen].
    apply (proj1 (rowid_scan_In _ _)) in Hin.
    rewrite Hinvs in Hin. apply in_update_invoice_status in Hin.
    destruct Hin as (j & _ & Hj).
    destruct (invoice_id j =? invoice_id inv) eqn:E.
    + rewrite Hj in Hopen. discriminate.
    + rewrite Hj in Heq. apply Z.eqb_neq in E. congruence.
Qed.

(** ** Who can write *)

Lemma token_required_ran {R : Type} (verify_token : string -> option CurrentUser)
  (reject : Z -> string -> R) (f : CurrentUser -> R)
  (authorization : option string) :
  (exists msg, token_required verify_token reject f authorization = reject 401 msg) \/
  (exists header token cu,
      authorization = Some header /\
      nth_error (split_on " " header) 1 = Some token /\
      token <> ""%string /\
      verify_token token = Some cu /\
      token_required verify_token reject f authorization = f cu).
Proof.
  unfold token_required.
  destruct authorization as [header|]; [|eauto].
  destruct (nth_error (split_on " " header) 1) as [token|] eqn:Hnth; [|eauto].
  destruct (String.eqb_spec token "") as [E|E]; [eauto|].
  destruct (verify_token token) as [cu|] eqn:Hv; [|eauto].
  right. exists header, token, cu. auto.
Qed.

(** X23.  No write without a verified token and the right to write.  When
    [POST /invoices] leaves the database changed, the second field of the
    [Authorization] header verified as the token of an admin or staff user.
    When [POST /payments] leaves it changed, the token verified as that of
    a user who may access the invoice paid on: admin, staff, or the student
    who owns it. *)
Theorem writes_need_a_verified_token (verify_token : string -> option CurrentUser)
  (authorization : option string) (db : Db) :
  (forall today data,
      snd (post_invoices verify_token authorization today data db) <> db ->
      exists header token cu,
        authorization = Some header /\
        nth_error (split_on " " header) 1 = Some token /\
        verify_token token = Some cu /\
        (role_type cu = "admin"%string \/ role_type cu = "staff"%string)) /\
  (forall data,
      snd (post_payments verify_token authorization data db) <> db ->
      exists header token cu inv,
        authorization = Some header /\
        nth_error (split_on " " header) 1 = Some token /\
        verify_token token = Some cu /\
        target_invoice data db = Some inv /\
        (role_type cu = "admin"%string \/ role_type cu = "staff"%string \/
         (role_type cu = "student"%string /\
          exists s, student_of_user db (user_id cu) = Some s /\
                    invoice_student_id inv = student_id s))).
Proof.
  split.
  - intros today data Hchanged. unfold post_invoices in Hchanged.
    destruct (token_required_ran verify_token (fun code msg => (Err code msg, db))
                (fun cu => create_invoice cu today data db) authorization)
      as [[msg E] | (header & token & cu & Ha & Hn & _ & Hv & E)];
      rewrite E in Hchanged; [now contradiction Hchanged|].
    destruct (create_invoice cu today data db) as [[c inv|c msg] db1] eqn:Hrun.
    + destruct (create_invoice_success _ _ _ _ Hrun) as (? & ? & ? & ? & Hrole & _).
      exists header, token, cu. repeat split; try assumption.
      now apply is_admin_or_staff_iff.
    + apply create_invoice_failure_keeps_db in Hrun. now contradiction Hchanged.
  - intros data Hchanged. unfold post_payments in Hchanged.
    destruct (token_required_ran verify_token (fun code msg => (Err code msg, db))
                (fun cu => create_payment cu data db) authorization)
      as [[msg E] | (header & token & cu & Ha & Hn & _ & Hv & E)];
      rewrite E in Hchanged; [now contradiction Hchanged|].
    destruct (create_payment cu data db) as [[c pay|c msg] db1] eqn:Hrun.
    + destruct (create_payment_success _ _ _ Hrun)
        as (iid & m & a & inv & Hreq & Hinv & Hacc & _).
      destruct (payment_required_fields_inr _ Hreq) as (Ei & _).
      exists header, token, cu, inv. repeat split; try assumption.
      * now rewrite (proj2 (@target_invoice_of_success _ _ _ _ _ _ _ Hrun Ei)).
      * destruct (may_access_invoice_who _ _ _ Hacc) as [Hr | Hr]; [|auto].
        apply is_admin_or_staff_iff in Hr. tauto.
    + apply create_payment_failure_keeps_db in Hrun. now contradiction Hchanged.
Qed.

(** ** The properties on the sample school *)

Import Sample.

(** C1: the claim as first stated fails.  Bob's user asks to pay 500.00 on
    Alice's invoice of 300.00: the amount exceeds the balance, and the
    answer is the 403 of the permission check, not a 400. *)
Lemma over_balance_request_of_another_student :
  target_invoice (pay 1 50000 None) billed = Some alice_invoice /\
  requested_amount (pay 1 50000 None) = Some 50000 /\
  50000 > calculate_balance billed alice_invoice /\
  create_payment bob_user (pay 1 50000 None) billed =
    (Err 403 "Access denied", billed).
Proof. repeat split. Qed.

Lemma create_payment_over_balance_example :
  target_invoice (pay 1 50000 None) billed = Some alice_invoice /\
  requested_amount (pay 1 50000 None) = Some 50000 /\
  50000 > calculate_balance billed alice_invoice /\
  exists code msg,
    create_payment admin (pay 1 50000 None) billed = (Err code msg, billed) /\
    (code = 400 \/ code = 403) /\
    (truthy_int (p_invoice_id (pay 1 50000 None)) = true ->
     truthy_str (p_payment_method (pay 1 50000 None)) = true ->
     may_access_invoice admin billed alice_invoice = true ->
     0 < 50000 ->
     code = 400 /\ msg = "Payment amount exceeds outstanding balance"%string).
Proof.
  split; [reflexivity|]. split; [reflexivity|]. split; [reflexivity|].
  apply (@create_payment_over_balance admin (pay 1 50000 None) billed
           alice_invoice 50000); reflexivity.
Defined.

(** C4: the claim as first stated fails.  A payment of −0.05 on an invoice
    that does not exist is answered 404, not 400. *)
Lemma negative_amount_on_missing_invoice :
  requested_amount (pay 99 (-5) None) = Some (-5) /\
  -5 <= 0 /\
  create_payment admin (pay 99 (-5) None) billed =
    (Err 404 "Invoice not found", billed).
Proof. repeat split. discriminate. Qed.

Lemma create_payment_non_positive_example :
  requested_amount (pay 1 (-5) None) = Some (-5) /\
  -5 <= 0 /\
  exists code msg,
    create_payment admin (pay 1 (-5) None) billed = (Err code msg, billed) /\
    (code = 400 \/
     (code = 500 /\
      exists iid, p_invoice_id (pay 1 (-5) None) = Some iid /\
                  fits_int64 iid = false) \/
     (code = 404 /\
      exists iid, p_invoice_id (pay 1 (-5) None) = Some iid /\
                  fits_int64 iid = true /\ get_invoice_row billed iid = None) \/
     (code = 403 /\ exists inv, target_invoice (pay 1 (-5) None) billed = Some inv /\
                                may_access_invoice admin billed inv = false)) /\
    (forall inv, target_invoice (pay 1 (-5) None) billed = Some inv ->
                 may_access_invoice admin billed inv = true -> code = 400) /\
    code =
      match payment_required_fields (pay 1 (-5) None) with
      | inl _ => 400
      | inr (iid, _, _) =>
          if negb (fits_int64 iid) then 500
          else match get_invoice_row billed iid with
               | None => 404
               | Some inv => if may_access_invoice admin billed inv then 400 else 403
               end
      end.
Proof.
  split; [reflexivity|]. split; [lia|].
  apply (@create_payment_non_positive admin (pay 1 (-5) None) billed (-5));
    [reflexivity|lia].
Defined.




(** C3: the claim as first stated fails.  A discount of 150.00 on an amount
    of 100.00 is accepted, and the invoice is stored with a total of
    −50.00. *)
Lemma discount_above_amount_is_accepted :
  discount_of (bill 1 10000 (Some 15000)) = Valid 15000 /\
  decimal_of (JNumber 10000) = Valid 10000 /\
  15000 > 10000 /\
  status_code (fst (create_invoice admin today (bill 1 10000 (Some 15000))
                      empty_ledger)) = 201 /\
  map total_amount
    (invoices (snd (create_invoice admin today (bill 1 10000 (Some 15000))
                      empty_ledger))) = [-5000].
Proof. repeat split. Qed.

Lemma create_invoice_total_amount_example :
  fits_int64 1 = true /\
  exists inv db',
    create_invoice admin today (bill 1 10000 (Some 15000)) empty_ledger =
      (Json 201 inv, db') /\
    get_invoice_row db' (invoice_id inv) = Some inv /\
    total_amount inv = 10000 - 15000 /\
    (15000 > 10000 -> total_amount inv < 0).
Proof.
  split; [reflexivity|].
  apply (proj1 (proj2 (create_invoice_total_amount admin today
                         (bill 1 10000 (Some 15000)) empty_ledger))
           1 1 (JNumber 10000) 10000 15000 today (today + 10));
    reflexivity.
Defined.

(** C8: the claim as first stated fails.  With a discount equal to the
    amount the total is 0, and the invoice is stored Pending, not Paid. *)
Lemma zero_total_invoice_starts_pending :
  status_code (fst (create_invoice admin today (bill 1 10000 (Some 10000))
                      empty_ledger)) = 201 /\
  map total_amount
    (invoices (snd (create_invoice admin today (bill 1 10000 (Some 10000))
                      empty_ledger))) = [0] /\
  map status
    (invoices (snd (create_invoice admin today (bill 1 10000 (Some 10000))
                      empty_ledger))) = ["Pending"%string].
Proof. repeat split. Qed.

Lemma create_invoice_status_pending_example :
  exists inv db',
    create_invoice admin today (bill 1 10000 (Some 10000)) empty_ledger =
      (Json 201 inv, db') /\
    total_amount inv = 0 /\
    get_invoice_row db' (invoice_id inv) = Some inv /\
    status inv = "Pending"%string.
Proof.
  eexists _, _. split; [vm_compute; reflexivity|]. split; [reflexivity|].
  apply (@create_invoice_status_pending admin today
           (bill 1 10000 (Some 10000)) empty_ledger 201).
  vm_compute; reflexivity.
Defined.

(** Three requests in a row, the second without an amount: the two invoices
    created carry the counters 1 and 2. *)
Lemma invoice_number_sequential_example :
  map invoice_number
    (fst (create_invoices admin today
            [bill 1 30000 None; bill 1 0 None; bill 2 20000 None] empty_ledger))
    = ["INV000001"; "INV000002"]%string /\
  map (fun i => label_counter (invoice_number i))
    (fst (create_invoices admin today
            [bill 1 30000 None; bill 1 0 None; bill 2 20000 None] empty_ledger))
    = map Some (counters_from 1 2) /\
  StronglySorted N.lt (counters_from 1 2).
Proof.
  split; [reflexivity|].
  apply (proj2 (invoice_number_sequential admin today)
           [bill 1 30000 None; bill 1 0 None; bill 2 20000 None] empty_ledger
           (fst (create_invoices admin today
                   [bill 1 30000 None; bill 1 0 None; bill 2 20000 None]
                   empty_ledger))
           (snd (create_invoices admin today
                   [bill 1 30000 None; bill 1 0 None; bill 2 20000 None]
                   empty_ledger))).
  reflexivity.
Defined.

(** C5: the claim as first stated fails.  An invoice created for a student
    id that has no row is Pending with a positive balance, and the report
    does not return it: the whole report is answered 500. *)
Lemma open_invoice_missing_from_report :
  create_invoice admin today (bill 99 10000 None) empty_ledger =
    (Json 201 ghost_invoice, haunted) /\
  invoices haunted = [ghost_invoice] /\
  status ghost_invoice = "Pending"%string /\
  calculate_balance haunted ghost_invoice = 10000 /\
  get_outstanding_report admin today haunted = Err 500 none_has_no_to_dict.
Proof. repeat split. Qed.

Lemma outstanding_report_rows_example :
  map invoice_id (invoices both_billed) = [1; 2] /\
  exists rows,
    get_outstanding_report admin today both_billed = Json 200 rows /\
    Permutation (map row_invoice rows)
      (filter (fun i => status_is_open i && (calculate_balance both_billed i >? 0))
         (invoices both_billed)) /\
    (forall i, In i (map row_invoice rows) <->
               In i (invoices both_billed) /\
               (status i = "Pending"%string \/ status i = "Partial"%string \/
                status i = "Overdue"%string) /\
               calculate_balance both_billed i > 0) /\
    Forall (fun r => days_overdue r = Z.max 0 (today - due_date (row_invoice r)) /\
                     outstanding_amount r =
                     calculate_balance both_billed (row_invoice r))
      rows /\
    StronglySorted
      (fun r1 r2 =>
         days_overdue r1 > days_overdue r2 \/
         (days_overdue r1 = days_overdue r2 /\
          invoice_id (row_invoice r1) <= invoice_id (row_invoice r2)))
      rows.
Proof.
  split; [reflexivity|].
  apply (proj1 (@outstanding_report_rows admin today both_billed eq_refl)).
  intros i [<- | [<- | []]]; split; discriminate.
Defined.


(** C10: the claim as first stated fails.  Asked for pages of −5 over
    twenty-five invoices, the handler hands min(−5, 100) = −5 to the
    paginator and reports it, and the page holds twenty invoices. *)
Lemma page_of_minus_five_holds_twenty :
  a_per_page pages_of_minus_five = Some (-5) /\
  List.length (invoices crowded) = 25%nat /\
  exists body,
    get_invoices paginate_query admin pages_of_minus_five crowded = Json 200 body /\
    pg_per_page (list_pagination body) = Z.min (-5) 100 /\
    Z.min (-5) 100 = -5 /\
    List.length (list_invoices body) = 20%nat.
Proof. split; [reflexivity|]. split; [reflexivity|]. eexists. repeat split. Qed.

Lemma get_invoices_page_size_example :
  exists body,
    get_invoices paginate_query admin pages_of_minus_five crowded = Json 200 body /\
    pg_per_page (list_pagination body) =
      Z.min (match a_per_page pages_of_minus_five with
             | Some n => n
             | None => 20
             end) 100 /\
    (1 <= pg_per_page (list_pagination body) ->
     Z.of_nat (List.length (list_invoices body)) <=
     pg_per_page (list_pagination body)) /\
    (pg_per_page (list_pagination body) < 1 ->
     Z.of_nat (List.length (list_invoices body)) <= 20) /\
    Z.of_nat (List.length (list_invoices body)) <=
      (if pg_per_page (list_pagination body) <? 1 then 20
       else pg_per_page (list_pagination body)) /\
    (List.length (list_invoices body) <= 100)%nat.
Proof.
  eexists. split; [vm_compute; reflexivity|].
  apply (@get_invoices_page_size paginate_query paginate_query_size
           admin pages_of_minus_five crowded 200).
  vm_compute; reflexivity.
Defined.

(** ** The further properties on the sample school *)

Lemma get_invoice_answer_example :
  exists body,
    get_invoice alice_user 1 billed = Json 200 body /\
    get_invoice_row billed 1 = Some (detail_invoice body) /\
    invoice_id (detail_invoice body) = 1 /\
    (forall p, In p (detail_payments body) <->
               In p (payments billed) /\ payment_invoice_id p = 1).
Proof.
  eexists. split; [vm_compute; reflexivity|].
  pose proof (@get_invoice_answer alice_user 1 billed 200 _ eq_refl)
    as (_ & Hrow & Hid & _ & Hpays).
  auto.
Defined.

Lemma get_invoice_after_payment_example :
  exists pay db' before,
    create_payment alice_user (plain_payment 1 "card" 10000) billed =
      (Json 201 pay, db') /\
    get_invoice alice_user (payment_invoice_id pay) billed = Json 200 before /\
    get_invoice alice_user (payment_invoice_id pay) db' =
      Json 200
        {| detail_invoice :=
             set_status
               (status_after_payment
                  (calculate_balance billed (detail_invoice before) -
                   payment_amount pay)
                  (status (detail_invoice before)))
               (detail_invoice before);
           detail_student := detail_student before;
           detail_fee_structure := detail_fee_structure before;
           detail_payments := detail_payments before ++ [pay] |}.
Proof.
  eexists _, _, _.
  split; [vm_compute; reflexivity|]. split; [vm_compute; reflexivity|].
  apply (@get_invoice_after_payment alice_user (plain_payment 1 "card" 10000)
           billed 201);
    vm_compute; reflexivity.
Defined.

Lemma dangling_invoice_cannot_be_read_example :
  create_invoice admin today (bill 99 10000 None) empty_ledger =
    (Json 201 ghost_invoice, haunted) /\
  invoice_student empty_ledger ghost_invoice = None /\
  get_invoice admin (invoice_id ghost_invoice) haunted =
    Err 500 none_has_no_to_dict /\
  get_invoice alice_user (invoice_id ghost_invoice) haunted =
    Err 403 "Access denied".
Proof.
  split; [reflexivity|]. split; [reflexivity|]. split.
  - apply (@dangling_invoice_cannot_be_read admin today (bill 99 10000 None)
             empty_ledger 201 ghost_invoice haunted admin);
      [reflexivity|left; reflexivity|reflexivity|reflexivity].
  - apply (@dangling_invoice_cannot_be_read admin today (bill 99 10000 None)
             empty_ledger 201 ghost_invoice haunted alice_user);
      [reflexivity|left; reflexivity|reflexivity|reflexivity].
Defined.

Lemma outstanding_report_fails_on_dangling_example :
  In ghost_invoice (invoices haunted) /\
  outstanding_amount_of haunted ghost_invoice > 0 /\
  get_outstanding_report admin today haunted = Err 500 none_has_no_to_dict.
Proof.
  split; [left; reflexivity|]. split; [reflexivity|].
  apply (@outstanding_report_fails_on_dangling admin today haunted ghost_invoice);
    [reflexivity|left; reflexivity|reflexivity|reflexivity|left; reflexivity].
Defined.

Lemma run_keys_and_numbers_example :
  serve_all busy_day empty_ledger = after_busy_day /\
  map invoice_id (invoices (serve_all busy_day empty_ledger)) =
    keys_upto (List.length (invoices (serve_all busy_day empty_ledger))) /\
  NoDup (map invoice_number (invoices (serve_all busy_day empty_ledger))).
Proof.
  split; [reflexivity|].
  pose proof (@run_keys_and_numbers busy_day empty_ledger eq_refl eq_refl) as H.
  cbv zeta in H. destruct H as (Hk & _ & _ & Hn). split; assumption.
Defined.

Lemma run_payments_in_order_example :
  Forall (fun p =>
            0 < payment_amount p /\
            exists i,
              get_invoice_row (serve_all busy_day empty_ledger)
                (payment_invoice_id p) = Some i /\
              payment_student_id p = invoice_student_id i)
    (payments (serve_all busy_day empty_ledger)).
Proof.
  exact (@run_payments_in_order busy_day empty_ledger eq_refl eq_refl).
Defined.

Lemma run_never_overpaid_example :
  Forall (fun i =>
            sum_amounts
              (filter completed
                 (invoice_payments (serve_all busy_day empty_ledger) i))
              <= Z.max 0 (total_amount i) /\
            (0 <= total_amount i ->
             0 <= calculate_balance (serve_all busy_day empty_ledger) i))
    (invoices (serve_all busy_day empty_ledger)).
Proof.
  exact (@run_never_overpaid busy_day empty_ledger eq_refl eq_refl).
Defined.

Lemma run_never_overdue_example :
  Forall (fun i => status i = "Pending"%string \/ status i = "Partial"%string \/
                   status i = "Paid"%string)
    (invoices (serve_all busy_day empty_ledger)) /\
  (forall cu args code body,
      get_financial_summary cu args (serve_all busy_day empty_ledger) =
        Json code body ->
      overdue_invoices (summary body) = 0).
Proof.
  exact (@run_never_overdue busy_day empty_ledger eq_refl eq_refl).
Defined.

Lemma run_status_moves_forward_example :
  option_map status (get_invoice_row paid_up 1) = Some "Paid"%string /\
  exists i',
    get_invoice_row (serve_all busy_day paid_up) 1 = Some i' /\
    status i' = "Paid"%string.
Proof.
  split; [reflexivity|].
  destruct (@run_status_moves_forward busy_day paid_up 1
              (set_status "Paid" alice_invoice) eq_refl)
    as (i' & Hrow & _ & Hpaid & _).
  exists i'. split; [exact Hrow|]. apply Hpaid. reflexivity.
Defined.

Lemma run_status_matches_balance_example :
  Forall (fun r => records_completed r = true) busy_day /\
  Forall (fun i =>
            (status i = "Pending"%string /\
             calculate_balance (serve_all busy_day empty_ledger) i =
               total_amount i) \/
            (status i = "Partial"%string /\
             0 < calculate_balance (serve_all busy_day empty_ledger) i
               < total_amount i) \/
            (status i = "Paid"%string /\
             calculate_balance (serve_all busy_day empty_ledger) i = 0))
    (invoices (serve_all busy_day empty_ledger)).
Proof.
  assert (H : Forall (fun r => records_completed r = true) busy_day)
    by (repeat constructor).
  split; [exact H|].
  exact (@run_status_matches_balance busy_day empty_ledger eq_refl eq_refl H).
Defined.

Lemma settled_invoice_takes_no_payment_example :
  target_invoice (pay 1 100 None) paid_up = Some (set_status "Paid" alice_invoice) /\
  calculate_balance paid_up (set_status "Paid" alice_invoice) <= 0 /\
  exists code msg,
    create_payment admin (pay 1 100 None) paid_up = (Err code msg, paid_up) /\
    (code = 400 \/ code = 403 \/ code = 500).
Proof.
  split; [reflexivity|]. split; [vm_compute; discriminate|].
  apply (@settled_invoice_takes_no_payment admin (pay 1 100 None) paid_up
           (set_status "Paid" alice_invoice));
    [reflexivity|vm_compute; discriminate].
Defined.

Lemma get_payments_role_scope_example :
  (forall code body,
      get_payments payment_id alice_user all_payments after_busy_day =
        Json code body ->
      exists s,
        student_of_user after_busy_day (user_id alice_user) = Some s /\
        Forall (fun v => payment_student_id (pv_payment v) = student_id s) body) /\
  get_payments payment_id parent_user all_payments after_busy_day =
    Err 403 "Access denied".
Proof.
  pose proof (@get_payments_role_scope payment_id alice_user all_payments
                after_busy_day) as (Hstudent & _).
  pose proof (@get_payments_role_scope payment_id parent_user all_payments
                after_busy_day) as (_ & Hother & _).
  split.
  - exact (proj1 (Hstudent eq_refl)).
  - apply Hother; discriminate.
Defined.

Lemma payment_is_listed_for_its_student_example :
  exists p db' body,
    create_payment admin (pay 1 10000 None) billed = (Json 201 p, db') /\
    student_of_user billed (user_id alice_user) = Some alice /\
    payment_student_id p = student_id alice /\
    get_payments payment_id alice_user all_payments db' = Json 200 body /\
    In p (map pv_payment body).
Proof.
  destruct (@payment_is_listed_for_its_student payment_id admin
              (pay 1 10000 None) billed 201 _ _ alice_user alice
              (Forall_nil _) eq_refl eq_refl eq_refl eq_refl)
    as (body & Hlist & Hin).
  eexists _, _, body. repeat split; [exact Hlist|exact Hin].
Defined.

Lemma reader_can_pay_example :
  exists detail pay db',
    get_invoice alice_user 1 billed = Json 200 detail /\
    create_payment alice_user (plain_payment 1 "card" 30000) billed =
      (Json 201 pay, db') /\
    payment_status pay = "Completed"%string /\
    processed_by pay = user_id alice_user /\
    option_map status (get_invoice_row db' 1) = Some "Paid"%string.
Proof.
  destruct (@reader_can_pay alice_user 1 billed _ "card" 30000 eq_refl)
    as (pay & db' & Hrun & _ & Hst & _ & Hby & Hpaid);
    [discriminate|discriminate|vm_compute; split; [reflexivity|discriminate]|].
  eexists _, pay, db'. split; [reflexivity|]. split; [exact Hrun|].
  split; [exact Hst|]. split; [exact Hby|]. apply Hpaid. reflexivity.
Defined.

Lemma summary_status_counts_example :
  exists body,
    get_financial_summary admin whole_period after_busy_day = Json 200 body /\
    total_invoices (summary body) = 2 /\
    paid_invoices (summary body) + pending_invoices (summary body) +
    overdue_invoices (summary body) < total_invoices (summary body).
Proof.
  eexists. split; [vm_compute; reflexivity|].
  destruct (@summary_status_counts admin whole_period after_busy_day 200 _ eq_refl)
    as (filters & Hf & H).
  injection Hf as <-. cbv zeta in H. destruct H as (Htotal & _ & Hpartial).
  split; [exact Htotal|].
  apply (Hpartial (set_status "Partial" alice_invoice));
    [left; reflexivity|reflexivity].
Defined.

Lemma summary_and_outstanding_report_example :
  exists body rows,
    get_financial_summary admin this_week after_busy_day = Json 200 body /\
    get_outstanding_report admin today after_busy_day = Json 200 rows /\
    outstanding_balance (summary body) = 15000 /\
    outstanding_balance (summary body) <= sum_z (map outstanding_amount rows).
Proof.
  eexists _, _. split; [vm_compute; reflexivity|].
  split; [vm_compute; reflexivity|].
  destruct (@summary_and_outstanding_report admin this_week today after_busy_day
              200 200 _ _ eq_refl eq_refl) as (Hsum & _ & Hle).
  split; [exact Hsum|exact Hle].
Defined.

Lemma token_required_any_scheme_example :
  token_required knows_one_token (@Err unit) (fun _ => Json 200 tt)
    (Some "Basic good-token and more"%string) = Json 200 tt /\
  token_required knows_one_token (@Err unit) (fun _ => Json 200 tt)
    (Some " good-token"%string) = Json 200 tt.
Proof.
  split.
  - exact (@token_required_any_scheme (response unit) knows_one_token Err
             (fun _ => Json 200 tt) "Basic" "good-token" (Some "and more"%string)
             eq_refl eq_refl ltac:(discriminate)).
  - exact (@token_required_any_scheme (response unit) knows_one_token Err
             (fun _ => Json 200 tt) "" "good-token" None
             eq_refl eq_refl ltac:(discriminate)).
Defined.

Lemma token_required_rejections_example :
  token_required knows_one_token (@Err unit) (fun _ => Json 200 tt)
    (Some "good-token"%string) = Err 401 "Invalid token format" /\
  token_required knows_one_token (@Err unit) (fun _ => Json 200 tt)
    (Some "Bearer  good-token"%string) = Err 401 "Token is missing".
Proof.
  destruct (@token_required_rejections (response unit) knows_one_token Err
              (fun _ => Json 200 tt)) as (_ & Hformat & _ & Hdouble).
  split.
  - apply Hformat. reflexivity.
  - apply (Hdouble "Bearer"%string "good-token"%string). reflexivity.
Defined.

Lemma get_student_financial_answer_example :
  get_student_financial exact_ops payment_id alice_user 2 after_busy_day =
    Err 403 "Access denied" /\
  get_student_financial exact_ops payment_id admin (2 ^ 63) after_busy_day =
    Err 500 overflow_error /\
  exists body,
    get_student_financial exact_ops payment_id alice_user 1 after_busy_day =
      Json 200 body /\
    (forall i, In i (sf_invoices body) -> invoice_student_id i = 1) /\
    (forall p, In p (sf_payments body) -> payment_student_id p = 1).
Proof.
  split; [reflexivity|]. split.
  - exact (proj1 (proj2 (proj2 (proj2 (@get_student_financial_answer exact_ops
                                         payment_id admin (2 ^ 63)
                                         after_busy_day)))) eq_refl).
  - eexists. split; [vm_compute; reflexivity|].
    destruct (proj2 (proj2 (proj2 (proj2 (@get_student_financial_answer exact_ops
                                            payment_id alice_user 1
                                            after_busy_day))))
                200 _ eq_refl)
      as (_ & _ & _ & _ & _ & _ & Hinv & Hpay).
    split; [exact Hinv|exact Hpay].
Defined.

Lemma create_invoice_zero_fields_example :
  exists inv db',
    create_invoice admin today
      {| i_student_id := Some 1; i_fee_id := Some 1;
         i_amount := Some (JText (Valid 0));
         i_due_date := Some (Valid (today + 10));
         i_discount := None; i_issue_date := None |} empty_ledger =
      (Json 201 inv, db') /\
    amount inv = 0 /\
    invoice_student_id inv <> 0 /\
    invoice_fee_id inv <> 0.
Proof.
  eexists _, _. split; [vm_compute; reflexivity|]. split; [reflexivity|].
  destruct (@create_invoice_zero_fields admin today
              {| i_student_id := Some 1; i_fee_id := Some 1;
                 i_amount := Some (JText (Valid 0));
                 i_due_date := Some (Valid (today + 10));
                 i_discount := None; i_issue_date := None |}
              empty_ledger 201 _ _ eq_refl) as (Hs & Hf & _).
  split; [exact Hs|exact Hf].
Defined.

Lemma run_books_balance_example :
  exists body,
    get_financial_summary admin whole_period (serve_all busy_day empty_ledger) =
      Json 200 body /\
    total_invoiced (summary body) - total_collected (summary body) =
    sum_z (map (calculate_balance (serve_all busy_day empty_ledger))
             (invoices (serve_all busy_day empty_ledger))).
Proof.
  eexists. split; [vm_compute; reflexivity|].
  exact (@run_books_balance busy_day empty_ledger admin whole_period 200 _
           eq_refl eq_refl eq_refl eq_refl eq_refl).
Defined.

Lemma paid_in_full_leaves_report_example :
  exists p db' rows,
    create_payment admin (pay 1 30000 (Some "Failed"%string)) billed =
      (Json 201 p, db') /\
    payment_status p = "Failed"%string /\
    get_outstanding_report admin today db' = Json 200 rows /\
    option_map status (get_invoice_row db' (payment_invoice_id p)) =
      Some "Paid"%string /\
    Forall (fun r => invoice_id (row_invoice r) <> payment_invoice_id p) rows.
Proof.
  eexists _, _, _. split; [vm_compute; reflexivity|]. split; [reflexivity|].
  split; [vm_compute; reflexivity|].
  apply (@paid_in_full_leaves_report admin (pay 1 30000 (Some "Failed"%string))
           billed 201 _ _ admin today 200);
    [vm_compute; reflexivity| |vm_compute; reflexivity].
  intros inv Hrow. vm_compute in Hrow. injection Hrow as <-. reflexivity.
Defined.

Lemma writes_need_a_verified_token_example :
  snd (post_invoices knows_one_token (Some "Bearer good-token"%string) today
         (bill 1 30000 None) empty_ledger) = billed /\
  exists header token cu,
    Some "Bearer good-token"%string = Some header /\
    nth_error (split_on " " header) 1 = Some token /\
    knows_one_token token = Some cu /\
    (role_type cu = "admin"%string \/ role_type cu = "staff"%string).
Proof.
  split; [reflexivity|].
  apply (proj1 (@writes_need_a_verified_token knows_one_token
                  (Some "Bearer good-token"%string) empty_ledger)
           today (bill 1 30000 None)).
  vm_compute. discriminate.
Defined.
